(** * Task-Automation-Bot: reminders and command dispatch

    A shallow embedding of [modules/reminders.py] (class [ReminderManager])
    and of the reminder branch of [main.py] (class [TaskAutomationBot]),
    together with the parts of the Python library they call:
    [str] methods, [int], [datetime.strptime], [datetime] arithmetic and
    the [json] text format.

    Conventions of the model.
    - A Python [str] is a [string]; its characters are the code points
      0..255 (Latin-1).  [lower], [isspace] and the regular-expression
      classes below are Python's on that range.
    - A Python exception is a value [Raise e] of the [result] type.
    - A [datetime] keeps its date as the proleptic Gregorian ordinal
      ([date.toordinal()]); the local time zone is taken to be UTC.
    - A POSIX timestamp (a [float] of seconds in Python) is kept as the
      exact count of microseconds, the resolution of [datetime]. *)

From Stdlib Require Import ZArith List String Ascii Bool Lia.
Import ListNotations.

Local Open Scope list_scope.
Local Open Scope string_scope.
Local Open Scope Z_scope.

(** ** Exceptions *)

Inductive exn : Type :=
| ValueError
| IndexError
| OverflowError
| CallbackError.

Inductive result (A : Type) : Type :=
| Return (a : A)
| Raise (e : exn).

Arguments Return {A} a.
Arguments Raise {A} e.

Definition bind {A B : Type} (m : result A) (k : A -> result B) : result B :=
  match m with
  | Return a => k a
  | Raise e => Raise e
  end.

Notation "x <- m ;; k" := (bind m (fun x => k))
  (at level 61, m at next level, right associativity).

(** ** Python strings *)

Module PyStr.

Definition code (c : ascii) : Z := Z.of_nat (nat_of_ascii c).

Definition in_range (lo hi : Z) (c : ascii) : bool :=
  (lo <=? code c) && (code c <=? hi).

(** [str.isspace] on one character. *)
Definition isspace (c : ascii) : bool :=
  in_range 9 13 c || in_range 28 32 c || (code c =? 133) || (code c =? 160).

Definition isdigit (c : ascii) : bool := in_range 48 57 c.

Definition digit_val (c : ascii) : Z := code c - 48.

(** [str.lower] on one character: A-Z and the Latin-1 capitals. *)
Definition lower_char (c : ascii) : ascii :=
  if in_range 65 90 c || (in_range 192 222 c && negb (code c =? 215))
  then ascii_of_nat (nat_of_ascii c + 32)
  else c.

Fixpoint lower (s : string) : string :=
  match s with
  | EmptyString => EmptyString
  | String c s' => String (lower_char c) (lower s')
  end.

Fixpoint lstrip (s : string) : string :=
  match s with
  | String c s' => if isspace c then lstrip s' else s
  | EmptyString => EmptyString
  end.

(** Drops trailing white space: a character is kept when it is not a
    blank or when something is kept after it. *)
Fixpoint rstrip (s : string) : string :=
  match s with
  | EmptyString => EmptyString
  | String c s' =>
      match rstrip s' with
      | EmptyString => if isspace c then EmptyString else String c EmptyString
      | r => String c r
      end
  end.

(** [s.strip()] *)
Definition strip (s : string) : string := rstrip (lstrip s).

Fixpoint drop (n : nat) (s : string) : string :=
  match n, s with
  | O, _ => s
  | S n', String _ s' => drop n' s'
  | S _, EmptyString => EmptyString
  end.

(** [sub in s] *)
Fixpoint contains (sub s : string) : bool :=
  prefix sub s ||
  match s with
  | EmptyString => false
  | String _ s' => contains sub s'
  end.

(** The text before and after the first occurrence of [sep]. *)
Fixpoint partition (sep s : string) : option (string * string) :=
  if prefix sep s then Some (EmptyString, drop (String.length sep) s)
  else
    match s with
    | EmptyString => None
    | String c s' =>
        match partition sep s' with
        | Some (a, b) => Some (String c a, b)
        | None => None
        end
    end.

(** [s.split(sep, 1)], for a non-empty [sep]. *)
Definition split1 (sep s : string) : list string :=
  match partition sep s with
  | Some (a, b) => [a; b]
  | None => [s]
  end.

(** [s.split(sep)] for a one-character [sep]. *)
Fixpoint split_char (sep : ascii) (s : string) : list string :=
  match s with
  | EmptyString => [EmptyString]
  | String c s' =>
      if Ascii.eqb c sep then EmptyString :: split_char sep s'
      else
        match split_char sep s' with
        | w :: ws => String c w :: ws
        | [] => [String c EmptyString]
        end
  end.

(** [s.split()]: the maximal runs of non-blank characters. *)
Fixpoint split_ws (s : string) : list string :=
  match s with
  | EmptyString => []
  | String c s' =>
      if isspace c then split_ws s'
      else
        match s' with
        | EmptyString => [String c EmptyString]
        | String c' _ =>
            if isspace c' then String c EmptyString :: split_ws s'
            else
              match split_ws s' with
              | w :: ws => String c w :: ws
              | [] => [String c EmptyString]
              end
        end
  end.

(** The blanks [int] skips around a numeral. *)
Definition int_space (c : ascii) : bool :=
  in_range 9 13 c || (code c =? 32) || (code c =? 133) || (code c =? 160).

Fixpoint lskip (s : string) : string :=
  match s with
  | String c s' => if int_space c then lskip s' else s
  | EmptyString => EmptyString
  end.

Fixpoint rskip (s : string) : string :=
  match s with
  | EmptyString => EmptyString
  | String c s' =>
      match rskip s' with
      | EmptyString => if int_space c then EmptyString else String c EmptyString
      | r => String c r
      end
  end.

(** Decimal digits with single underscores between them; [acc] is the
    value read so far and [after_digit] tells whether the previous
    character was a digit. *)
Fixpoint digits_value (acc : Z) (after_digit : bool) (s : string) : option Z :=
  match s with
  | EmptyString => if after_digit then Some acc else None
  | String c s' =>
      if isdigit c then digits_value (acc * 10 + digit_val c) true s'
      else if Ascii.eqb c "_"%char then
        if after_digit then digits_value acc false s' else None
      else None
  end.

(** [int(s)] in base ten. *)
Definition int (s : string) : result Z :=
  let body := rskip (lskip s) in
  let parsed :=
    match body with
    | String "-"%char d => option_map Z.opp (digits_value 0 false d)
    | String "+"%char d => digits_value 0 false d
    | d => digits_value 0 false d
    end in
  match parsed with
  | Some z => Return z
  | None => Raise ValueError
  end.

Definition digit_char (d : Z) : ascii := ascii_of_nat (Z.to_nat (48 + d)).

(** The decimal numeral of a natural number, most significant digit
    first; [fuel] bounds the number of digits. *)
Fixpoint decimal_aux (fuel : nat) (n : Z) (acc : string) : string :=
  match fuel with
  | O => acc
  | S f =>
      let acc' := String (digit_char (n mod 10)) acc in
      if n <? 10 then acc' else decimal_aux f (n / 10) acc'
  end.

Definition decimal (n : Z) : string :=
  decimal_aux (S (Z.to_nat (Z.log2 n))) n EmptyString.

Fixpoint zeros (n : nat) : string :=
  match n with
  | O => EmptyString
  | S n' => String "0"%char (zeros n')
  end.

(** [format(n, "0<width>d")]: the sign counts in the width. *)
Definition format_0d (width : nat) (n : Z) : string :=
  let body := decimal (Z.abs n) in
  let sign := if n <? 0 then "-" else "" in
  let used := (String.length sign + String.length body)%nat in
  sign ++ zeros (width - used) ++ body.

End PyStr.

(** ** [datetime.strptime] on the formats of [add_reminder]

    [_strptime] turns a format into a regular expression, matches it at
    the start of the text (ignoring case) and raises [ValueError] when
    it does not match or when text remains after the match.  A
    directive is modelled by the list of its matches at the start of a
    text, in the order in which the regular expression tries them. *)

Module Strptime.

Import PyStr.

Inductive meridiem : Type := AM | PM.

Inductive item : Type :=
| DirI                (* %I  1[0-2]|0[1-9]|[1-9] *)
| DirM                (* %M  [0-5]\d|\d *)
| DirH                (* %H  2[0-3]|[0-1]\d|\d *)
| DirP                (* %p  am|pm, the AM and PM of the C locale *)
| Blanks              (* white space in the format: \s+ *)
| Lit (c : ascii).

(** The groups found by a match. *)
Record groups : Type := mkGroups {
  g_I : option Z;
  g_M : option Z;
  g_H : option Z;
  g_p : option meridiem
}.

Definition no_groups : groups := mkGroups None None None None.

(** One alternative made of two character classes. *)
Definition two (lo1 hi1 lo2 hi2 : Z) (s : string) : list (Z * string) :=
  match s with
  | String a (String b r) =>
      if in_range lo1 hi1 a && in_range lo2 hi2 b
      then [(digit_val a * 10 + digit_val b, r)] else []
  | _ => []
  end.

(** One alternative made of one character class. *)
Definition one (lo hi : Z) (s : string) : list (Z * string) :=
  match s with
  | String a r => if in_range lo hi a then [(digit_val a, r)] else []
  | _ => []
  end.

Definition match_I (s : string) : list (Z * string) :=
  two 49 49 48 50 s ++ two 48 48 49 57 s ++ one 49 57 s.

Definition match_M (s : string) : list (Z * string) :=
  two 48 53 48 57 s ++ one 48 57 s.

Definition match_H (s : string) : list (Z * string) :=
  two 50 50 48 51 s ++ two 48 49 48 57 s ++ one 48 57 s.

Definition word (w : string) (v : meridiem) (s : string)
  : list (meridiem * string) :=
  if prefix w (lower (substring 0 (String.length w) s))
  then [(v, drop (String.length w) s)] else [].

Definition match_p (s : string) : list (meridiem * string) :=
  word "am" AM s ++ word "pm" PM s.

(** [\s+] is greedy: the longest run of blanks first, then shorter ones. *)
Fixpoint match_blanks (s : string) : list string :=
  match s with
  | String c r => if isspace c then match_blanks r ++ [r] else []
  | EmptyString => []
  end.

Definition match_lit (c : ascii) (s : string) : list string :=
  match s with
  | String a r => if Ascii.eqb (lower_char a) (lower_char c) then [r] else []
  | EmptyString => []
  end.

(** All the ways the items match a prefix of the text, first match first. *)
Fixpoint run (fmt : list item) (g : groups) (s : string)
  : list (groups * string) :=
  match fmt with
  | [] => [(g, s)]
  | it :: fmt' =>
      match it with
      | DirI => flat_map (fun '(v, r) =>
                  run fmt' (mkGroups (Some v) (g_M g) (g_H g) (g_p g)) r)
                  (match_I s)
      | DirM => flat_map (fun '(v, r) =>
                  run fmt' (mkGroups (g_I g) (Some v) (g_H g) (g_p g)) r)
                  (match_M s)
      | DirH => flat_map (fun '(v, r) =>
                  run fmt' (mkGroups (g_I g) (g_M g) (Some v) (g_p g)) r)
                  (match_H s)
      | DirP => flat_map (fun '(v, r) =>
                  run fmt' (mkGroups (g_I g) (g_M g) (g_H g) (Some v)) r)
                  (match_p s)
      | Blanks => flat_map (run fmt' g) (match_blanks s)
      | Lit c => flat_map (run fmt' g) (match_lit c s)
      end
  end.

(** The items of a format string: [%x] is a directive, a run of blanks
    is [\s+], any other character stands for itself. *)
Fixpoint compile (after_blank : bool) (fmt : string) : list item :=
  match fmt with
  | EmptyString => []
  | String "%"%char (String "I"%char r) => DirI :: compile false r
  | String "%"%char (String "M"%char r) => DirM :: compile false r
  | String "%"%char (String "H"%char r) => DirH :: compile false r
  | String "%"%char (String "p"%char r) => DirP :: compile false r
  | String c r =>
      if isspace c
      then (if after_blank then compile true r else Blanks :: compile true r)
      else Lit c :: compile false r
  end.

(** The [time()] of the parsed [datetime]: seconds and microseconds are 0. *)
Record time : Type := mkTime {
  hour : Z;
  minute : Z
}.

(** The hour of a match.  A twelve-hour value without meridiem is read
    as AM, and 12 AM is hour 0. *)
Definition hour_of (g : groups) : Z :=
  match g_I g with
  | Some h =>
      match g_p g with
      | None | Some AM => if h =? 12 then 0 else h
      | Some PM => if h =? 12 then h else h + 12
      end
  | None =>
      match g_H g with
      | Some h => h
      | None => 0
      end
  end.

Definition minute_of (g : groups) : Z :=
  match g_M g with
  | Some m => m
  | None => 0
  end.

(** [datetime.strptime(s, fmt).time()] *)
Definition strptime (s fmt : string) : result time :=
  match run (compile false fmt) no_groups s with
  | [] => Raise ValueError
  | (g, rest) :: _ =>
      match rest with
      | EmptyString => Return (mkTime (hour_of g) (minute_of g))
      | _ => Raise ValueError
      end
  end.

End Strptime.

(** ** [datetime] *)

Module Datetime.

Import PyStr.

(** A naive [datetime]: the date as its ordinal, then the clock fields. *)
Record datetime : Type := mkDatetime {
  dt_date : Z;
  dt_hour : Z;
  dt_minute : Z;
  dt_second : Z;
  dt_microsecond : Z
}.


(** [datetime.combine(date, time)] *)
Definition combine (date : Z) (t : Strptime.time) : datetime :=
  mkDatetime date (Strptime.hour t) (Strptime.minute t) 0 0.

(** [date.max.toordinal()], the ordinal of 9999-12-31. *)
Definition max_ordinal : Z := 3652059.

(** [d + timedelta(days=n)]; a date after [date.max] is an
    [OverflowError]. *)
Definition add_days (n : Z) (d : datetime) : result datetime :=
  if dt_date d + n <=? max_ordinal
  then Return (mkDatetime (dt_date d + n) (dt_hour d) (dt_minute d)
                          (dt_second d) (dt_microsecond d))
  else Raise OverflowError.

(** [a < b]: the fields are compared in order. *)
Definition lt (a b : datetime) : bool :=
  match dt_date a ?= dt_date b with
  | Lt => true | Gt => false
  | Eq =>
    match dt_hour a ?= dt_hour b with
    | Lt => true | Gt => false
    | Eq =>
      match dt_minute a ?= dt_minute b with
      | Lt => true | Gt => false
      | Eq =>
        match dt_second a ?= dt_second b with
        | Lt => true | Gt => false
        | Eq => dt_microsecond a <? dt_microsecond b
        end
      end
    end
  end.

(** The ordinal of 1970-01-01. *)
Definition epoch_ordinal : Z := 719163.

(** [d.timestamp()], in microseconds. *)
Definition timestamp (d : datetime) : Z :=
  ((((dt_date d - epoch_ordinal) * 24 + dt_hour d) * 60 + dt_minute d) * 60
   + dt_second d) * 1000000 + dt_microsecond d.

(** Year, month and day of an ordinal, as [_ord2ymd] computes them. *)
Definition days_before_month (leap : bool) (month : Z) : Z :=
  let base := nth (Z.to_nat month)
                [0; 0; 31; 59; 90; 120; 151; 181; 212; 243; 273; 304; 334] 0 in
  if (2 <? month) && leap then base + 1 else base.

Definition days_in_month (leap : bool) (month : Z) : Z :=
  let base := nth (Z.to_nat month)
                [0; 31; 28; 31; 30; 31; 30; 31; 31; 30; 31; 30; 31] 0 in
  if (month =? 2) && leap then base + 1 else base.

Definition ord2ymd (ordinal : Z) : Z * Z * Z :=
  let n := ordinal - 1 in
  let n400 := n / 146097 in
  let n := n mod 146097 in
  let n100 := n / 36524 in
  let n := n mod 36524 in
  let n4 := n / 1461 in
  let n := n mod 1461 in
  let n1 := n / 365 in
  let n := n mod 365 in
  let year := n400 * 400 + 1 + n100 * 100 + n4 * 4 + n1 in
  if (n1 =? 4) || (n100 =? 4) then (year - 1, 12, 31)
  else
    let leap := (n1 =? 3) && (negb (n4 =? 24) || (n100 =? 3)) in
    let month := Z.shiftr (n + 50) 5 in
    let preceding := days_before_month leap month in
    if n <? preceding
    then (year, month - 1,
          n - (preceding - days_in_month leap (month - 1)) + 1)
    else (year, month, n - preceding + 1).

(** [d.strftime("%Y-%m-%d %I:%M %p")] *)
Definition strftime (d : datetime) : string :=
  let '(y, m, dd) := ord2ymd (dt_date d) in
  let h12 := if dt_hour d mod 12 =? 0 then 12 else dt_hour d mod 12 in
  format_0d 4 y ++ "-" ++ format_0d 2 m ++ "-" ++ format_0d 2 dd ++ " " ++
  format_0d 2 h12 ++ ":" ++ format_0d 2 (dt_minute d) ++ " " ++
  (if dt_hour d <? 12 then "AM" else "PM").

End Datetime.

(** ** The [json] text format

    [json.dump(obj, f, indent=4)] and [json.load(f)] on the values a
    reminder file holds.  A number is a timestamp, kept in microseconds
    and written in fixed-point notation (for the whole seconds that
    [add_reminder] stores this is the numeral Python writes, as in
    [1730736000.0]); a numeral with an exponent, with more than six
    significant fraction digits, or a [\u] escape above 255 is outside
    the model and read as a decoding error. *)

Module Json.

Import PyStr.

#[warnings="-register-all"] Inductive json : Type :=
| JNull
| JBool (b : bool)
| JNum (us : Z)
| JStr (s : string)
| JList (l : list json)
| JDict (l : list (string * json)).

Definition nl : ascii := "010"%char.
Definition dquote : ascii := "034"%char.
Definition backslash : ascii := "092"%char.

Definition str1 (c : ascii) : string := String c EmptyString.

(** *** Encoding *)

Definition hex_digit (n : Z) : ascii :=
  if n <? 10 then digit_char n else ascii_of_nat (Z.to_nat (87 + n)).

(** [ESCAPE_ASCII]: everything outside [' ' .. '~'], the quote and the
    backslash are escaped. *)
Definition encode_char (c : ascii) : string :=
  if Ascii.eqb c dquote then String backslash (str1 dquote)
  else if Ascii.eqb c backslash then String backslash (str1 backslash)
  else if code c =? 10 then String backslash "n"
  else if code c =? 13 then String backslash "r"
  else if code c =? 9 then String backslash "t"
  else if code c =? 8 then String backslash "b"
  else if code c =? 12 then String backslash "f"
  else if in_range 32 126 c then str1 c
  else String backslash
         (String "u" (String "0" (String "0"
            (String (hex_digit (code c / 16))
               (str1 (hex_digit (code c mod 16))))))).

Fixpoint encode_chars (s : string) : string :=
  match s with
  | EmptyString => EmptyString
  | String c s' => encode_char c ++ encode_chars s'
  end.

Definition encode_string (s : string) : string :=
  String dquote (encode_chars s ++ str1 dquote).

(** The six fraction digits of [r], built from the last one. *)
Fixpoint fixed (k : nat) (r : Z) (acc : string) : string :=
  match k with
  | O => acc
  | S k' => fixed k' (r / 10) (String (digit_char (r mod 10)) acc)
  end.

(** Drops trailing zeros. *)
Fixpoint strip0 (s : string) : string :=
  match s with
  | EmptyString => EmptyString
  | String c s' =>
      match strip0 s' with
      | EmptyString => if Ascii.eqb c "0"%char then EmptyString else str1 c
      | r => String c r
      end
  end.

Definition frac_text (r : Z) : string :=
  match strip0 (fixed 6 r EmptyString) with
  | EmptyString => "0"
  | t => t
  end.

(** The numeral of a timestamp: seconds, a point, the fraction. *)
Definition repr_float (us : Z) : string :=
  (if us <? 0 then "-" else "") ++
  decimal (Z.abs us / 1000000) ++ "." ++ frac_text (Z.abs us mod 1000000).

Fixpoint spaces (n : nat) : string :=
  match n with
  | O => EmptyString
  | S n' => String " "%char (spaces n')
  end.

Definition newline (ind : nat) : string := String nl (spaces ind).

(** [json.dumps(v, indent=4)] at indentation [ind]. *)
Fixpoint dumps (ind : nat) (v : json) : string :=
  match v with
  | JNull => "null"
  | JBool true => "true"
  | JBool false => "false"
  | JNum us => repr_float us
  | JStr s => encode_string s
  | JList [] => "[]"
  | JList (x :: xs) =>
      "[" ++ newline (4 + ind) ++ dumps (4 + ind) x ++
      (fix items (l : list json) : string :=
         match l with
         | [] => EmptyString
         | y :: ys => "," ++ newline (4 + ind) ++ dumps (4 + ind) y ++ items ys
         end) xs ++
      newline ind ++ "]"
  | JDict [] => "{}"
  | JDict ((k, x) :: xs) =>
      "{" ++ newline (4 + ind) ++ encode_string k ++ ": " ++ dumps (4 + ind) x ++
      (fix pairs (l : list (string * json)) : string :=
         match l with
         | [] => EmptyString
         | (k', y) :: ys =>
             "," ++ newline (4 + ind) ++ encode_string k' ++ ": " ++
             dumps (4 + ind) y ++ pairs ys
         end) xs ++
      newline ind ++ "}"
  end.

(** *** Decoding *)

Definition is_ws (c : ascii) : bool :=
  (code c =? 32) || (code c =? 9) || (code c =? 10) || (code c =? 13).

Fixpoint skip_ws (s : string) : string :=
  match s with
  | String c r => if is_ws c then skip_ws r else s
  | EmptyString => EmptyString
  end.

Definition hex_val (c : ascii) : option Z :=
  if in_range 48 57 c then Some (code c - 48)
  else if in_range 97 102 c then Some (code c - 87)
  else if in_range 65 70 c then Some (code c - 55)
  else None.

Definition unescape (c : ascii) : option ascii :=
  if Ascii.eqb c dquote then Some dquote
  else if Ascii.eqb c backslash then Some backslash
  else if Ascii.eqb c "/"%char then Some "/"%char
  else if Ascii.eqb c "b"%char then Some "008"%char
  else if Ascii.eqb c "f"%char then Some "012"%char
  else if Ascii.eqb c "n"%char then Some "010"%char
  else if Ascii.eqb c "r"%char then Some "013"%char
  else if Ascii.eqb c "t"%char then Some "009"%char
  else None.

Definition cons_char (c : ascii) (r : option (string * string))
  : option (string * string) :=
  match r with
  | Some (s, rest) => Some (String c s, rest)
  | None => None
  end.

(** [scanstring], after the opening quote, in strict mode. *)
Fixpoint scanstring (s : string) : option (string * string) :=
  match s with
  | EmptyString => None
  | String c r =>
      if Ascii.eqb c dquote then Some (EmptyString, r)
      else if Ascii.eqb c backslash then
        match r with
        | String "u"%char (String h1 (String h2 (String h3 (String h4 r')))) =>
            match hex_val h1, hex_val h2, hex_val h3, hex_val h4 with
            | Some a, Some b, Some c', Some d =>
                let n := ((a * 16 + b) * 16 + c') * 16 + d in
                if n <? 256
                then cons_char (ascii_of_nat (Z.to_nat n)) (scanstring r')
                else None
            | _, _, _, _ => None
            end
        | String e r' =>
            match unescape e with
            | Some c' => cons_char c' (scanstring r')
            | None => None
            end
        | EmptyString => None
        end
      else if code c <? 32 then None
      else cons_char c (scanstring r)
  end.

Fixpoint span_digits (s : string) : string * string :=
  match s with
  | String c r =>
      if isdigit c
      then let (d, rest) := span_digits r in (String c d, rest)
      else (EmptyString, s)
  | EmptyString => (EmptyString, EmptyString)
  end.

Fixpoint digits_num (acc : Z) (ds : string) : Z :=
  match ds with
  | EmptyString => acc
  | String c r => digits_num (acc * 10 + digit_val c) r
  end.

(** The microseconds of fraction digits whose first digit weighs [w]. *)
Fixpoint frac_num (w : Z) (ds : string) : option Z :=
  match ds with
  | EmptyString => Some 0
  | String c r =>
      if (w =? 0) && negb (digit_val c =? 0) then None
      else option_map (Z.add (digit_val c * w)) (frac_num (w / 10) r)
  end.

(** Whether the text starts with an exponent part, [[eE][-+]?\d+]. *)
Definition has_exponent (s : string) : bool :=
  match s with
  | String e r =>
      (Ascii.eqb e "e"%char || Ascii.eqb e "E"%char) &&
      match r with
      | String c r' =>
          isdigit c ||
          ((Ascii.eqb c "+"%char || Ascii.eqb c "-"%char) &&
           match r' with
           | String d _ => isdigit d
           | EmptyString => false
           end)
      | EmptyString => false
      end
  | EmptyString => false
  end.

(** The optional point with digits and the optional exponent after
    the integer part [ip]. *)
Definition scan_fraction (neg : bool) (ip : Z) (s2 : string)
  : option (Z * string) :=
  let (fp, s3) :=
    match s2 with
    | String "."%char r =>
        match span_digits r with
        | (EmptyString, _) => (Some 0, s2)
        | (fs, rest) => (frac_num 100000 fs, rest)
        end
    | _ => (Some 0, s2)
    end in
  match fp with
  | None => None
  | Some f =>
      if has_exponent s3 then None
      else
        let v := ip * 1000000 + f in
        Some (if neg then - v else v, s3)
  end.

(** The numeral after the optional minus sign: 0 or a numeral without
    leading zero, then the fraction. *)
Definition scan_magnitude (neg : bool) (s1 : string) : option (Z * string) :=
  match s1 with
  | String c r =>
      if Ascii.eqb c "0"%char then scan_fraction neg 0 r
      else if in_range 49 57 c
      then let (ds, rest) := span_digits s1 in
           scan_fraction neg (digits_num 0 ds) rest
      else None
  | EmptyString => None
  end.

(** [NUMBER_RE] at the start of the text. *)
Definition scan_number (s : string) : option (Z * string) :=
  match s with
  | String c r =>
      if Ascii.eqb c "-"%char then scan_magnitude true r
      else scan_magnitude false s
  | EmptyString => None
  end.

(** [scan_once] and the array and object loops; [fuel] bounds the
    nesting and the number of items. *)
Fixpoint scan (fuel : nat) (s : string) : option (json * string) :=
  match fuel with
  | O => None
  | S f =>
      match s with
      | EmptyString => None
      | String c r =>
          if Ascii.eqb c dquote then
            match scanstring r with
            | Some (t, rest) => Some (JStr t, rest)
            | None => None
            end
          else if Ascii.eqb c "{"%char then
            match skip_ws r with
            | String "}"%char rest => Some (JDict [], rest)
            | r1 =>
                match scan_pairs f r1 with
                | Some (l, rest) => Some (JDict l, rest)
                | None => None
                end
            end
          else if Ascii.eqb c "["%char then
            match skip_ws r with
            | String "]"%char rest => Some (JList [], rest)
            | r1 =>
                match scan_items f r1 with
                | Some (l, rest) => Some (JList l, rest)
                | None => None
                end
            end
          else if prefix "null" s then Some (JNull, drop 4 s)
          else if prefix "true" s then Some (JBool true, drop 4 s)
          else if prefix "false" s then Some (JBool false, drop 5 s)
          else
            match scan_number s with
            | Some (n, rest) => Some (JNum n, rest)
            | None => None
            end
      end
  end

with scan_items (fuel : nat) (s : string) : option (list json * string) :=
  match fuel with
  | O => None
  | S f =>
      match scan f s with
      | Some (v, r) =>
          match skip_ws r with
          | String "]"%char rest => Some ([v], rest)
          | String ","%char r1 =>
              match scan_items f (skip_ws r1) with
              | Some (vs, rest) => Some (v :: vs, rest)
              | None => None
              end
          | _ => None
          end
      | None => None
      end
  end

with scan_pairs (fuel : nat) (s : string)
  : option (list (string * json) * string) :=
  match fuel with
  | O => None
  | S f =>
      match s with
      | String c r =>
          if Ascii.eqb c dquote then
            match scanstring r with
            | Some (k, r1) =>
                match skip_ws r1 with
                | String ":"%char r2 =>
                    match scan f (skip_ws r2) with
                    | Some (v, r3) =>
                        match skip_ws r3 with
                        | String "}"%char rest => Some ([(k, v)], rest)
                        | String ","%char r4 =>
                            match scan_pairs f (skip_ws r4) with
                            | Some (kvs, rest) => Some ((k, v) :: kvs, rest)
                            | None => None
                            end
                        | _ => None
                        end
                    | None => None
                    end
                | _ => None
                end
            | None => None
            end
          else None
      | EmptyString => None
      end
  end.

(** [json.loads(text)]; a [JSONDecodeError] is a [ValueError]. *)
Definition loads (text : string) : result json :=
  match scan (S (2 * String.length text)) (skip_ws text) with
  | Some (v, rest) =>
      match skip_ws rest with
      | EmptyString => Return v
      | _ => Raise ValueError
      end
  | None => Raise ValueError
  end.

(** [d[k]] on the pairs of an object: the last pair with the key. *)
Fixpoint lookup (k : string) (l : list (string * json)) : option json :=
  match l with
  | [] => None
  | (k', v) :: r =>
      match lookup k r with
      | Some v' => Some v'
      | None => if String.eqb k k' then Some v else None
      end
  end.

End Json.

(** ** [modules/reminders.py]: class [ReminderManager] *)

Module Reminders.

Import PyStr.

(** One entry of [self.reminders]: the dictionary with the keys
    ["task"], ["time"] and ["timestamp"]. *)
Record reminder : Type := mkReminder {
  task : string;
  time : string;
  timestamp : Z
}.

(** [a == b] on two such dictionaries. *)
Definition reminder_eqb (a b : reminder) : bool :=
  String.eqb (task a) (task b) && String.eqb (time a) (time b) &&
  (timestamp a =? timestamp b).

Definition to_json (r : reminder) : Json.json :=
  Json.JDict [("task", Json.JStr (task r));
              ("time", Json.JStr (time r));
              ("timestamp", Json.JNum (timestamp r))].

Definition of_json (v : Json.json) : option reminder :=
  match v with
  | Json.JDict l =>
      match Json.lookup "task" l, Json.lookup "time" l,
            Json.lookup "timestamp" l with
      | Some (Json.JStr t), Some (Json.JStr tm), Some (Json.JNum ts) =>
          Some (mkReminder t tm ts)
      | _, _, _ => None
      end
  | _ => None
  end.

Fixpoint list_of_json (l : list Json.json) : option (list reminder) :=
  match l with
  | [] => Some []
  | v :: l' =>
      match of_json v, list_of_json l' with
      | Some r, Some rs => Some (r :: rs)
      | _, _ => None
      end
  end.

(** The manager and what it acts on: the list [self.reminders], the
    flag [self.running], the content of the file [reminders.json]
    ([None] when there is no file) and the texts the announcement
    callback has been given and has spoken, oldest first. *)
Record manager : Type := mkManager {
  reminders : list reminder;
  running : bool;
  file : option string;
  announced : list string
}.

Definition set_reminders (l : list reminder) (m : manager) : manager :=
  mkManager l (running m) (file m) (announced m).

Definition set_running (b : bool) (m : manager) : manager :=
  mkManager (reminders m) b (file m) (announced m).

Definition announce (text : string) (m : manager) : manager :=
  mkManager (reminders m) (running m) (file m) (announced m ++ [text]).

(** [json.dump(self.reminders, f, indent=4)] *)
Definition dump (l : list reminder) : string :=
  Json.dumps 0 (Json.JList (map to_json l)).

(** [save_reminders]: the file is rewritten with the whole list. *)
Definition save_reminders (m : manager) : manager :=
  mkManager (reminders m) (running m) (Some (dump (reminders m))) (announced m).

(** [json.load(f)] as a list of reminders; a value of another shape is
    outside the typed store and counts as a decoding error. *)
Definition load (text : string) : result (list reminder) :=
  v <- Json.loads text ;;
  match v with
  | Json.JList l =>
      match list_of_json l with
      | Some rs => Return rs
      | None => Raise ValueError
      end
  | _ => Raise ValueError
  end.

(** [load_reminders]: nothing is read when the file does not exist; a
    file that cannot be decoded leaves the empty list. *)
Definition load_reminders (m : manager) : manager :=
  match file m with
  | None => m
  | Some text =>
      match load text with
      | Return rs => set_reminders rs m
      | Raise _ => set_reminders [] m
      end
  end.

(** [__init__], given the file found on disk. *)
Definition init (on_disk : option string) : manager :=
  load_reminders (mkManager [] false on_disk []).

(** [start]: the flag is set and the thread begins [_check_reminders]. *)
Definition start (m : manager) : manager :=
  if running m then m else set_running true m.

(** [stop]: the flag is cleared and the thread is joined. *)
Definition stop (m : manager) : manager := set_running false m.

Definition time_formats : list string :=
  ["%I:%M %p"; "%I:%M%p"; "%I %p"; "%I%p"; "%I:%M"; "%I"; "%H:%M"; "%H"].

(** The loop over [time_formats]: the first format that parses wins. *)
Fixpoint try_formats (fmts : list string) (time_str : string)
  : result (option Strptime.time) :=
  match fmts with
  | [] => Return None
  | fmt :: fmts' =>
      match Strptime.strptime time_str fmt with
      | Return t => Return (Some t)
      | Raise ValueError => try_formats fmts' time_str
      | Raise e => Raise e
      end
  end.

(** [parts[1].split()[0]] *)
Definition first_word (s : string) : result string :=
  match split_ws s with
  | w :: _ => Return w
  | [] => Raise IndexError
  end.

(** The manual parse after no format matched.  Its [try] catches
    [ValueError] only. *)
Definition manual_time (time_str : string) : result (option Strptime.time) :=
  match split_char ":"%char time_str with
  | [p0; p1] =>
      let body :=
        hours <- int p0 ;;
        w <- first_word p1 ;;
        minutes <- int w ;;
        if (0 <=? hours) && (hours <=? 23) && (0 <=? minutes) && (minutes <=? 59)
        then
          t <- Strptime.strptime
                 (format_0d 2 hours ++ ":" ++ format_0d 2 minutes) "%H:%M" ;;
          Return (Some t)
        else Return None in
      match body with
      | Raise ValueError => Return None
      | other => other
      end
  | _ => Return None
  end.

(** The time of day [add_reminder] gets from [time_str], already
    lower-cased and stripped. *)
Definition parse_time (time_str : string) : result (option Strptime.time) :=
  time_obj <- try_formats time_formats time_str ;;
  match time_obj with
  | None => manual_time time_str
  | Some _ => Return time_obj
  end.

(** The instant a reminder for [time_obj] gets when it is added at [now]. *)
Definition reminder_time (now : Datetime.datetime) (time_obj : Strptime.time)
  : result Datetime.datetime :=
  let reminder_time := Datetime.combine (Datetime.dt_date now) time_obj in
  if Datetime.lt reminder_time now
  then Datetime.add_days 1 (Datetime.combine (Datetime.dt_date now) time_obj)
  else Return reminder_time.

(** [add_reminder(task, time_str)] when the clock reads [now]. *)
Definition add_reminder (now : Datetime.datetime) (task time_str : string)
  (m : manager) : bool * manager :=
  let attempt : result (option manager) :=
    let time_str := strip (lower time_str) in
    time_obj <- parse_time time_str ;;
    match time_obj with
    | None => Return None
    | Some time_obj =>
        rt <- reminder_time now time_obj ;;
        let reminder :=
          mkReminder task (Datetime.strftime rt) (Datetime.timestamp rt) in
        Return (Some (save_reminders (set_reminders (reminders m ++ [reminder]) m)))
    end in
  match attempt with
  | Return (Some m') => (true, m')
  | Return None => (false, m)
  | Raise _ => (false, m)
  end.

(** [get_all_reminders] *)
Definition get_all_reminders (m : manager) : list reminder := reminders m.

(** The index of the first reminder whose task is [task] up to case,
    counting from [i]. *)
Fixpoint find_task (task_name : string) (l : list reminder) (i : nat)
  : option nat :=
  match l with
  | [] => None
  | r :: l' =>
      if String.eqb (lower (task r)) (lower task_name) then Some i
      else find_task task_name l' (S i)
  end.

(** [del l[i]] *)
Definition del (i : nat) (l : list reminder) : list reminder :=
  firstn i l ++ skipn (S i) l.

(** [remove_reminder(task)] *)
Definition remove_reminder (task_name : string) (m : manager) : bool * manager :=
  match find_task task_name (reminders m) 0 with
  | Some i => (true, save_reminders (set_reminders (del i (reminders m)) m))
  | None => (false, m)
  end.

(** [l.remove(x)]: the first item equal to [x] goes; [ValueError] when
    there is none. *)
Fixpoint list_remove (x : reminder) (l : list reminder)
  : result (list reminder) :=
  match l with
  | [] => Raise ValueError
  | y :: l' =>
      if reminder_eqb y x then Return l'
      else l'' <- list_remove x l' ;; Return (y :: l'')
  end.

(** How a run of the background thread stands: it went on with the
    manager [m], or an exception left the loop with the manager as it
    was at that point. *)
Inductive outcome : Type :=
| Done (m : manager)
| Crashed (e : exn) (m : manager).

Section Scheduler.

(** [self.speak], the announcement callback: it returns or raises. *)
Variable speak : string -> result unit.

(** The [for] loop of [_check_reminders] over the copy of the list. *)
Fixpoint fire_due (current_timestamp : Z) (snapshot : list reminder)
  (m : manager) : outcome :=
  match snapshot with
  | [] => Done m
  | reminder :: rest =>
      if timestamp reminder <=? current_timestamp then
        let text := "Reminder: " ++ task reminder in
        match speak text with
        | Raise e => Crashed e m
        | Return _ =>
            let m1 := announce text m in
            match list_remove reminder (reminders m1) with
            | Raise e => Crashed e m1
            | Return l =>
                fire_due current_timestamp rest
                         (save_reminders (set_reminders l m1))
            end
        end
      else fire_due current_timestamp rest m
  end.

(** One pass of the [while] loop, when the clock reads [now]. *)
Definition poll (now : Datetime.datetime) (m : manager) : outcome :=
  fire_due (Datetime.timestamp now) (reminders m) m.

(** [_check_reminders]: one pass per clock reading, as long as
    [self.running] holds; the thirty seconds of sleep lie between two
    readings. *)
Fixpoint check_reminders (clock : list Datetime.datetime) (m : manager)
  : outcome :=
  match clock with
  | [] => Done m
  | now :: later =>
      if running m then
        match poll now m with
        | Done m' => check_reminders later m'
        | Crashed e m' => Crashed e m'
        end
      else Done m
  end.

End Scheduler.

End Reminders.

(** ** [main.py]: class [TaskAutomationBot]

    The bot hands [VoiceIO.speak] to its [ReminderManager] and speaks
    through it itself.  [VoiceIO.speak] catches every exception of the
    speech engine, so it always returns: speaking appends the text to
    [announced]. *)

Module Bot.

Import PyStr Reminders.

(** [self.voice_io.speak(text)] *)
Definition say (text : string) (m : manager) : manager := announce text m.

(** [VoiceIO.speak] as the callback of the scheduler. *)
Definition voice_speak (text : string) : result unit := Return tt.

Definition time_keywords : list string := ["at"; "on"; "by"].
Definition task_keywords : list string := ["to"; "about"; "that"].

(** [time_part] and [task_part]; [None] is Python's [None]. *)
Definition slots : Type := (option string * option string)%type.

(** [not x] for an optional string. *)
Definition falsy (x : option string) : bool :=
  match x with
  | None => true
  | Some EmptyString => true
  | Some _ => false
  end.

(** The inner loop of the first pass: the task keywords in the text
    that follows the time keyword. *)
Fixpoint split_task (kws : list string) (time_part : string) : result slots :=
  match kws with
  | [] => Return (Some time_part, None)
  | task_keyword :: kws' =>
      if contains task_keyword time_part then
        match split1 task_keyword time_part with
        | a :: b :: _ => Return (Some (strip a), Some (strip b))
        | _ => Raise IndexError
        end
      else split_task kws' time_part
  end.

(** The first pass: the first time keyword the command contains. *)
Fixpoint time_first (kws : list string) (command : string) : result slots :=
  match kws with
  | [] => Return (None, None)
  | keyword :: kws' =>
      if contains keyword command then
        match split1 keyword command with
        | _ :: after :: _ => split_task task_keywords (strip after)
        | _ => time_first kws' command
        end
      else time_first kws' command
  end.

(** The inner loop of the second pass: a time keyword in the text
    before the task keyword. *)
Fixpoint find_time (kws : list string) (first : string)
  (time_part : option string) : result (option string) :=
  match kws with
  | [] => Return time_part
  | time_keyword :: kws' =>
      if contains time_keyword first then
        match split1 time_keyword first with
        | _ :: b :: _ => Return (Some (strip b))
        | _ => Raise IndexError
        end
      else find_time kws' first time_part
  end.

(** The second pass: the first task keyword the command contains. *)
Fixpoint task_first (kws : list string) (command : string) (s : slots)
  : result slots :=
  match kws with
  | [] => Return s
  | task_keyword :: kws' =>
      if contains task_keyword command then
        match split1 task_keyword command with
        | first :: after :: _ =>
            time_part <- find_time time_keywords first (fst s) ;;
            Return (time_part, Some (strip after))
        | _ => task_first kws' command s
        end
      else task_first kws' command s
  end.

(** The slot extraction of [_handle_set_reminder]. *)
Definition extract_slots (command : string) : result slots :=
  s <- time_first time_keywords command ;;
  if falsy (fst s) || falsy (snd s)
  then task_first task_keywords command s
  else Return s.

Definition msg_rephrase : string :=
  "I couldn't understand the reminder command. Please try again with a format like 'remind me at 4pm to water the plants'".

Definition msg_bad_time : string :=
  "I couldn't set that reminder. Please try again with a valid time format like '4pm' or '2:30 pm'".

Definition msg_set_error : string :=
  "I encountered an error while setting your reminder. Please try again.".

Definition msg_confirm (task_part time_part : string) : string :=
  "I'll remind you about " ++ task_part ++ " at " ++ time_part.

(** [_handle_set_reminder(command)] when the clock reads [now]. *)
Definition handle_set_reminder (now : Datetime.datetime) (command : string)
  (m : manager) : manager :=
  match extract_slots command with
  | Raise _ => say msg_set_error m
  | Return (time_part, task_part) =>
      match time_part, task_part with
      | Some time_part, Some task_part =>
          if falsy (Some time_part) || falsy (Some task_part)
          then say msg_rephrase m
          else
            match add_reminder now task_part time_part m with
            | (true, m') => say (msg_confirm task_part time_part) m'
            | (false, m') => say msg_bad_time m'
            end
      | _, _ => say msg_rephrase m
      end
  end.

(** [_handle_list_reminders] *)
Definition handle_list_reminders (m : manager) : manager :=
  match get_all_reminders m with
  | [] => say "You don't have any reminders set." m
  | rs =>
      fold_left (fun m' r => say (task r ++ " at " ++ time r) m') rs
                (say "Here are your reminders:" m)
  end.

(** The handlers that talk to the file, notes and voice collaborators. *)
Inductive handler : Type :=
| CleanDesktop | CleanDownloads
| CreateNote | OpenNote | SearchNotes
| OpenPdf | Help.

Section Dispatch.

(** What a collaborator handler does to the manager; it may raise. *)
Variable external : handler -> string -> manager -> outcome.

Definition msg_unknown : string :=
  "I'm sorry, I didn't understand that command.".

Definition msg_error : string :=
  "I encountered an error while processing your command.".

(** The outcome of a handler as the result of [process_command]: an
    exception is reported and the command counts as not handled. *)
Definition handled (o : outcome) : bool * manager :=
  match o with
  | Done m' => (true, m')
  | Crashed _ m' => (false, say msg_error m')
  end.

(** [process_command(command)] when the clock reads [now]. *)
Definition process_command (now : Datetime.datetime) (command : string)
  (m : manager) : bool * manager :=
  let command := lower command in
  if contains "remind" command || contains "reminder" command then
    if contains "list" command
    then (true, handle_list_reminders m)
    else (true, handle_set_reminder now command m)
  else if contains "clean" command then
    if contains "desktop" command then handled (external CleanDesktop command m)
    else if contains "downloads" command
    then handled (external CleanDownloads command m)
    else (true, m)
  else if contains "note" command || contains "notes" command then
    if contains "create" command then handled (external CreateNote command m)
    else if contains "open" command then handled (external OpenNote command m)
    else if contains "search" command
    then handled (external SearchNotes command m)
    else (true, m)
  else if contains "pdf" command then
    if contains "open" command then handled (external OpenPdf command m)
    else (true, m)
  else if contains "help" command then handled (external Help command m)
  else (false, say msg_unknown m).

End Dispatch.

End Bot.


(** ** Predicates of the statements *)



(** The reminder's task is [task_name] up to case. *)
Definition same_task (task_name : string) (r : Reminders.reminder) : bool :=
  String.eqb (PyStr.lower (Reminders.task r)) (PyStr.lower task_name).

Definition other_task (task_name : string) (r : Reminders.reminder) : bool :=
  negb (same_task task_name r).

(** The reminder is due at the timestamp [ts]. *)
Definition due (ts : Z) (r : Reminders.reminder) : bool :=
  Reminders.timestamp r <=? ts.

Definition pending (ts : Z) (r : Reminders.reminder) : bool := negb (due ts r).

(** The text the callback is given for a reminder. *)
Definition announcement (r : Reminders.reminder) : string :=
  "Reminder: " ++ Reminders.task r.

(** The file after the reminders [fired] have been fired and [left]
    is the list that remains. *)
Definition file_after (fired left : list Reminders.reminder)
  (m : Reminders.manager) : option string :=
  match fired with
  | [] => Reminders.file m
  | _ :: _ => Some (Reminders.dump left)
  end.

(** Every character of the text is a decimal digit. *)
Fixpoint all_digits (s : string) : bool :=
  match s with
  | EmptyString => true
  | String c r => PyStr.isdigit c && all_digits r
  end.

(** The text of the reminder file, written with its continuation:
    [string_text s rest] is the string [s] in quotes followed by
    [rest], and so on up to the whole list. *)
Definition string_text (s rest : string) : string :=
  String Json.dquote (Json.encode_chars s ++ String Json.dquote rest).

Definition member_text (k value_and_rest : string) : string :=
  string_text k (": " ++ value_and_rest).

Definition object_text (r : Reminders.reminder) (rest : string) : string :=
  "{" ++ Json.newline 8 ++
  member_text "task" (string_text (Reminders.task r)
    ("," ++ Json.newline 8 ++
     member_text "time" (string_text (Reminders.time r)
       ("," ++ Json.newline 8 ++
        member_text "timestamp"
          (Json.repr_float (Reminders.timestamp r) ++
           Json.newline 4 ++ "}" ++ rest))))).

Fixpoint items_text (xs : list Reminders.reminder) (rest : string) : string :=
  match xs with
  | [] => Json.newline 0 ++ "]" ++ rest
  | y :: ys => "," ++ Json.newline 4 ++ object_text y (items_text ys rest)
  end.

Definition list_text (l : list Reminders.reminder) : string :=
  match l with
  | [] => "[]"
  | x :: xs => "[" ++ Json.newline 4 ++ object_text x (items_text xs "")
  end.

(** The cleaned time string parses to the hour [h] and the minute [m]. *)
Definition parses_to (time_str : string) (h m : Z) : bool :=
  match Reminders.parse_time time_str with
  | Return (Some t) => (Strptime.hour t =? h) && (Strptime.minute t =? m)
  | _ => false
  end.

(** The hour the code gives to a bare hour [h]: as given, except that
    12 becomes 0. *)
Definition bare_hour (h : Z) : Z := if h =? 12 then 0 else h.

(** The hour of the twelve-hour value [h] with a meridiem. *)
Definition meridiem_hour (h : Z) (pm : bool) : Z :=
  h mod 12 + (if pm then 12 else 0).

Definition upto (lo n : nat) : list Z := map Z.of_nat (seq lo n).

(** Every bare time [H], [HH], [H:MM] and [HH:MM] from 0:00 to 23:59
    parses to the minute given and to the hour [bare_hour]. *)
Definition bare_times_checked : bool :=
  forallb (fun h =>
    parses_to (PyStr.decimal h) (bare_hour h) 0 &&
    parses_to (PyStr.format_0d 2 h) (bare_hour h) 0 &&
    forallb (fun m =>
      parses_to (PyStr.decimal h ++ ":" ++ PyStr.format_0d 2 m) (bare_hour h) m &&
      parses_to (PyStr.format_0d 2 h ++ ":" ++ PyStr.format_0d 2 m)
                (bare_hour h) m)
      (upto 0 60))
    (upto 0 24).

(** Every twelve-hour time with [am] or [pm], with or without minutes
    and with or without a space, parses to the hour and minute it
    names. *)
Definition meridiem_times_checked : bool :=
  forallb (fun h =>
    forallb (fun pm : bool =>
      let mer := if pm then "pm" else "am" in
      parses_to (PyStr.decimal h ++ " " ++ mer) (meridiem_hour h pm) 0 &&
      parses_to (PyStr.decimal h ++ mer) (meridiem_hour h pm) 0 &&
      forallb (fun m =>
        parses_to (PyStr.decimal h ++ ":" ++ PyStr.format_0d 2 m ++ " " ++ mer)
                  (meridiem_hour h pm) m &&
        parses_to (PyStr.decimal h ++ ":" ++ PyStr.format_0d 2 m ++ mer)
                  (meridiem_hour h pm) m)
        (upto 0 60))
      [false; true])
    (upto 1 12).


(** ** Concrete inputs used below *)

Definition at_4pm_first : string := "remind me at 4pm to water the plants".
Definition task_before_time : string := "remind me to water the plants at 4pm".

(** Monday 2024-11-04, 10:00. *)
Definition monday_10am : Datetime.datetime :=
  Datetime.mkDatetime 739194 10 0 0 0.

(** The same day at 16:00 and at 17:00. *)
Definition monday_4pm : Datetime.datetime :=
  Datetime.mkDatetime 739194 16 0 0 0.

Definition monday_5pm : Datetime.datetime :=
  Datetime.mkDatetime 739194 17 0 0 0.

(** Thirty seconds later than [monday_5pm]. *)
Definition monday_5pm_30s : Datetime.datetime :=
  Datetime.mkDatetime 739194 17 0 30 0.

(** Two reminders due at 17:00 and one for the next day. *)
Definition plants : Reminders.reminder :=
  Reminders.mkReminder "water plants" "2024-11-04 04:00 PM"
    (Datetime.timestamp monday_4pm).

Definition laundry : Reminders.reminder :=
  Reminders.mkReminder "laundry" "2024-11-04 04:00 PM"
    (Datetime.timestamp monday_4pm).

Definition dentist : Reminders.reminder :=
  Reminders.mkReminder "dentist" "2024-11-05 10:00 AM"
    (Datetime.timestamp (Datetime.mkDatetime 739195 10 0 0 0)).

Definition three_reminders : Reminders.manager :=
  Reminders.mkManager [plants; dentist; laundry] true None [].

(** A callback that raises on the announcement of [plants]. *)
Definition failing_speak (text : string) : result unit :=
  if String.eqb text "Reminder: water plants" then Raise CallbackError
  else Return tt.

(** A manager started without a file. *)
Definition fresh : Reminders.manager := Reminders.init None.

(** ** Further predicates on the reminder store *)

From Stdlib Require Import Permutation.

(** Restarting the program now, on the file as it is, would give the
    list the manager holds. *)
Definition restart_safe (m : Reminders.manager) : Prop :=
  Reminders.reminders (Reminders.init (Reminders.file m))
  = Reminders.reminders m.

(** The manager a run of the background thread leaves behind. *)
Definition state_of (o : Reminders.outcome) : Reminders.manager :=
  match o with
  | Reminders.Done m => m
  | Reminders.Crashed _ m => m
  end.

(** The reminders fired over a sequence of clock readings, in the
    order in which they are fired. *)
Fixpoint fired_in (clock : list Datetime.datetime)
  (l : list Reminders.reminder) : list Reminders.reminder :=
  match clock with
  | [] => []
  | now :: later =>
      (filter (due (Datetime.timestamp now)) l
       ++ fired_in later (filter (pending (Datetime.timestamp now)) l))%list
  end.

(** The reminder is due at none of the clock readings. *)
Definition never_due (clock : list Datetime.datetime)
  (r : Reminders.reminder) : bool :=
  forallb (fun now => pending (Datetime.timestamp now) r) clock.


(** ** [ui.py]: the reminders tab of [TaskAutomationUI] *)

Module Ui.

Import PyStr Reminders.




(** The "Delete" button of the entry at position [idx] of the list
    shown: [remove_reminder(reminder['task'])]. *)
Definition delete_clicked (idx : nat) (m : manager) : manager :=
  match nth_error (get_all_reminders m) idx with
  | Some reminder => snd (remove_reminder (task reminder) m)
  | None => m
  end.

End Ui.


(** ** [main.py]: [run_voice_mode]

    The loop of the voice mode, on what [VoiceIO.listen] returns at
    each round ([None] when nothing was recognised) and on what the
    clock reads when the command is processed.  The scheduler thread,
    which runs beside this loop, is not part of it. *)

Module Session.

Import PyStr Reminders.

Definition stop_words : list string := ["stop"; "exit"; "quit"; "goodbye"].

Definition msg_hello : string :=
  "Hello! I'm your Task Automation Bot. How can I help you today?".

Definition msg_listening : string := "Listening for your command...".

Definition msg_goodbye : string := "Goodbye! Have a great day!".

(** How the loop stands: still listening, or left through [break]. *)
Inductive session : Type :=
| Listening (m : manager)
| Ended (m : manager).

Section VoiceMode.

Variable external : Bot.handler -> string -> manager -> outcome.

(** [command.lower() in ["stop", "exit", "quit", "goodbye"]] *)
Definition is_stop (command : string) : bool :=
  existsb (String.eqb (lower command)) stop_words.

(** The rounds of the [while True] loop, one per entry of [heard]. *)
Fixpoint voice_loop (heard : list (option string * Datetime.datetime))
  (m : manager) : session :=
  match heard with
  | [] => Listening m
  | (command, now) :: rest =>
      let m1 := Bot.say msg_listening m in
      match command with
      | Some (String c s) =>
          let command := String c s in
          if is_stop command
          then Ended (stop (Bot.say msg_goodbye m1))
          else voice_loop rest (snd (Bot.process_command external now command m1))
      | _ => voice_loop rest m1
      end
  end.

(** [run_voice_mode] *)
Definition run_voice_mode (heard : list (option string * Datetime.datetime))
  (m : manager) : session :=
  voice_loop heard (Bot.say msg_hello m).

End VoiceMode.

End Session.

(** The manager of a session. *)
Definition session_state (s : Session.session) : Reminders.manager :=
  match s with
  | Session.Listening m => m
  | Session.Ended m => m
  end.

(** No entry of what was heard is one of the stop words. *)
Definition no_stop (heard : list (option string * Datetime.datetime)) : bool :=
  forallb (fun entry =>
             match fst entry with
             | Some command => negb (Session.is_stop command)
             | None => true
             end) heard.

(** ** [main.py]: [_load_config]

    The configuration is the value [json.load] returns.  The two
    default directories are [os.path.join] of the home directory with
    fixed names; they are taken as they come. *)

Module Config.

Section LoadConfig.

Variable default_notes_dir : string.
Variable backup_dir : string.

Definition default_config : Json.json :=
  Json.JDict [("voice_enabled", Json.JBool true);
              ("default_notes_dir", Json.JStr default_notes_dir);
              ("backup_dir", Json.JStr backup_dir)].

(** [_load_config], given the content of [config.json] ([None] when
    the file does not exist): the configuration and the file
    afterwards. *)
Definition load_config (config_file : option string)
  : Json.json * option string :=
  match config_file with
  | Some text =>
      match Json.loads text with
      | Return config => (config, config_file)
      | Raise _ => (default_config, config_file)
      end
  | None => (default_config, Some (Json.dumps 0 default_config))
  end.

End LoadConfig.

End Config.

(** The text of the default configuration file, written with its
    continuation. *)
Definition config_text (default_notes_dir backup_dir : string) : string :=
  "{" ++ Json.newline 4 ++
  member_text "voice_enabled"
    ("true" ++ "," ++ Json.newline 4 ++
     member_text "default_notes_dir"
       (string_text default_notes_dir
          ("," ++ Json.newline 4 ++
           member_text "backup_dir"
             (string_text backup_dir (Json.newline 0 ++ "}"))))).

(** ** [modules/file_manager.py]: [organize_directory]

    The file system is a state of a type left open, reached through
    the operations the code calls ([os.path.exists], [os.path.isfile],
    [os.makedirs], [os.listdir], [shutil.move], [os.path.join]); an
    operation that raises gives the state it leaves and the exception.
    Beside the dictionary [files_moved] the model keeps the list of the
    moves that succeeded, as pairs of file name and category. *)

Module Files.

Import PyStr.

(** [self.file_categories], in the order of the dictionary. *)
Definition file_categories : list (string * list string) :=
  [("documents", [".pdf"; ".doc"; ".docx"; ".txt"; ".rtf"; ".odt"]);
   ("images", [".jpg"; ".jpeg"; ".png"; ".gif"; ".bmp"; ".svg"]);
   ("videos", [".mp4"; ".avi"; ".mov"; ".wmv"; ".flv"; ".mkv"]);
   ("audio", [".mp3"; ".wav"; ".ogg"; ".m4a"; ".flac"]);
   ("archives", [".zip"; ".rar"; ".7z"; ".tar"; ".gz"]);
   ("code", [".py"; ".js"; ".html"; ".css"; ".java"; ".cpp"; ".c"]);
   ("spreadsheets", [".xls"; ".xlsx"; ".csv"; ".ods"]);
   ("presentations", [".ppt"; ".pptx"; ".odp"])].

Definition category_names : list string := map fst file_categories.

(** The text before the last dot and the text from the last dot on. *)
Fixpoint last_dot (s : string) : option (string * string) :=
  match s with
  | EmptyString => None
  | String c r =>
      match last_dot r with
      | Some (b, e) => Some (String c b, e)
      | None => if Ascii.eqb c "."%char then Some (EmptyString, s) else None
      end
  end.

Fixpoint all_dots (s : string) : bool :=
  match s with
  | EmptyString => true
  | String c r => Ascii.eqb c "."%char && all_dots r
  end.

(** [os.path.splitext(name)[1]] for a file name, which holds no path
    separator: the text from the last dot on, unless only dots come
    before that dot. *)
Definition splitext_ext (name : string) : string :=
  match last_dot name with
  | Some (b, e) => if all_dots b then EmptyString else e
  | None => EmptyString
  end.

(** [x in l] *)
Definition mem (x : string) (l : list string) : bool :=
  existsb (String.eqb x) l.

(** [d[key] += 1] *)
Fixpoint increment (key : string) (d : list (string * Z)) : list (string * Z) :=
  match d with
  | [] => []
  | (k, v) :: r =>
      if String.eqb k key then (k, v + 1) :: r else (k, v) :: increment key r
  end.

(** [sum(d.values())] *)
Definition total (d : list (string * Z)) : Z :=
  fold_right (fun kv acc => snd kv + acc) 0 d.

(** [str(n)] for an integer. *)
Definition str_int (n : Z) : string :=
  (if n <? 0 then "-" else "") ++ decimal (Z.abs n).

(** What a call that may raise gives. *)
Inductive attempt (E A : Type) : Type :=
| Returned (a : A)
| Raised (e : E).

Arguments Returned {E A} a.
Arguments Raised {E A} e.

Section Organize.

(** The file system, the exceptions its calls raise, and the calls of
    [os], [os.path] and [shutil] that the organizer makes; a call that
    changes the file system gives the file system afterwards and the
    exception it raised, if any. *)
Variable world : Type.
Variable error : Type.
Variable path_exists : string -> world -> bool.
Variable isfile : string -> world -> bool.
Variable makedirs : string -> world -> world * option error.
Variable listdir : string -> world -> attempt error (list string).
Variable move : string -> string -> world -> world * option error.
Variable join : string -> string -> string.

(** The loop state: [files_moved], the file system and the moves that
    succeeded so far. *)
Record progress : Type := mkProgress {
  files_moved : list (string * Z);
  fs : world;
  moves : list (string * string)
}.

Inductive run : Type :=
| Going (p : progress)
| Broken (e : error) (p : progress).

(** The loop over the categories for one file: the first category that
    lists the extension and into which the move succeeds. *)
Fixpoint try_categories (directory file file_ext : string)
  (cats : list (string * list string)) (p : progress) : bool * progress :=
  match cats with
  | [] => (false, p)
  | (category, extensions) :: cats' =>
      if mem file_ext extensions then
        let dest_path := join (join directory category) file in
        match move (join directory file) dest_path (fs p) with
        | (w, None) =>
            (true, mkProgress (increment category (files_moved p)) w
                     (moves p ++ [(file, category)]))
        | (w, Some _) =>
            try_categories directory file file_ext cats'
              (mkProgress (files_moved p) w (moves p))
        end
      else try_categories directory file file_ext cats' p
  end.

(** The branch [if not moved]. *)
Definition move_to_others (directory file : string) (p : progress) : run :=
  let others_path := join directory "others" in
  let (w1, err) :=
    if path_exists others_path (fs p) then (fs p, None)
    else makedirs others_path (fs p) in
  match err with
  | Some e => Broken e (mkProgress (files_moved p) w1 (moves p))
  | None =>
      match move (join directory file) (join others_path file) w1 with
      | (w2, None) =>
          Going (mkProgress (increment "others" (files_moved p)) w2
                   (moves p ++ [(file, "others")]))
      | (w2, Some _) => Going (mkProgress (files_moved p) w2 (moves p))
      end
  end.

(** The body of the loop over [os.listdir(directory)]. *)
Definition organize_file (directory file : string) (p : progress) : run :=
  if isfile (join directory file) (fs p) then
    let file_ext := lower (splitext_ext file) in
    match try_categories directory file file_ext file_categories p with
    | (true, p1) => Going p1
    | (false, p1) => move_to_others directory file p1
    end
  else Going p.

Fixpoint organize_files (directory : string) (files : list string)
  (p : progress) : run :=
  match files with
  | [] => Going p
  | file :: rest =>
      match organize_file directory file p with
      | Going p1 => organize_files directory rest p1
      | Broken e p1 => Broken e p1
      end
  end.

(** The loop that creates the category directories. *)
Fixpoint make_category_dirs (directory : string) (names : list string)
  (w : world) : world * option error :=
  match names with
  | [] => (w, None)
  | category :: rest =>
      let category_path := join directory category in
      if path_exists category_path w
      then make_category_dirs directory rest w
      else
        match makedirs category_path w with
        | (w1, None) => make_category_dirs directory rest w1
        | (w1, Some e) => (w1, Some e)
        end
  end.

(** [organize_directory(directory)]: what it returns or raises, the
    file system afterwards and the moves made. *)
Definition organize_directory (directory : string) (w : world)
  : attempt error (list (string * Z)) * world * list (string * string) :=
  if negb (path_exists directory w) then (Returned [], w, [])
  else
    match make_category_dirs directory category_names w with
    | (w1, Some e) => (Raised e, w1, [])
    | (w1, None) =>
        let zero_counts :=
          (map (fun category => (category, 0)) category_names
           ++ [("others", 0)])%list in
        match listdir directory w1 with
        | Raised e => (Raised e, w1, [])
        | Returned files =>
            match organize_files directory files (mkProgress zero_counts w1 []) with
            | Going p => (Returned (files_moved p), fs p, moves p)
            | Broken e p => (Raised e, fs p, moves p)
            end
        end
    end.

(** [VoiceIO.confirm_command(command)], on what [listen] returns. *)
Definition confirm_command (command : string) (response : option string)
  (m : Reminders.manager) : bool * Reminders.manager :=
  let m1 :=
    Bot.say ("Do you want me to " ++ command ++ "? Please say yes or no.") m in
  match response with
  | Some r => (contains "yes" (lower r), m1)
  | None => (false, m1)
  end.

(** [_handle_clean_desktop] and [_handle_clean_downloads] of [main.py]
    differ in the place they name and in the directory they organize.
    On the name of the place, the path of the directory and what the
    user answers: the exception that gets out, if any, and the manager,
    the file system and the moves afterwards. *)
Definition handle_clean (place path : string)
  (response : option string) (m : Reminders.manager) (w : world)
  : option error * Reminders.manager * world * list (string * string) :=
  match confirm_command ("clean your " ++ place) response m with
  | (true, m1) =>
      match organize_directory path w with
      | (Returned result, w1, log) =>
          (None,
           Bot.say ("Cleaned your " ++ place ++ ". Moved "
                    ++ str_int (total result)
                    ++ " files to their appropriate folders.") m1,
           w1, log)
      | (Raised e, w1, log) => (Some e, m1, w1, log)
      end
  | (false, m1) => (None, m1, w, [])
  end.

Definition handle_clean_desktop (desktop_path : string) :=
  handle_clean "desktop" desktop_path.

Definition handle_clean_downloads (downloads_path : string) :=
  handle_clean "downloads folder" downloads_path.

End Organize.

Arguments mkProgress {world} files_moved fs moves.
Arguments files_moved {world} p.
Arguments fs {world} p.
Arguments moves {world} p.
Arguments Going {world error} p.
Arguments Broken {world error} e p.
Arguments try_categories {world error} move join directory file file_ext cats p.
Arguments move_to_others {world error} path_exists makedirs move join
  directory file p.
Arguments organize_file {world error} path_exists isfile makedirs move join
  directory file p.
Arguments organize_files {world error} path_exists isfile makedirs move join
  directory files p.
Arguments make_category_dirs {world error} path_exists makedirs join
  directory names w.
Arguments organize_directory {world error} path_exists isfile makedirs listdir
  move join directory w.
Arguments handle_clean {world error} path_exists isfile makedirs listdir
  move join place path response m w.
Arguments handle_clean_desktop {world error} path_exists isfile makedirs
  listdir move join desktop_path.
Arguments handle_clean_downloads {world error} path_exists isfile makedirs
  listdir move join downloads_path.

End Files.

(** The move of [file] into [category] is one the categories allow:
    the category lists the lower-cased extension of the file, or it is
    "others". *)
Definition move_allowed (entry : string * string) : Prop :=
  (exists extensions,
     In (snd entry, extensions) Files.file_categories /\
     Files.mem (PyStr.lower (Files.splitext_ext (fst entry))) extensions = true)
  \/ snd entry = "others".

(** The category a file belongs to: the first one that lists its
    lower-cased extension, "others" when none does. *)
Definition category_of (file : string) : string :=
  match find (fun entry =>
                Files.mem (PyStr.lower (Files.splitext_ext file)) (snd entry))
             Files.file_categories with
  | Some (category, _) => category
  | None => "others"
  end.

(** A small file system for the examples: the paths of the regular
    files; every directory exists, [listdir] gives the names below,
    a move fails when the destination is a file already. *)
Definition toy_world : Type := list string.

Inductive toy_error : Type := FileExists.

Definition toy_exists (path : string) (w : toy_world) : bool := true.

Definition toy_isfile (path : string) (w : toy_world) : bool := Files.mem path w.

Definition toy_makedirs (path : string) (w : toy_world)
  : toy_world * option toy_error := (w, None).

Definition toy_listdir (path : string) (w : toy_world)
  : Files.attempt toy_error (list string) :=
  Files.Returned ["Report.PDF"; "photo.jpeg"; "documents"; ".profile"; "data.tar.gz"].

Definition toy_move (src dst : string) (w : toy_world)
  : toy_world * option toy_error :=
  if Files.mem dst w then (w, Some FileExists)
  else (dst :: filter (fun p => negb (String.eqb p src)) w, None).

Definition toy_join (a b : string) : string := a ++ "/" ++ b.

Definition toy_desktop : toy_world :=
  ["Desktop/Report.PDF"; "Desktop/photo.jpeg"; "Desktop/.profile";
   "Desktop/data.tar.gz"].

(** The same desktop when documents/Report.PDF is there already. *)
Definition toy_desktop_clash : toy_world :=
  "Desktop/documents/Report.PDF" :: toy_desktop.

(** The dictionary has its nine keys, its values add up to the number
    of moves made, and every move made is one the categories allow. *)
Definition tally_ok {world : Type} (p : Files.progress world) : Prop :=
  map fst (Files.files_moved p)
  = (Files.category_names ++ ["others"])%list /\
  Files.total (Files.files_moved p)
  = Z.of_nat (List.length (Files.moves p)) /\
  Forall move_allowed (Files.moves p).

Definition run_state {world error : Type} (r : Files.run world error)
  : Files.progress world :=
  match r with
  | Files.Going p => p
  | Files.Broken _ p => p
  end.

(** A name as [os.listdir] gives it holds no path separator. *)
Definition file_name (s : string) : Prop :=
  PyStr.contains "/" s = false /\ PyStr.contains "\" s = false.

(** What the two questions of the clean handlers say. *)
Definition msg_question (place : string) : string :=
  "Do you want me to clean your " ++ place ++ "? Please say yes or no.".

Definition msg_cleaned (place : string) (n : nat) : string :=
  "Cleaned your " ++ place ++ ". Moved " ++ Files.str_int (Z.of_nat n)
  ++ " files to their appropriate folders.".

(** The user said something that holds "yes", in any letter case. *)
Definition confirmed (response : option string) : bool :=
  match response with
  | Some r => PyStr.contains "yes" (PyStr.lower r)
  | None => false
  end.

(** The state of the loop of [organize_directory] when it starts on a
    file system. *)
Definition toy_start (w : toy_world) : Files.progress toy_world :=
  Files.mkProgress
    (map (fun category => (category, 0)) Files.category_names
     ++ [("others", 0)])%list
    w [].

(** What the clean handlers have said at the end: the question, and
    the count when the user agreed and nothing was raised. *)
Definition clean_speech {error : Type} (place : string)
  (response : option string) (err : option error) (log : list (string * string))
  : list string :=
  match confirmed response, err with
  | true, None => [msg_question place; msg_cleaned place (List.length log)]
  | _, _ => [msg_question place]
  end.

(** * Checks of the model on concrete inputs *)

Example lower_mixed : PyStr.lower "Remind ME At 4PM" = "remind me at 4pm".
Proof. reflexivity. Qed.

Example strip_blanks : PyStr.strip "  4 pm  " = "4 pm".
Proof. reflexivity. Qed.

Example split1_found : PyStr.split1 "bc" "abcabc" = ["a"; "abc"].
Proof. reflexivity. Qed.

Example split1_absent : PyStr.split1 "bc" "x" = ["x"].
Proof. reflexivity. Qed.

Example split_char_colons : PyStr.split_char ":"%char "a:b:c" = ["a"; "b"; "c"].
Proof. reflexivity. Qed.

Example split_ws_words : PyStr.split_ws " a  b " = ["a"; "b"].
Proof. reflexivity. Qed.

Example int_examples :
  PyStr.int "4 " = Return 4 /\ PyStr.int "-4" = Return (-4) /\
  PyStr.int "1_0" = Return 10 /\ PyStr.int "1__0" = Raise ValueError /\
  PyStr.int "" = Raise ValueError /\ PyStr.int "007" = Return 7.
Proof. repeat split; reflexivity. Qed.

Example format_examples :
  PyStr.format_0d 2 5 = "05" /\ PyStr.format_0d 2 (-5) = "-5" /\
  PyStr.format_0d 2 123 = "123" /\ PyStr.format_0d 2 0 = "00".
Proof. repeat split; reflexivity. Qed.

Example strptime_4pm :
  Strptime.strptime "4pm" "%I%p" = Return (Strptime.mkTime 16 0).
Proof. reflexivity. Qed.

Example strptime_12am :
  Strptime.strptime "12:05 am" "%I:%M %p" = Return (Strptime.mkTime 0 5).
Proof. reflexivity. Qed.

Example strptime_I_16 : Strptime.strptime "16" "%I" = Raise ValueError.
Proof. reflexivity. Qed.

Example strptime_H_16 :
  Strptime.strptime "16" "%H" = Return (Strptime.mkTime 16 0).
Proof. reflexivity. Qed.

Example strptime_blanks :
  Strptime.strptime "4  pm" "%I %p" = Return (Strptime.mkTime 16 0).
Proof. reflexivity. Qed.

Example strptime_24 : Strptime.strptime "24" "%H" = Raise ValueError.
Proof. reflexivity. Qed.

Example strftime_afternoon :
  Datetime.strftime (Datetime.mkDatetime 739194 16 0 0 0)
  = "2024-11-04 04:00 PM".
Proof. reflexivity. Qed.

Example strftime_midnight :
  Datetime.strftime (Datetime.mkDatetime 739194 0 5 0 0)
  = "2024-11-04 12:05 AM".
Proof. reflexivity. Qed.

Example strftime_leap_day :
  Datetime.strftime (Datetime.mkDatetime 738945 12 5 0 0)
  = "2024-02-29 12:05 PM".
Proof. reflexivity. Qed.

Example timestamp_2024 :
  Datetime.timestamp (Datetime.mkDatetime 739194 16 0 0 0)
  = 1730736000 * 1000000.
Proof. reflexivity. Qed.

Example dumps_nested :
  Json.dumps 0 (Json.JList [Json.JDict [("a", Json.JNum 1500000)]; Json.JList []])
  = "[" ++ Json.newline 4 ++ "{" ++ Json.newline 8 ++
    Json.encode_string "a" ++ ": 1.5" ++ Json.newline 4 ++ "}," ++
    Json.newline 4 ++ "[]" ++ Json.newline 0 ++ "]".
Proof. reflexivity. Qed.

Example loads_nested :
  Json.loads (Json.dumps 0
     (Json.JList [Json.JDict [("a", Json.JNum 1500000)]; Json.JList [];
                  Json.JStr "x"; Json.JNull; Json.JBool false]))
  = Return (Json.JList [Json.JDict [("a", Json.JNum 1500000)]; Json.JList [];
                        Json.JStr "x"; Json.JNull; Json.JBool false]).
Proof. vm_compute. reflexivity. Qed.

Example repr_float_examples :
  Json.repr_float 1730736000000000 = "1730736000.0" /\
  Json.repr_float (-500000) = "-0.5" /\
  Json.repr_float 1730736000123456 = "1730736000.123456" /\
  Json.repr_float 0 = "0.0".
Proof. repeat split; reflexivity. Qed.

Example loads_errors :
  Json.loads "[1,]" = Raise ValueError /\ Json.loads "01" = Raise ValueError /\
  Json.loads "1." = Raise ValueError /\ Json.loads "  [ ]  " = Return (Json.JList []) /\
  Json.loads "5" = Return (Json.JNum 5000000) /\ Json.loads "" = Raise ValueError.
Proof. repeat split; reflexivity. Qed.

Example slots_time_first :
  Bot.extract_slots at_4pm_first = Return (Some "4pm", Some "water the plants").
Proof. reflexivity. Qed.

Example slots_feed_dog :
  Bot.extract_slots "remind me to feed the dog at 4pm"
  = Return (Some "4pm", Some "feed the dog at 4pm").
Proof. reflexivity. Qed.

(** * Properties *)

(** ** Slot extraction of the reminder command *)

Example first_pass_of_task_before_time :
  Bot.time_first Bot.time_keywords task_before_time
  = Return (Some "er the plants at 4pm", None).
Proof. reflexivity. Qed.

(** C1, as stated, fails: for "remind me to water the plants at 4pm"
    the extraction does not yield the time "4pm" and the task
    "water the plants". *)
Lemma C1_counterexample :
  Bot.extract_slots task_before_time
  <> Return (Some "4pm", Some "water the plants").
Proof. vm_compute. discriminate. Qed.

(** C1, amended: both commands are dispatched to the reminder-set
    handler.  "remind me at 4pm to water the plants" yields the time
    "4pm" and the task "water the plants" in the first pass.  For
    "remind me to water the plants at 4pm" the first pass splits at the
    "at" of "water" and finds no task, the task-first pass then takes
    the task "water the plants at 4pm" and finds no time keyword before
    "to", so the time stays "er the plants at 4pm"; no reminder is added
    and the time-format message is spoken. *)
Theorem C1_slots :
  forall external now m,
    Bot.process_command external now at_4pm_first m
      = (true, Bot.handle_set_reminder now at_4pm_first m) /\
    Bot.process_command external now task_before_time m
      = (true, Bot.handle_set_reminder now task_before_time m) /\
    Bot.extract_slots at_4pm_first
      = Return (Some "4pm", Some "water the plants") /\
    Bot.time_first Bot.time_keywords task_before_time
      = Return (Some "er the plants at 4pm", None) /\
    Bot.extract_slots task_before_time
      = Return (Some "er the plants at 4pm", Some "water the plants at 4pm") /\
    Bot.handle_set_reminder now task_before_time m
      = Bot.say Bot.msg_bad_time m.
Proof.
  intros external now m.
  repeat split; reflexivity.
Qed.

(** ** Time parsing in [add_reminder] *)

Example parse_time_16 :
  Reminders.parse_time "16" = Return (Some (Strptime.mkTime 16 0)).
Proof. reflexivity. Qed.

Example parse_time_formats :
  Reminders.parse_time "4:00 pm" = Return (Some (Strptime.mkTime 16 0)) /\
  Reminders.parse_time "4:00pm" = Return (Some (Strptime.mkTime 16 0)) /\
  Reminders.parse_time "4 pm" = Return (Some (Strptime.mkTime 16 0)) /\
  Reminders.parse_time "4pm" = Return (Some (Strptime.mkTime 16 0)) /\
  Reminders.parse_time "4:00" = Return (Some (Strptime.mkTime 4 0)) /\
  Reminders.parse_time "4" = Return (Some (Strptime.mkTime 4 0)) /\
  Reminders.parse_time "16:00" = Return (Some (Strptime.mkTime 16 0)) /\
  Reminders.parse_time "12pm" = Return (Some (Strptime.mkTime 12 0)) /\
  Reminders.parse_time "12am" = Return (Some (Strptime.mkTime 0 0)) /\
  Reminders.parse_time "00:30" = Return (Some (Strptime.mkTime 0 30)) /\
  Reminders.parse_time "16:30 pm" = Return (Some (Strptime.mkTime 16 30)).
Proof. repeat split; reflexivity. Qed.

Example parse_time_failures :
  Reminders.parse_time "24" = Return None /\
  Reminders.parse_time "4:60" = Return None /\
  Reminders.parse_time "4:" = Raise IndexError /\
  Reminders.parse_time "4 : 30" = Return (Some (Strptime.mkTime 4 30)) /\
  Reminders.parse_time "soon" = Return None.
Proof. repeat split; reflexivity. Qed.

(** C6: a bare twelve o'clock is read as midnight.  "12:30" matches the
    twelve-hour format [%I:%M] before any 24-hour format is tried, and
    [strptime] reads a twelve-hour value without meridiem as AM, so the
    time of day is 00:30 and a reminder asked at 10:00 for "12:30" is
    set for 00:30 of the next day; "12" gives 00:00 in the same way,
    while "16" is read as 16:00. *)
Theorem C6_bare_twelve_is_midnight :
  Reminders.parse_time "12:30" = Return (Some (Strptime.mkTime 0 30)) /\
  Reminders.parse_time "12" = Return (Some (Strptime.mkTime 0 0)) /\
  Reminders.parse_time "16" = Return (Some (Strptime.mkTime 16 0)) /\
  map Reminders.time
      (Reminders.reminders
         (snd (Reminders.add_reminder monday_10am "lunch" "12:30" fresh)))
  = ["2024-11-05 12:30 AM"].
Proof. repeat split; reflexivity. Qed.

(** Where the time parsing is right: every time with a meridiem reads
    as the time it names, and every bare time reads as given unless its
    hour is 12. *)
Lemma clock_times_checked :
  meridiem_times_checked = true /\ bare_times_checked = true /\
  forall h, bare_hour h <> h -> h = 12.
Proof.
  split; [vm_compute; reflexivity|]. split; [vm_compute; reflexivity|].
  intros h. unfold bare_hour. destruct (Z.eqb_spec h 12); congruence.
Qed.

(** ** Parse failure in [add_reminder] *)

(** C7: when no format of [time_formats] parses the cleaned time string
    and the manual parse gives no time of day, [add_reminder] returns
    [False] and leaves the manager as it was: the list and the file are
    unchanged. *)
Theorem C7_parse_failure_changes_nothing :
  forall now task time_str m,
    (forall fmt, In fmt Reminders.time_formats ->
       Strptime.strptime (PyStr.strip (PyStr.lower time_str)) fmt
       = Raise ValueError) ->
    (forall t, Reminders.manual_time (PyStr.strip (PyStr.lower time_str))
               <> Return (Some t)) ->
    Reminders.add_reminder now task time_str m = (false, m).
Proof.
  intros now task time_str m Hfmt Hman.
  unfold Reminders.add_reminder, Reminders.parse_time.
  set (s := PyStr.strip (PyStr.lower time_str)) in *.
  assert (Htry : forall fmts, incl fmts Reminders.time_formats ->
                 Reminders.try_formats fmts s = Return None).
  { induction fmts as [|f fmts IH]; intros Hincl; simpl.
    - reflexivity.
    - rewrite (Hfmt f) by (apply Hincl; left; reflexivity).
      apply IH. intros x Hx. apply Hincl. right. exact Hx. }
  rewrite (Htry _ (incl_refl _)). simpl.
  destruct (Reminders.manual_time s) as [[t|]|e] eqn:Hm; simpl.
  - exfalso. exact (Hman t eq_refl).
  - reflexivity.
  - reflexivity.
Qed.

Lemma C7_witness :
  Reminders.add_reminder monday_10am "water plants" "Soon" fresh
  = (false, fresh).
Proof.
  apply C7_parse_failure_changes_nothing.
  - intros fmt Hin. simpl in Hin.
    repeat (destruct Hin as [<- | Hin]; [reflexivity|]). contradiction.
  - intros t. vm_compute. discriminate.
Defined.

(** ** The instant of a new reminder *)

Lemma in_range_bounds :
  forall lo hi c, PyStr.in_range lo hi c = true -> lo <= PyStr.code c <= hi.
Proof.
  unfold PyStr.in_range. intros lo hi c H.
  apply andb_true_iff in H. destruct H as [H1 H2].
  apply Z.leb_le in H1. apply Z.leb_le in H2. lia.
Qed.



















Example rollover_next_day :
  Reminders.reminders
    (snd (Reminders.add_reminder monday_5pm "water plants" "4:00 pm" fresh))
  = [Reminders.mkReminder "water plants" "2024-11-05 04:00 PM"
       (Datetime.timestamp (Datetime.mkDatetime 739195 16 0 0 0))].
Proof. reflexivity. Qed.

(** ** Removing a reminder by task *)

Lemma find_task_none :
  forall task_name l i,
    forallb (other_task task_name) l = true ->
    Reminders.find_task task_name l i = None.
Proof.
  induction l as [|x l IH]; intros i H; simpl in *.
  - reflexivity.
  - apply andb_true_iff in H. destruct H as [Hx Hl].
    unfold other_task, same_task in Hx. apply negb_true_iff in Hx.
    rewrite Hx. apply IH. exact Hl.
Qed.

Lemma find_task_first :
  forall task_name before r after i,
    forallb (other_task task_name) before = true ->
    same_task task_name r = true ->
    Reminders.find_task task_name (before ++ r :: after) i
    = Some (i + List.length before)%nat.
Proof.
  induction before as [|x before IH]; intros r after i Hb Hr; simpl in *.
  - unfold same_task in Hr. rewrite Hr. f_equal. lia.
  - apply andb_true_iff in Hb. destruct Hb as [Hx Hb].
    unfold other_task, same_task in Hx. apply negb_true_iff in Hx.
    rewrite Hx. rewrite (IH r after (S i) Hb Hr). f_equal. lia.
Qed.

Lemma del_middle :
  forall (before : list Reminders.reminder) r after,
    Reminders.del (List.length before) (before ++ r :: after)
    = (before ++ after)%list.
Proof.
  intros before r after. unfold Reminders.del.
  induction before as [|x before IH]; simpl.
  - reflexivity.
  - f_equal. exact IH.
Qed.

(** C9: [remove_reminder] deletes the first reminder whose task is the
    given one up to case, keeps every other reminder in place and
    rewrites the file with the remaining list; when no task matches it
    returns [False] and leaves list and file as they were. *)
Theorem C9_remove_first_match :
  forall task_name m,
    (forall before r after,
       Reminders.reminders m = (before ++ r :: after)%list ->
       forallb (other_task task_name) before = true ->
       same_task task_name r = true ->
       Reminders.remove_reminder task_name m
       = (true,
          Reminders.mkManager (before ++ after) (Reminders.running m)
            (Some (Reminders.dump (before ++ after)))
            (Reminders.announced m))) /\
    (forallb (other_task task_name) (Reminders.reminders m) = true ->
     Reminders.remove_reminder task_name m = (false, m)).
Proof.
  intros task_name m. split.
  - intros before r after Hl Hb Hr.
    unfold Reminders.remove_reminder. rewrite Hl.
    rewrite (find_task_first task_name before r after 0 Hb Hr). simpl.
    rewrite del_middle. reflexivity.
  - intros Hnone. unfold Reminders.remove_reminder.
    rewrite (find_task_none _ _ 0 Hnone). reflexivity.
Qed.

(** The example of the specification: "Water Plants" removes the
    reminder added as "water plants", and an absent task changes
    nothing. *)
Lemma C9_witness :
  Reminders.remove_reminder "Water Plants" three_reminders
  = (true,
     Reminders.mkManager ([] ++ [dentist; laundry]) true
       (Some (Reminders.dump ([] ++ [dentist; laundry]))) []) /\
  Reminders.remove_reminder "feed the cat" three_reminders
  = (false, three_reminders).
Proof.
  split.
  - apply (proj1 (C9_remove_first_match "Water Plants" three_reminders)
             [] plants [dentist; laundry]); reflexivity.
  - apply (proj2 (C9_remove_first_match "feed the cat" three_reminders)).
    reflexivity.
Defined.

(** ** One pass of the scheduler *)

Lemma reminder_eqb_eq :
  forall a b, Reminders.reminder_eqb a b = true -> a = b.
Proof.
  intros [ta ma sa] [tb mb sb] H. unfold Reminders.reminder_eqb in H.
  simpl in H.
  apply andb_true_iff in H. destruct H as [H Hs].
  apply andb_true_iff in H. destruct H as [Ht Hm].
  apply String.eqb_eq in Ht. apply String.eqb_eq in Hm.
  apply Z.eqb_eq in Hs. subst. reflexivity.
Qed.

Lemma reminder_eqb_refl : forall a, Reminders.reminder_eqb a a = true.
Proof.
  intros a. unfold Reminders.reminder_eqb.
  rewrite !String.eqb_refl, Z.eqb_refl. reflexivity.
Qed.

(** [remove] takes the first due reminder when the one it is given is
    due and nothing before it is. *)
Lemma list_remove_first_due :
  forall ts k x rest,
    forallb (pending ts) k = true ->
    due ts x = true ->
    Reminders.list_remove x (k ++ x :: rest) = Return (k ++ rest)%list.
Proof.
  induction k as [|y k IH]; intros x rest Hk Hx; simpl in *.
  - rewrite reminder_eqb_refl. reflexivity.
  - apply andb_true_iff in Hk. destruct Hk as [Hy Hk].
    destruct (Reminders.reminder_eqb y x) eqn:E.
    + apply reminder_eqb_eq in E. subst y.
      unfold pending in Hy. rewrite Hx in Hy. discriminate.
    + rewrite (IH x rest Hk Hx). reflexivity.
Qed.

Lemma filter_none_due :
  forall ts s, filter (due ts) s = [] -> filter (pending ts) s = s.
Proof.
  induction s as [|x s IH]; intros H; simpl in *.
  - reflexivity.
  - unfold pending at 1. destruct (due ts x); [discriminate|].
    simpl. f_equal. apply IH. exact H.
Qed.

Section Pass.

Variable speak : string -> result unit.
Variable ts : Z.

(** The loop over a segment [s] of the snapshot, when the list is
    [k ++ s ++ t], nothing in [k] is due and the callback returns on
    what is due in [s]. *)
Lemma fire_due_segment :
  forall s k t m,
    Reminders.reminders m = (k ++ s ++ t)%list ->
    forallb (pending ts) k = true ->
    (forall x, In x s -> due ts x = true -> speak (announcement x) = Return tt) ->
    Reminders.fire_due speak ts s m
    = Reminders.Done
        (Reminders.mkManager
           (k ++ filter (pending ts) s ++ t)
           (Reminders.running m)
           (file_after (filter (due ts) s) (k ++ filter (pending ts) s ++ t) m)
           (Reminders.announced m ++ map announcement (filter (due ts) s))).
Proof.
  induction s as [|x s IH]; intros k t m Hm Hk Hspeak.
  - simpl. destruct m as [l r f a]. simpl in *. subst l.
    rewrite app_nil_r. reflexivity.
  - cbn [Reminders.fire_due filter].
    fold (due ts x).
    assert (Hp : pending ts x = negb (due ts x)) by reflexivity.
    rewrite Hp. clear Hp.
    destruct (due ts x) eqn:Hx; cbn [negb].
    + fold (announcement x).
      rewrite (Hspeak x (or_introl eq_refl) Hx).
      cbn [Reminders.announce Reminders.reminders].
      rewrite Hm. cbn [app].
      rewrite (list_remove_first_due ts k x (s ++ t) Hk Hx).
      rewrite (IH k t); cbn [Reminders.save_reminders Reminders.set_reminders
                              Reminders.reminders Reminders.running
                              Reminders.announced Reminders.file].
      * f_equal. f_equal.
        -- unfold file_after.
           destruct (filter (due ts) s) eqn:Hd; [|reflexivity].
           rewrite (filter_none_due ts s Hd). reflexivity.
        -- cbn [map Reminders.announce Reminders.announced].
           rewrite <- app_assoc. reflexivity.
      * reflexivity.
      * exact Hk.
      * intros y Hy. apply Hspeak. right. exact Hy.
    + rewrite (IH (k ++ [x])%list t m).
      * rewrite <- !app_assoc. reflexivity.
      * rewrite Hm, <- app_assoc. reflexivity.
      * rewrite forallb_app, Hk. simpl. unfold pending. rewrite Hx. reflexivity.
      * intros y Hy. apply Hspeak. right. exact Hy.
Qed.

Lemma fire_due_app :
  forall s1 s2 m,
    Reminders.fire_due speak ts (s1 ++ s2) m
    = match Reminders.fire_due speak ts s1 m with
      | Reminders.Done m' => Reminders.fire_due speak ts s2 m'
      | Reminders.Crashed e m' => Reminders.Crashed e m'
      end.
Proof.
  induction s1 as [|x s1 IH]; intros s2 m; simpl.
  - reflexivity.
  - destruct (Reminders.timestamp x <=? ts).
    + destruct (speak _); [|reflexivity].
      destruct (Reminders.list_remove _ _); [|reflexivity].
      apply IH.
    + apply IH.
Qed.

End Pass.

(** C4: when the callback returns on the due reminders, one pass of
    the scheduler gives the callback the announcement of each reminder
    whose timestamp is at or before the current instant, once and in the
    order of the list, and of no other reminder; the list afterwards
    holds the reminders that are not yet due, in their order, and the
    file has been rewritten with it when something was fired. *)
Theorem C4_poll_fires_due_once :
  forall speak now m,
    (forall r, In r (Reminders.reminders m) ->
       due (Datetime.timestamp now) r = true ->
       speak (announcement r) = Return tt) ->
    Reminders.poll speak now m
    = Reminders.Done
        (Reminders.mkManager
           (filter (pending (Datetime.timestamp now)) (Reminders.reminders m))
           (Reminders.running m)
           (file_after
              (filter (due (Datetime.timestamp now)) (Reminders.reminders m))
              (filter (pending (Datetime.timestamp now)) (Reminders.reminders m))
              m)
           (Reminders.announced m
            ++ map announcement
                 (filter (due (Datetime.timestamp now)) (Reminders.reminders m)))).
Proof.
  intros speak now m Hspeak. unfold Reminders.poll.
  rewrite (fire_due_segment speak (Datetime.timestamp now)
             (Reminders.reminders m) [] [] m).
  - cbn [app]. rewrite app_nil_r. reflexivity.
  - cbn [app]. rewrite app_nil_r. reflexivity.
  - reflexivity.
  - exact Hspeak.
Qed.

(** At 17:00 the two reminders of 16:00 are announced once each and
    removed; the one of the next day stays and is not announced. *)
Lemma C4_witness :
  Reminders.poll Bot.voice_speak monday_5pm three_reminders
  = Reminders.Done
      (Reminders.mkManager [dentist] true (Some (Reminders.dump [dentist]))
         ["Reminder: water plants"; "Reminder: laundry"]).
Proof.
  apply (C4_poll_fires_due_once Bot.voice_speak monday_5pm three_reminders).
  intros r _ _. reflexivity.
Defined.

(** C2, as stated, fails.  With a callback that raises on the first due
    reminder, the run of the background thread over two clock readings
    ends with the exception in the first pass: the second due reminder
    is still in the list and nothing has been announced. *)
Lemma C2_counterexample :
  Reminders.check_reminders failing_speak [monday_5pm; monday_5pm_30s]
    three_reminders
  = Reminders.Crashed CallbackError three_reminders /\
  In laundry (Reminders.reminders three_reminders) /\
  due (Datetime.timestamp monday_5pm) laundry = true /\
  Reminders.announced three_reminders = [].
Proof.
  repeat split; try reflexivity.
  simpl. right. right. left. reflexivity.
Qed.

(** C2, amended: when the callback raises on a due reminder, the
    exception leaves the polling loop.  The due reminders before it in
    the list have been announced and removed, the reminder on which the
    callback raised and every reminder after it stay in the list, none
    of them is announced, and no later pass runs. *)
Theorem C2_callback_error_ends_loop :
  forall speak now later before r after m e,
    Reminders.running m = true ->
    Reminders.reminders m = (before ++ r :: after)%list ->
    (forall x, In x before -> due (Datetime.timestamp now) x = true ->
       speak (announcement x) = Return tt) ->
    due (Datetime.timestamp now) r = true ->
    speak (announcement r) = Raise e ->
    let ts := Datetime.timestamp now in
    let m' :=
      Reminders.mkManager
        (filter (pending ts) before ++ r :: after)
        (Reminders.running m)
        (file_after (filter (due ts) before)
                    (filter (pending ts) before ++ r :: after) m)
        (Reminders.announced m ++ map announcement (filter (due ts) before)) in
    Reminders.poll speak now m = Reminders.Crashed e m' /\
    Reminders.check_reminders speak (now :: later) m = Reminders.Crashed e m'.
Proof.
  intros speak now later before r after m e Hrun Hm Hbefore Hr He ts m'.
  assert (Hpoll : Reminders.poll speak now m = Reminders.Crashed e m').
  { subst m'. unfold Reminders.poll. fold ts. rewrite Hm. rewrite fire_due_app.
    rewrite (fire_due_segment speak ts before [] (r :: after) m Hm eq_refl Hbefore).
    cbn [app Reminders.fire_due].
    fold (due ts r). fold ts in Hr. rewrite Hr.
    fold (announcement r). rewrite He. reflexivity. }
  split; [exact Hpoll|].
  cbn [Reminders.check_reminders]. rewrite Hrun, Hpoll. reflexivity.
Qed.

Lemma C2_witness :
  Reminders.poll failing_speak monday_5pm three_reminders
  = Reminders.Crashed CallbackError three_reminders /\
  Reminders.check_reminders failing_speak (monday_5pm :: [monday_5pm_30s])
    three_reminders
  = Reminders.Crashed CallbackError three_reminders.
Proof.
  apply (C2_callback_error_ends_loop failing_speak monday_5pm [monday_5pm_30s]
           [] plants [dentist; laundry] three_reminders CallbackError).
  - reflexivity.
  - reflexivity.
  - intros x [].
  - reflexivity.
  - reflexivity.
Defined.

(** ** Dispatch of a reminder command *)

Lemma add_reminder_false :
  forall now task time_str m m',
    Reminders.add_reminder now task time_str m = (false, m') -> m' = m.
Proof.
  intros now task time_str m m' H. unfold Reminders.add_reminder in H.
  destruct (Reminders.parse_time _) as [[t|]|e]; simpl in H.
  - destruct (Reminders.reminder_time now t) as [rt|e]; simpl in H.
    + discriminate.
    + injection H as <-. reflexivity.
  - injection H as <-. reflexivity.
  - injection H as <-. reflexivity.
Qed.

(** C10: a command that contains "remind" (or "reminder") and not
    "list", once lower-cased, is reported as handled.  When the slot
    extraction yields no time or no task, the manager is unchanged but
    for the spoken request to rephrase; when the slots are found and
    [add_reminder] returns [False], it is unchanged but for the spoken
    time-format message.  In both cases list and file are as before. *)
Theorem C10_reminder_command_is_handled :
  forall external now command m,
    PyStr.contains "remind" (PyStr.lower command)
    || PyStr.contains "reminder" (PyStr.lower command) = true ->
    PyStr.contains "list" (PyStr.lower command) = false ->
    fst (Bot.process_command external now command m) = true /\
    (forall time_part task_part,
       Bot.extract_slots (PyStr.lower command) = Return (time_part, task_part) ->
       Bot.falsy time_part || Bot.falsy task_part = true ->
       snd (Bot.process_command external now command m)
       = Reminders.mkManager (Reminders.reminders m) (Reminders.running m)
           (Reminders.file m) (Reminders.announced m ++ [Bot.msg_rephrase])) /\
    (forall time_part task_part,
       Bot.extract_slots (PyStr.lower command)
       = Return (Some time_part, Some task_part) ->
       Bot.falsy (Some time_part) || Bot.falsy (Some task_part) = false ->
       fst (Reminders.add_reminder now task_part time_part m) = false ->
       snd (Bot.process_command external now command m)
       = Reminders.mkManager (Reminders.reminders m) (Reminders.running m)
           (Reminders.file m) (Reminders.announced m ++ [Bot.msg_bad_time])).
Proof.
  intros external now command m Hremind Hlist.
  unfold Bot.process_command. rewrite Hremind, Hlist. cbn [fst snd].
  split; [reflexivity|]. split.
  - intros time_part task_part Hslots Hfalsy.
    unfold Bot.handle_set_reminder. rewrite Hslots.
    destruct time_part as [tp|]; destruct task_part as [kp|];
      try reflexivity.
    rewrite Hfalsy. reflexivity.
  - intros time_part task_part Hslots Hok Hadd.
    unfold Bot.handle_set_reminder. rewrite Hslots, Hok.
    destruct (Reminders.add_reminder now task_part time_part m)
      as [[|] m1] eqn:E; simpl in Hadd; [discriminate|].
    apply add_reminder_false in E. subst m1. reflexivity.
Qed.

(** "remind me soon" has no task, "remind me at noon to call home" has
    a time that does not parse: both are reported as handled and add
    nothing. *)
Lemma C10_witness :
  fst (Bot.process_command (fun _ _ m => Reminders.Done m) monday_10am
         "Remind me soon" fresh) = true /\
  snd (Bot.process_command (fun _ _ m => Reminders.Done m) monday_10am
         "Remind me soon" fresh)
  = Reminders.mkManager [] false None [Bot.msg_rephrase] /\
  snd (Bot.process_command (fun _ _ m => Reminders.Done m) monday_10am
         "remind me at noon to call home" fresh)
  = Reminders.mkManager [] false None [Bot.msg_bad_time].
Proof.
  split; [|split].
  - apply (C10_reminder_command_is_handled
             (fun _ _ m => Reminders.Done m) monday_10am "Remind me soon" fresh);
      reflexivity.
  - apply (proj1 (proj2 (C10_reminder_command_is_handled
             (fun _ _ m => Reminders.Done m) monday_10am "Remind me soon" fresh
             eq_refl eq_refl)) (Some "") None); reflexivity.
  - apply (proj2 (proj2 (C10_reminder_command_is_handled
             (fun _ _ m => Reminders.Done m) monday_10am
             "remind me at noon to call home" fresh
             eq_refl eq_refl)) "noon" "call home"); reflexivity.
Defined.

(** ** The reminder file *)

Lemma append_assoc :
  forall a b c : string, (a ++ b) ++ c = a ++ (b ++ c).
Proof.
  induction a as [|x a IH]; intros b c; simpl.
  - reflexivity.
  - rewrite IH. reflexivity.
Qed.

Lemma length_append :
  forall a b : string,
    String.length (a ++ b) = (String.length a + String.length b)%nat.
Proof.
  induction a as [|x a IH]; intros b; simpl.
  - reflexivity.
  - rewrite IH. reflexivity.
Qed.

(** *** Strings *)

Lemma scanstring_encode_char :
  forall c tail,
    Json.scanstring (Json.encode_char c ++ tail)
    = Json.cons_char c (Json.scanstring tail).
Proof.
  intros c tail.
  destruct c as [b0 b1 b2 b3 b4 b5 b6 b7].
  destruct b0, b1, b2, b3, b4, b5, b6, b7; reflexivity.
Qed.

Lemma scanstring_encode_chars :
  forall s tail,
    Json.scanstring (Json.encode_chars s ++ String Json.dquote tail)
    = Some (s, tail).
Proof.
  induction s as [|c s IH]; intros tail.
  - reflexivity.
  - cbn [Json.encode_chars]. rewrite append_assoc.
    rewrite scanstring_encode_char, IH. reflexivity.
Qed.

(** *** Numerals *)

Lemma code_digit_char :
  forall k, 0 <= k <= 9 -> PyStr.code (PyStr.digit_char k) = 48 + k.
Proof.
  intros k Hk.
  assert (H : k = 0 \/ k = 1 \/ k = 2 \/ k = 3 \/ k = 4 \/ k = 5 \/ k = 6 \/
              k = 7 \/ k = 8 \/ k = 9) by lia.
  repeat (destruct H as [-> | H]; [reflexivity|]). subst k. reflexivity.
Qed.

Lemma isdigit_digit_char :
  forall k, 0 <= k <= 9 -> PyStr.isdigit (PyStr.digit_char k) = true.
Proof.
  intros k Hk. unfold PyStr.isdigit, PyStr.in_range.
  rewrite (code_digit_char k Hk).
  apply andb_true_iff. split; apply Z.leb_le; lia.
Qed.

Lemma digit_val_digit_char :
  forall k, 0 <= k <= 9 -> PyStr.digit_val (PyStr.digit_char k) = k.
Proof.
  intros k Hk. unfold PyStr.digit_val. rewrite (code_digit_char k Hk). lia.
Qed.

Lemma digits_num_snoc :
  forall s a c,
    Json.digits_num a (s ++ String c EmptyString)
    = Json.digits_num a s * 10 + PyStr.digit_val c.
Proof.
  induction s as [|x s IH]; intros a c; simpl.
  - reflexivity.
  - apply IH.
Qed.

Lemma all_digits_snoc :
  forall s c,
    all_digits s = true -> PyStr.isdigit c = true ->
    all_digits (s ++ String c EmptyString) = true.
Proof.
  induction s as [|x s IH]; intros c Hs Hc; simpl in *.
  - rewrite Hc. reflexivity.
  - apply andb_true_iff in Hs. destruct Hs as [Hx Hs].
    rewrite Hx. simpl. apply IH; assumption.
Qed.

Lemma span_digits_all :
  forall ds c t,
    all_digits ds = true -> PyStr.isdigit c = false ->
    Json.span_digits (ds ++ String c t) = (ds, String c t).
Proof.
  induction ds as [|x ds IH]; intros c t Hds Hc; simpl in *.
  - rewrite Hc. reflexivity.
  - apply andb_true_iff in Hds. destruct Hds as [Hx Hds].
    rewrite Hx, (IH c t Hds Hc). reflexivity.
Qed.

(** The numeral of a positive number starts with a digit from 1 to 9,
    consists of digits and reads back as the number. *)
Lemma decimal_aux_spec :
  forall f n acc,
    1 <= n < 2 ^ Z.of_nat f ->
    exists d ds,
      PyStr.decimal_aux f n acc = String d (ds ++ acc) /\
      PyStr.in_range 49 57 d = true /\
      all_digits ds = true /\
      Json.digits_num 0 (String d ds) = n.
Proof.
  induction f as [|f IH]; intros n acc Hn.
  - simpl in Hn. lia.
  - cbn [PyStr.decimal_aux].
    assert (Hmod : 0 <= n mod 10 <= 9) by (pose proof (Z.mod_pos_bound n 10); lia).
    destruct (Z.ltb_spec n 10) as [Hlt|Hge].
    + exists (PyStr.digit_char (n mod 10)), EmptyString.
      rewrite Z.mod_small in * by lia.
      repeat split.
      * unfold PyStr.in_range. rewrite code_digit_char by lia.
        apply andb_true_iff. split; apply Z.leb_le; lia.
      * simpl. rewrite digit_val_digit_char by lia. lia.
    + assert (Hq : 1 <= n / 10 < 2 ^ Z.of_nat f).
      { split.
        - apply Z.div_le_lower_bound; lia.
        - apply Z.div_lt_upper_bound; [lia|].
          rewrite Nat2Z.inj_succ, Z.pow_succ_r in Hn by lia. lia. }
      destruct (IH (n / 10) (String (PyStr.digit_char (n mod 10)) acc) Hq)
        as (d & ds & Heq & Hd & Hds & Hval).
      exists d, (ds ++ String (PyStr.digit_char (n mod 10)) EmptyString).
      repeat split.
      * rewrite Heq, append_assoc. reflexivity.
      * exact Hd.
      * apply all_digits_snoc; [exact Hds|].
        apply isdigit_digit_char. exact Hmod.
      * change (String d (ds ++ String (PyStr.digit_char (n mod 10)) EmptyString))
          with (String d ds ++ String (PyStr.digit_char (n mod 10)) EmptyString).
        rewrite digits_num_snoc, Hval, digit_val_digit_char by exact Hmod.
        pose proof (Z.div_mod n 10). lia.
Qed.

Lemma decimal_positive :
  forall n,
    1 <= n ->
    exists d ds,
      PyStr.decimal n = String d ds /\
      PyStr.in_range 49 57 d = true /\
      all_digits ds = true /\
      Json.digits_num 0 (String d ds) = n.
Proof.
  intros n Hn. unfold PyStr.decimal.
  destruct (decimal_aux_spec (S (Z.to_nat (Z.log2 n))) n EmptyString)
    as (d & ds & Heq & Hd & Hds & Hval).
  - split; [exact Hn|].
    rewrite Nat2Z.inj_succ, Z2Nat.id by apply Z.log2_nonneg.
    apply Z.log2_spec. lia.
  - exists d, ds. repeat split; try assumption.
    rewrite Heq. clear. induction ds as [|x ds IH]; simpl; [reflexivity|].
    injection IH as IH. rewrite IH. reflexivity.
Qed.

Lemma frac_num_step :
  forall w c s,
    0 < w ->
    Json.frac_num w (String c s)
    = option_map (Z.add (PyStr.digit_val c * w)) (Json.frac_num (w / 10) s).
Proof.
  intros w c s Hw. simpl.
  destruct (Z.eqb_spec w 0); [lia|reflexivity].
Qed.

Lemma frac_num_cons :
  forall w c s,
    Json.frac_num w (String c s)
    = if (w =? 0) && negb (PyStr.digit_val c =? 0) then None
      else option_map (Z.add (PyStr.digit_val c * w))
                      (Json.frac_num (w / 10) s).
Proof. reflexivity. Qed.

Lemma frac_num_strip0 :
  forall s w v,
    Json.frac_num w s = Some v -> Json.frac_num w (Json.strip0 s) = Some v.
Proof.
  induction s as [|c s IH]; intros w v H.
  - exact H.
  - rewrite frac_num_cons in H.
    destruct ((w =? 0) && negb (PyStr.digit_val c =? 0)) eqn:G; [discriminate|].
    destruct (Json.frac_num (w / 10) s) as [v'|] eqn:E; [|discriminate].
    injection H as <-.
    specialize (IH (w / 10) v' E).
    cbn [Json.strip0].
    destruct (Json.strip0 s) as [|y r] eqn:S0.
    + simpl in IH. injection IH as <-.
      destruct (Ascii.eqb_spec c "0"%char) as [->|Hc].
      * reflexivity.
      * unfold Json.str1. rewrite frac_num_cons, G. reflexivity.
    + rewrite frac_num_cons, G, IH. reflexivity.
Qed.

Lemma all_digits_strip0 :
  forall s, all_digits s = true -> all_digits (Json.strip0 s) = true.
Proof.
  induction s as [|c s IH]; intros H; simpl in *.
  - reflexivity.
  - apply andb_true_iff in H. destruct H as [Hc Hs].
    specialize (IH Hs).
    destruct (Json.strip0 s) as [|y r].
    + destruct (Ascii.eqb c "0"); simpl; [reflexivity|].
      rewrite Hc. reflexivity.
    + simpl. rewrite Hc. exact IH.
Qed.

Lemma six_digits :
  forall d5 d4 d3 d2 d1 d0,
    0 <= d5 <= 9 -> 0 <= d4 <= 9 -> 0 <= d3 <= 9 ->
    0 <= d2 <= 9 -> 0 <= d1 <= 9 -> 0 <= d0 <= 9 ->
    let s :=
      String (PyStr.digit_char d5) (String (PyStr.digit_char d4)
        (String (PyStr.digit_char d3) (String (PyStr.digit_char d2)
          (String (PyStr.digit_char d1) (String (PyStr.digit_char d0)
            EmptyString))))) in
    all_digits s = true /\
    Json.frac_num 100000 s
    = Some (d5 * 100000 + d4 * 10000 + d3 * 1000 + d2 * 100 + d1 * 10 + d0).
Proof.
  intros d5 d4 d3 d2 d1 d0 H5 H4 H3 H2 H1 H0 s. subst s. split.
  - cbn [all_digits]. rewrite !isdigit_digit_char by assumption. reflexivity.
  - rewrite (frac_num_step 100000) by lia. change (100000 / 10) with 10000.
    rewrite (frac_num_step 10000) by lia. change (10000 / 10) with 1000.
    rewrite (frac_num_step 1000) by lia. change (1000 / 10) with 100.
    rewrite (frac_num_step 100) by lia. change (100 / 10) with 10.
    rewrite (frac_num_step 10) by lia. change (10 / 10) with 1.
    rewrite (frac_num_step 1) by lia.
    cbn [Json.frac_num option_map].
    rewrite !digit_val_digit_char by assumption. f_equal. lia.
Qed.

(** The fraction digits of [r] are digits, at least one, and read back
    as [r] microseconds. *)
Lemma frac_text_spec :
  forall r,
    0 <= r < 1000000 ->
    exists c s,
      Json.frac_text r = String c s /\
      all_digits (String c s) = true /\
      Json.frac_num 100000 (String c s) = Some r.
Proof.
  intros r Hr. unfold Json.frac_text. cbn [Json.fixed].
  set (q1 := r / 10). set (q2 := q1 / 10). set (q3 := q2 / 10).
  set (q4 := q3 / 10). set (q5 := q4 / 10).
  pose proof (Z.div_mod r 10 ltac:(lia)) as E0.
  pose proof (Z.mod_pos_bound r 10 ltac:(lia)) as B0.
  pose proof (Z.div_mod q1 10 ltac:(lia)) as E1.
  pose proof (Z.mod_pos_bound q1 10 ltac:(lia)) as B1.
  pose proof (Z.div_mod q2 10 ltac:(lia)) as E2.
  pose proof (Z.mod_pos_bound q2 10 ltac:(lia)) as B2.
  pose proof (Z.div_mod q3 10 ltac:(lia)) as E3.
  pose proof (Z.mod_pos_bound q3 10 ltac:(lia)) as B3.
  pose proof (Z.div_mod q4 10 ltac:(lia)) as E4.
  pose proof (Z.mod_pos_bound q4 10 ltac:(lia)) as B4.
  pose proof (Z.div_mod q5 10 ltac:(lia)) as E5.
  pose proof (Z.mod_pos_bound q5 10 ltac:(lia)) as B5.
  fold q1 in E0. fold q2 in E1. fold q3 in E2. fold q4 in E3. fold q5 in E4.
  destruct (six_digits (q5 mod 10) (q4 mod 10) (q3 mod 10) (q2 mod 10)
              (q1 mod 10) (r mod 10)) as [Hall Hval]; try lia.
  cbv zeta in Hall, Hval.
  replace (q5 mod 10 * 100000 + q4 mod 10 * 10000 + q3 mod 10 * 1000 +
           q2 mod 10 * 100 + q1 mod 10 * 10 + r mod 10) with r in Hval by lia.
  apply frac_num_strip0 in Hval. apply all_digits_strip0 in Hall.
  destruct (Json.strip0 _) as [|c s].
  - simpl in Hval. injection Hval as <-.
    exists "0"%char, EmptyString. repeat split.
  - exists c, s. repeat split; assumption.
Qed.

Lemma digit_not_minus :
  forall d, PyStr.isdigit d = true -> Ascii.eqb d "-"%char = false.
Proof.
  intros d Hd. destruct (Ascii.eqb_spec d "-"%char) as [->|]; [|reflexivity].
  discriminate Hd.
Qed.

Lemma nonzero_digit :
  forall d,
    PyStr.in_range 49 57 d = true ->
    Ascii.eqb d "0"%char = false /\ PyStr.isdigit d = true.
Proof.
  intros d Hd. split.
  - destruct (Ascii.eqb_spec d "0"%char) as [->|]; [|reflexivity].
    discriminate Hd.
  - apply in_range_bounds in Hd. unfold PyStr.isdigit, PyStr.in_range.
    apply andb_true_iff. split; apply Z.leb_le; lia.
Qed.

Lemma scan_fraction_text :
  forall (neg : bool) ip fr t,
    0 <= fr < 1000000 ->
    Json.scan_fraction neg ip
      (String "."%char (Json.frac_text fr ++ String Json.nl t))
    = Some ((if neg then - (ip * 1000000 + fr) else ip * 1000000 + fr),
            String Json.nl t).
Proof.
  intros neg ip fr t Hfr.
  destruct (frac_text_spec fr Hfr) as (c & s & Hf & Hfd & Hfv).
  unfold Json.scan_fraction. rewrite Hf.
  rewrite (span_digits_all (String c s) Json.nl t Hfd eq_refl).
  rewrite Hfv. reflexivity.
Qed.

(** The numeral of a timestamp reads back as the timestamp. *)
Lemma scan_magnitude_repr :
  forall (neg : bool) ip fr t,
    0 <= ip -> 0 <= fr < 1000000 ->
    Json.scan_magnitude neg
      (PyStr.decimal ip ++ String "."%char (Json.frac_text fr ++ String Json.nl t))
    = Some ((if neg then - (ip * 1000000 + fr) else ip * 1000000 + fr),
            String Json.nl t).
Proof.
  intros neg ip fr t Hip Hfr.
  assert (Hcases : ip = 0 \/ 1 <= ip) by lia.
  destruct Hcases as [->|Hpos].
  - change (PyStr.decimal 0) with "0".
    unfold Json.scan_magnitude. cbn [append Ascii.eqb Bool.eqb].
    cbv iota. apply scan_fraction_text. exact Hfr.
  - destruct (decimal_positive ip Hpos) as (d & ds & Hdec & Hd & Hds & Hval).
    destruct (nonzero_digit d Hd) as [Hd0 Hdig].
    rewrite Hdec. unfold Json.scan_magnitude. cbn [append].
    rewrite Hd0, Hd.
    change (String d (ds ++ String "."%char (Json.frac_text fr ++ String Json.nl t)))
      with (String d ds ++ String "."%char (Json.frac_text fr ++ String Json.nl t)).
    rewrite (span_digits_all (String d ds) "."%char _
               ltac:(cbn [all_digits]; rewrite Hdig, Hds; reflexivity) eq_refl).
    rewrite Hval. apply scan_fraction_text. exact Hfr.
Qed.

Lemma scan_number_repr :
  forall us t,
    Json.scan_number (Json.repr_float us ++ String Json.nl t)
    = Some (us, String Json.nl t).
Proof.
  intros us t. unfold Json.repr_float.
  assert (Hip : 0 <= Z.abs us / 1000000) by (apply Z.div_pos; lia).
  pose proof (Z.mod_pos_bound (Z.abs us) 1000000 ltac:(lia)) as Hfr.
  pose proof (Z.div_mod (Z.abs us) 1000000 ltac:(lia)) as Hdm.
  rewrite !append_assoc. cbn [append].
  destruct (Z.ltb_spec us 0) as [Hneg|Hpos]; cbn [append].
  - unfold Json.scan_number. cbn [Ascii.eqb Bool.eqb]. cbv iota.
    rewrite (scan_magnitude_repr true _ _ t Hip Hfr).
    f_equal. f_equal. lia.
  - assert (Hd : exists d r, PyStr.decimal (Z.abs us / 1000000) = String d r /\
                             PyStr.isdigit d = true).
    { assert (Hc : Z.abs us / 1000000 = 0 \/ 1 <= Z.abs us / 1000000) by lia.
      destruct Hc as [->|H1].
      - exists "0"%char, EmptyString. split; reflexivity.
      - destruct (decimal_positive _ H1) as (d & ds & Hdec & Hd & _).
        exists d, ds. split; [exact Hdec|]. apply nonzero_digit. exact Hd. }
    destruct Hd as (d & r & Hdec & Hdig).
    unfold Json.scan_number.
    pose proof (scan_magnitude_repr false _ _ t Hip Hfr) as Hm.
    rewrite Hdec in *. cbn [append] in *.
    rewrite (digit_not_minus d Hdig). rewrite Hm.
    f_equal. f_equal. lia.
Qed.

(** *** The text of the file *)

Lemma dumps_object :
  forall r rest,
    Json.dumps 4 (Reminders.to_json r) ++ rest = object_text r rest.
Proof.
  intros r rest.
  unfold Reminders.to_json, object_text, member_text, string_text.
  cbn [Json.dumps Nat.add]. unfold Json.encode_string, Json.str1.
  repeat (rewrite !append_assoc; cbn [append]).
  reflexivity.
Qed.

Lemma dumps_items :
  forall xs rest,
    (fix items (l : list Json.json) : string :=
       match l with
       | [] => EmptyString
       | y :: ys => "," ++ Json.newline 4 ++ Json.dumps 4 y ++ items ys
       end) (map Reminders.to_json xs) ++ Json.newline 0 ++ "]" ++ rest
    = items_text xs rest.
Proof.
  induction xs as [|y ys IH]; intros rest.
  - reflexivity.
  - cbn [map items_text].
    rewrite <- IH, <- dumps_object.
    repeat (rewrite !append_assoc; cbn [append]).
    reflexivity.
Qed.

Lemma dump_text : forall l, Reminders.dump l = list_text l.
Proof.
  intros [|x xs].
  - reflexivity.
  - unfold Reminders.dump, list_text. cbn [map Json.dumps Nat.add].
    rewrite <- (dumps_items xs EmptyString), <- dumps_object.
    repeat (rewrite !append_assoc; cbn [append]).
    reflexivity.
Qed.

(** *** Decoding the text *)

Lemma skip_ws_blank :
  forall c x, Json.is_ws c = true -> Json.skip_ws (String c x) = Json.skip_ws x.
Proof. intros c x H. simpl. rewrite H. reflexivity. Qed.

Lemma skip_ws_nonblank :
  forall c x, Json.is_ws c = false -> Json.skip_ws (String c x) = String c x.
Proof. intros c x H. simpl. rewrite H. reflexivity. Qed.

Lemma skip_ws_spaces :
  forall k rest, Json.skip_ws (Json.spaces k ++ rest) = Json.skip_ws rest.
Proof.
  induction k as [|k IH]; intros rest.
  - reflexivity.
  - cbn [Json.spaces append]. rewrite skip_ws_blank by reflexivity. apply IH.
Qed.

Lemma skip_ws_newline :
  forall k rest, Json.skip_ws (Json.newline k ++ rest) = Json.skip_ws rest.
Proof.
  intros k rest. unfold Json.newline. cbn [append].
  rewrite skip_ws_blank by reflexivity. apply skip_ws_spaces.
Qed.

Lemma scan_string_text :
  forall f s rest,
    Json.scan (S f) (string_text s rest) = Some (Json.JStr s, rest).
Proof.
  intros f s rest. unfold string_text. cbn [Json.scan].
  rewrite Ascii.eqb_refl, scanstring_encode_chars. reflexivity.
Qed.

(** A text that starts with a digit or a minus sign is scanned as a
    number. *)
Lemma scan_numeral :
  forall f c r,
    PyStr.isdigit c || Ascii.eqb c "-"%char = true ->
    Json.scan (S f) (String c r)
    = match Json.scan_number (String c r) with
      | Some (n, rest) => Some (Json.JNum n, rest)
      | None => None
      end.
Proof.
  intros f c r H.
  destruct c as [b0 b1 b2 b3 b4 b5 b6 b7].
  destruct b0, b1, b2, b3, b4, b5, b6, b7;
    try discriminate H; reflexivity.
Qed.

Lemma repr_float_head :
  forall us,
    exists c r,
      Json.repr_float us = String c r /\
      PyStr.isdigit c || Ascii.eqb c "-"%char = true.
Proof.
  intros us. unfold Json.repr_float.
  destruct (us <? 0).
  - eexists. eexists. split; [reflexivity|reflexivity].
  - cbn [append].
    assert (Hc : Z.abs us / 1000000 = 0 \/ 1 <= Z.abs us / 1000000).
    { assert (0 <= Z.abs us / 1000000) by (apply Z.div_pos; lia). lia. }
    destruct Hc as [->|H1].
    + eexists. eexists. split; [reflexivity|reflexivity].
    + destruct (decimal_positive _ H1) as (d & ds & Hdec & Hd & _).
      rewrite Hdec. cbn [append]. eexists. eexists. split; [reflexivity|].
      destruct (nonzero_digit d Hd) as [_ ->]. reflexivity.
Qed.

Lemma scan_timestamp :
  forall f us rest,
    Json.scan (S f) (Json.repr_float us ++ Json.newline 4 ++ rest)
    = Some (Json.JNum us, Json.newline 4 ++ rest).
Proof.
  intros f us rest.
  pose proof (scan_number_repr us (Json.spaces 4 ++ rest)) as Hn.
  destruct (repr_float_head us) as (c & r & Hc & Hhead).
  change (Json.newline 4 ++ rest) with (String Json.nl (Json.spaces 4 ++ rest)).
  rewrite Hc in *. cbn [append] in *.
  rewrite (scan_numeral f c _ Hhead), Hn. reflexivity.
Qed.

Lemma scan_pairs_member :
  forall f k rest,
    Json.scan_pairs (S f) (member_text k rest)
    = match Json.scan f (Json.skip_ws rest) with
      | Some (v, r3) =>
          match Json.skip_ws r3 with
          | String "}"%char rest' => Some ([(k, v)], rest')
          | String ","%char r4 =>
              match Json.scan_pairs f (Json.skip_ws r4) with
              | Some (kvs, rest') => Some ((k, v) :: kvs, rest')
              | None => None
              end
          | _ => None
          end
      | None => None
      end.
Proof.
  intros f k rest. unfold member_text, string_text. cbn [Json.scan_pairs].
  rewrite Ascii.eqb_refl, scanstring_encode_chars.
  cbn [append]. rewrite (skip_ws_nonblank ":"%char) by reflexivity.
  cbv iota. reflexivity.
Qed.

Lemma skip_ws_string_text :
  forall s rest, Json.skip_ws (string_text s rest) = string_text s rest.
Proof. intros s rest. apply skip_ws_nonblank. reflexivity. Qed.

Lemma skip_ws_member_text :
  forall k rest, Json.skip_ws (member_text k rest) = member_text k rest.
Proof. intros k rest. apply skip_ws_nonblank. reflexivity. Qed.

Lemma scan_brace_member :
  forall f w k x,
    Json.scan (S f) (String "{"%char (Json.newline w ++ member_text k x))
    = match Json.scan_pairs f (member_text k x) with
      | Some (l, rest) => Some (Json.JDict l, rest)
      | None => None
      end.
Proof.
  intros f w k x. cbn [Json.scan]. cbn [Ascii.eqb Bool.eqb Json.dquote].
  cbv iota. rewrite skip_ws_newline, skip_ws_member_text.
  unfold member_text, string_text. cbv iota. reflexivity.
Qed.

Lemma skip_ws_repr_float :
  forall us rest,
    Json.skip_ws (Json.repr_float us ++ rest) = Json.repr_float us ++ rest.
Proof.
  intros us rest.
  destruct (repr_float_head us) as (c & t & Hc & Hhead).
  rewrite Hc. cbn [append]. apply skip_ws_nonblank.
  destruct c as [b0 b1 b2 b3 b4 b5 b6 b7].
  destruct b0, b1, b2, b3, b4, b5, b6, b7;
    try discriminate Hhead; reflexivity.
Qed.

(** An object of the file is scanned back as the reminder it holds. *)
Lemma scan_object :
  forall f r rest,
    Json.scan (S (S (S (S (S f))))) (object_text r rest)
    = Some (Reminders.to_json r, rest).
Proof.
  intros f r rest. unfold object_text. cbn [append].
  rewrite scan_brace_member.
  rewrite scan_pairs_member, skip_ws_string_text, scan_string_text.
  cbn [append]. rewrite (skip_ws_nonblank ","%char) by reflexivity.
  cbv iota. rewrite skip_ws_newline, skip_ws_member_text.
  rewrite scan_pairs_member, skip_ws_string_text, scan_string_text.
  cbn [append]. rewrite (skip_ws_nonblank ","%char) by reflexivity.
  cbv iota. rewrite skip_ws_newline, skip_ws_member_text.
  rewrite scan_pairs_member, skip_ws_repr_float, scan_timestamp.
  rewrite skip_ws_newline.
  cbn [append]. rewrite (skip_ws_nonblank "}"%char) by reflexivity.
  cbv iota. reflexivity.
Qed.

Lemma skip_ws_object_text :
  forall r rest, Json.skip_ws (object_text r rest) = object_text r rest.
Proof. intros r rest. apply skip_ws_nonblank. reflexivity. Qed.

Lemma scan_items_S :
  forall f s,
    Json.scan_items (S f) s
    = match Json.scan f s with
      | Some (v, r) =>
          match Json.skip_ws r with
          | String "]"%char rest => Some ([v], rest)
          | String ","%char r1 =>
              match Json.scan_items f (Json.skip_ws r1) with
              | Some (vs, rest) => Some (v :: vs, rest)
              | None => None
              end
          | _ => None
          end
      | None => None
      end.
Proof. reflexivity. Qed.

(** The objects of the file are scanned back as the reminders, in
    their order. *)
Lemma scan_items_text :
  forall xs x n rest,
    Json.scan_items (6 + (List.length xs + n)) (object_text x (items_text xs rest))
    = Some (Reminders.to_json x :: map Reminders.to_json xs, rest).
Proof.
  induction xs as [|y ys IH]; intros x n rest.
  - cbn [List.length Nat.add]. rewrite scan_items_S.
    rewrite scan_object. cbn [items_text].
    rewrite skip_ws_newline. cbn [append].
    rewrite (skip_ws_nonblank "]"%char) by reflexivity.
    cbv iota. reflexivity.
  - change (6 + (List.length (y :: ys) + n))%nat
      with (S (S (S (S (S (S (S (List.length ys + n))))))))%nat.
    rewrite scan_items_S.
    rewrite scan_object. cbn [items_text append].
    rewrite (skip_ws_nonblank ","%char) by reflexivity.
    cbv iota. rewrite skip_ws_newline, skip_ws_object_text.
    change (S (S (S (S (S (S (List.length ys + n)))))))%nat
      with (6 + (List.length ys + n))%nat.
    rewrite IH. reflexivity.
Qed.

Lemma length_object_text :
  forall r rest,
    (6 + String.length rest <= String.length (object_text r rest))%nat.
Proof.
  intros r rest. unfold object_text, member_text, string_text.
  cbn [append String.length].
  repeat (rewrite length_append; cbn [String.length]).
  lia.
Qed.

Lemma length_items_text :
  forall xs rest, (List.length xs <= String.length (items_text xs rest))%nat.
Proof.
  induction xs as [|y ys IH]; intros rest; cbn [items_text List.length].
  - lia.
  - cbn [append String.length]. rewrite length_append.
    pose proof (length_object_text y (items_text ys rest)).
    specialize (IH rest). lia.
Qed.

Lemma scan_bracket_object :
  forall f x rest,
    Json.scan (S f) (String "["%char (Json.newline 4 ++ object_text x rest))
    = match Json.scan_items f (object_text x rest) with
      | Some (l, r) => Some (Json.JList l, r)
      | None => None
      end.
Proof.
  intros f x rest. cbn [Json.scan]. cbn [Ascii.eqb Bool.eqb Json.dquote].
  cbv iota. rewrite skip_ws_newline, skip_ws_object_text.
  unfold object_text. cbn [append]. cbv iota. reflexivity.
Qed.

Lemma loads_list_text :
  forall l,
    Json.loads (list_text l) = Return (Json.JList (map Reminders.to_json l)).
Proof.
  intros [|x xs].
  - reflexivity.
  - assert (Hfuel : exists n,
              (2 * String.length (list_text (x :: xs)))%nat
              = (6 + (List.length xs + n))%nat).
    { exists (2 * String.length (list_text (x :: xs)) - 6 - List.length xs)%nat.
      unfold list_text. cbn [append String.length].
      rewrite length_append.
      pose proof (length_object_text x (items_text xs EmptyString)).
      pose proof (length_items_text xs EmptyString).
      lia. }
    destruct Hfuel as [n Hn]. unfold Json.loads. rewrite Hn.
    unfold list_text. cbn [append].
    rewrite (skip_ws_nonblank "["%char) by reflexivity.
    rewrite scan_bracket_object, scan_items_text. reflexivity.
Qed.

Lemma of_json_to_json :
  forall r, Reminders.of_json (Reminders.to_json r) = Some r.
Proof. intros [t tm ts]. reflexivity. Qed.

Lemma list_of_json_map :
  forall l, Reminders.list_of_json (map Reminders.to_json l) = Some l.
Proof.
  induction l as [|r l IH]; cbn [map Reminders.list_of_json].
  - reflexivity.
  - rewrite of_json_to_json, IH. reflexivity.
Qed.

Lemma load_dump : forall l, Reminders.load (Reminders.dump l) = Return l.
Proof.
  intros l. unfold Reminders.load.
  rewrite dump_text, loads_list_text. cbn [bind].
  rewrite list_of_json_map. reflexivity.
Qed.

(** C8: the file written by [save_reminders] reads back as the list it
    was written from, and a manager started on that file holds the same
    reminders, with the same tasks, instants and order. *)
Theorem C8_save_then_load :
  forall m,
    Reminders.load (Reminders.dump (Reminders.reminders m))
    = Return (Reminders.reminders m) /\
    Reminders.reminders
      (Reminders.init (Reminders.file (Reminders.save_reminders m)))
    = Reminders.reminders m.
Proof.
  intros m. split.
  - apply load_dump.
  - unfold Reminders.init, Reminders.load_reminders, Reminders.save_reminders.
    cbn [Reminders.file]. rewrite load_dump. reflexivity.
Qed.

Example save_then_load_three :
  Reminders.reminders
    (Reminders.init (Reminders.file (Reminders.save_reminders three_reminders)))
  = [plants; dentist; laundry].
Proof. vm_compute. reflexivity. Qed.

(** * Further properties of the reminder store *)

Lemma restart_safe_saved :
  forall m, restart_safe (Reminders.save_reminders m).
Proof.
  intros m. unfold restart_safe, Reminders.init, Reminders.load_reminders.
  cbn [Reminders.save_reminders Reminders.file Reminders.reminders].
  rewrite load_dump. reflexivity.
Qed.

Lemma file_init :
  forall on_disk, Reminders.file (Reminders.init on_disk) = on_disk.
Proof.
  intros [text|]; unfold Reminders.init, Reminders.load_reminders;
    cbn [Reminders.file]; [|reflexivity].
  destruct (Reminders.load text); reflexivity.
Qed.

Lemma add_reminder_true :
  forall now task time_str m m',
    Reminders.add_reminder now task time_str m = (true, m') ->
    exists t rt,
      Reminders.parse_time (PyStr.strip (PyStr.lower time_str))
      = Return (Some t) /\
      Reminders.reminder_time now t = Return rt /\
      m' = Reminders.save_reminders
             (Reminders.set_reminders
                (Reminders.reminders m
                 ++ [Reminders.mkReminder task (Datetime.strftime rt)
                       (Datetime.timestamp rt)])%list m).
Proof.
  intros now task time_str m m' H. unfold Reminders.add_reminder in H.
  destruct (Reminders.parse_time _) as [[t|]|e]; simpl in H; try discriminate.
  destruct (Reminders.reminder_time now t) as [rt|e] eqn:E; simpl in H;
    try discriminate.
  injection H as <-. exists t, rt. repeat split. exact E.
Qed.

Lemma fire_due_restart_safe :
  forall speak ts snapshot m,
    restart_safe m ->
    restart_safe (state_of (Reminders.fire_due speak ts snapshot m)).
Proof.
  intros speak ts. induction snapshot as [|r rest IH]; intros m Hm.
  - exact Hm.
  - cbn [Reminders.fire_due].
    destruct (Reminders.timestamp r <=? ts); [|apply IH; exact Hm].
    destruct (speak _); [|exact Hm].
    destruct (Reminders.list_remove _ _); [|exact Hm].
    apply IH. apply restart_safe_saved.
Qed.

(** X1: the file keeps up with the list.  A manager as [__init__]
    leaves it is such that a restart on its file gives the list it
    holds, and [add_reminder], [remove_reminder] and a pass of the
    scheduler keep it so, whether they succeed, fail or end in an
    exception of the callback. *)
Theorem X1_restart_safe_invariant :
  (forall on_disk, restart_safe (Reminders.init on_disk)) /\
  (forall now task time_str m,
     restart_safe m ->
     restart_safe (snd (Reminders.add_reminder now task time_str m))) /\
  (forall task_name m,
     restart_safe m ->
     restart_safe (snd (Reminders.remove_reminder task_name m))) /\
  (forall speak now m,
     restart_safe m ->
     restart_safe (state_of (Reminders.poll speak now m))).
Proof.
  split; [|split; [|split]].
  - intros on_disk. unfold restart_safe.
    rewrite file_init. reflexivity.
  - intros now task time_str m Hm.
    destruct (Reminders.add_reminder now task time_str m) as [[|] m'] eqn:E.
    + apply add_reminder_true in E. destruct E as (t & rt & _ & _ & ->).
      apply restart_safe_saved.
    + apply add_reminder_false in E. subst m'. exact Hm.
  - intros task_name m Hm. unfold Reminders.remove_reminder.
    destruct (Reminders.find_task _ _ _); [apply restart_safe_saved|exact Hm].
  - intros speak now m Hm. apply fire_due_restart_safe. exact Hm.
Qed.

Lemma X1_witness :
  restart_safe
    (snd (Reminders.add_reminder monday_10am "water plants" "4pm" fresh)) /\
  restart_safe
    (snd (Reminders.remove_reminder "water plants"
            (snd (Reminders.add_reminder monday_10am "water plants" "4pm" fresh)))) /\
  restart_safe
    (state_of (Reminders.poll failing_speak monday_5pm
                 (snd (Reminders.add_reminder monday_10am "water plants" "4pm"
                         fresh)))).
Proof.
  split; [|split].
  - apply (proj1 (proj2 X1_restart_safe_invariant)
             monday_10am "water plants" "4pm" fresh).
    vm_compute. reflexivity.
  - apply (proj1 (proj2 (proj2 X1_restart_safe_invariant)) "water plants").
    vm_compute. reflexivity.
  - apply (proj2 (proj2 (proj2 X1_restart_safe_invariant))
             failing_speak monday_5pm).
    vm_compute. reflexivity.
Defined.




Lemma find_task_split :
  forall task_name l i,
    match Reminders.find_task task_name l i with
    | Some j =>
        exists before r after,
          l = (before ++ r :: after)%list /\
          j = (i + List.length before)%nat /\
          forallb (other_task task_name) before = true /\
          same_task task_name r = true
    | None => forallb (other_task task_name) l = true
    end.
Proof.
  induction l as [|x l IH]; intros i; cbn [Reminders.find_task].
  - reflexivity.
  - fold (same_task task_name x).
    destruct (same_task task_name x) eqn:Hx.
    + exists [], x, l. repeat split; [cbn [List.length]; lia|exact Hx].
    + specialize (IH (S i)).
      destruct (Reminders.find_task task_name l (S i)) as [j|].
      * destruct IH as (before & r & after & -> & -> & Hb & Hr).
        exists (x :: before), r, after. repeat split.
        -- cbn [List.length]. lia.
        -- cbn [forallb]. unfold other_task at 1. rewrite Hx. exact Hb.
        -- exact Hr.
      * cbn [forallb]. unfold other_task at 1. rewrite Hx. exact IH.
Qed.

Lemma existsb_other_task :
  forall task_name l,
    forallb (other_task task_name) l = negb (existsb (same_task task_name) l).
Proof.
  induction l as [|x l IH]; cbn [forallb existsb].
  - reflexivity.
  - rewrite IH. unfold other_task. rewrite negb_orb. reflexivity.
Qed.

(** X3: [remove_reminder] returns [True] exactly when some reminder has
    the task up to case; the list then loses one entry, and otherwise
    it keeps them all. *)
Theorem X3_remove_reports_presence :
  forall task_name m,
    fst (Reminders.remove_reminder task_name m)
    = existsb (same_task task_name) (Reminders.reminders m) /\
    (List.length (Reminders.reminders (snd (Reminders.remove_reminder task_name m)))
     + (if fst (Reminders.remove_reminder task_name m) then 1 else 0)
     = List.length (Reminders.reminders m))%nat.
Proof.
  intros task_name m. unfold Reminders.remove_reminder.
  pose proof (find_task_split task_name (Reminders.reminders m) 0) as H.
  destruct (Reminders.find_task task_name (Reminders.reminders m) 0) as [j|].
  - destruct H as (before & r & after & Hl & -> & Hb & Hr).
    cbn [fst snd Reminders.save_reminders Reminders.set_reminders
         Reminders.reminders].
    rewrite Hl. cbn [Nat.add]. rewrite del_middle. split.
    + rewrite existsb_app. cbn [existsb]. rewrite Hr.
      rewrite orb_true_r. reflexivity.
    + rewrite !length_app. cbn [List.length]. lia.
  - cbn [fst snd]. split; [|lia].
    rewrite existsb_other_task in H. apply negb_true_iff in H.
    symmetry. exact H.
Qed.

(** X4: removing a reminder right after adding it, by its task in
    any letter case, gives back the list as it was, provided no
    earlier reminder has that task; the file is rewritten with it. *)
Theorem X4_add_then_remove :
  forall now task task_name time_str m m1,
    Reminders.add_reminder now task time_str m = (true, m1) ->
    PyStr.lower task_name = PyStr.lower task ->
    forallb (other_task task_name) (Reminders.reminders m) = true ->
    Reminders.remove_reminder task_name m1
    = (true,
       Reminders.mkManager (Reminders.reminders m) (Reminders.running m)
         (Some (Reminders.dump (Reminders.reminders m)))
         (Reminders.announced m)).
Proof.
  intros now task task_name time_str m m1 Hadd Hcase Hother.
  apply add_reminder_true in Hadd.
  destruct Hadd as (t & rt & _ & _ & ->).
  unfold Reminders.remove_reminder.
  cbn [Reminders.save_reminders Reminders.set_reminders Reminders.reminders
       Reminders.running Reminders.announced].
  rewrite (find_task_first task_name (Reminders.reminders m) _ [] 0 Hother).
  - cbn [Nat.add]. rewrite del_middle, app_nil_r. reflexivity.
  - unfold same_task. cbn [Reminders.task]. rewrite Hcase.
    apply String.eqb_refl.
Qed.

Lemma X4_witness :
  Reminders.remove_reminder "CALL HOME"
    (snd (Reminders.add_reminder monday_10am "call home" "4pm" three_reminders))
  = (true,
     Reminders.mkManager (Reminders.reminders three_reminders)
       (Reminders.running three_reminders)
       (Some (Reminders.dump (Reminders.reminders three_reminders)))
       (Reminders.announced three_reminders)).
Proof.
  apply (X4_add_then_remove monday_10am "call home" "CALL HOME" "4pm"
           three_reminders); reflexivity.
Defined.

(** * Further properties of the scheduler *)

Lemma fire_due_idle :
  forall speak ts snapshot m,
    forallb (pending ts) snapshot = true ->
    Reminders.fire_due speak ts snapshot m = Reminders.Done m.
Proof.
  intros speak ts. induction snapshot as [|r rest IH]; intros m H.
  - reflexivity.
  - cbn [forallb] in H. apply andb_true_iff in H. destruct H as [Hr Hrest].
    cbn [Reminders.fire_due]. fold (due ts r).
    unfold pending in Hr. apply negb_true_iff in Hr. rewrite Hr.
    apply IH. exact Hrest.
Qed.

Lemma forallb_filter_same :
  forall (f : Reminders.reminder -> bool) l, forallb f (filter f l) = true.
Proof.
  intros f. induction l as [|x l IH]; cbn [filter forallb].
  - reflexivity.
  - destruct (f x) eqn:E; [|exact IH].
    cbn [forallb]. rewrite E, IH. reflexivity.
Qed.

Lemma pending_earlier :
  forall ts ts' l,
    ts' <= ts ->
    forallb (pending ts) l = true -> forallb (pending ts') l = true.
Proof.
  intros ts ts' l Hle. induction l as [|x l IH]; cbn [forallb]; intros H.
  - reflexivity.
  - apply andb_true_iff in H. destruct H as [Hx Hl].
    rewrite (IH Hl), andb_true_r.
    unfold pending, due in *. apply negb_true_iff in Hx.
    apply negb_true_iff. apply Z.leb_gt in Hx. apply Z.leb_gt. lia.
Qed.

Lemma poll_done :
  forall speak now m,
    (forall r, In r (Reminders.reminders m) ->
       due (Datetime.timestamp now) r = true ->
       speak (announcement r) = Return tt) ->
    Reminders.poll speak now m
    = Reminders.Done
        (Reminders.mkManager
           (filter (pending (Datetime.timestamp now)) (Reminders.reminders m))
           (Reminders.running m)
           (file_after
              (filter (due (Datetime.timestamp now)) (Reminders.reminders m))
              (filter (pending (Datetime.timestamp now)) (Reminders.reminders m))
              m)
           (Reminders.announced m
            ++ map announcement
                 (filter (due (Datetime.timestamp now)) (Reminders.reminders m)))).
Proof.
  intros speak now m Hspeak. unfold Reminders.poll.
  rewrite (fire_due_segment speak (Datetime.timestamp now)
             (Reminders.reminders m) [] [] m).
  - cbn [app]. rewrite app_nil_r. reflexivity.
  - cbn [app]. rewrite app_nil_r. reflexivity.
  - reflexivity.
  - exact Hspeak.
Qed.

(** X5: after a pass at some instant nothing left in the list is due at
    that instant, and another pass at the same or an earlier instant
    changes nothing: it calls no callback, removes nothing and does not
    write the file. *)
Theorem X5_second_pass_is_idle :
  forall speak speak' now now' m,
    (forall r, In r (Reminders.reminders m) ->
       due (Datetime.timestamp now) r = true ->
       speak (announcement r) = Return tt) ->
    Datetime.timestamp now' <= Datetime.timestamp now ->
    exists m',
      Reminders.poll speak now m = Reminders.Done m' /\
      forallb (pending (Datetime.timestamp now)) (Reminders.reminders m') = true /\
      Reminders.poll speak' now' m' = Reminders.Done m'.
Proof.
  intros speak speak' now now' m Hspeak Hle.
  eexists. split; [apply poll_done; exact Hspeak|].
  cbn [Reminders.reminders]. split.
  - apply forallb_filter_same.
  - unfold Reminders.poll. cbn [Reminders.reminders].
    apply fire_due_idle.
    apply (pending_earlier (Datetime.timestamp now)); [exact Hle|].
    apply forallb_filter_same.
Qed.

Lemma X5_witness :
  exists m',
    Reminders.poll Bot.voice_speak monday_5pm_30s three_reminders
    = Reminders.Done m' /\
    forallb (pending (Datetime.timestamp monday_5pm_30s))
            (Reminders.reminders m') = true /\
    Reminders.poll failing_speak monday_5pm m' = Reminders.Done m'.
Proof.
  apply (X5_second_pass_is_idle Bot.voice_speak failing_speak
           monday_5pm_30s monday_5pm three_reminders).
  - intros r _ _. reflexivity.
  - vm_compute. intros H. discriminate H.
Defined.

Lemma filter_true :
  forall (l : list Reminders.reminder), filter (fun _ => true) l = l.
Proof.
  induction l as [|x l IH]; cbn [filter]; [reflexivity|].
  rewrite IH. reflexivity.
Qed.

Lemma filter_filter :
  forall (f g : Reminders.reminder -> bool) l,
    filter f (filter g l) = filter (fun x => g x && f x) l.
Proof.
  intros f g. induction l as [|x l IH]; cbn [filter]; [reflexivity|].
  destruct (g x); cbn [filter andb]; rewrite IH; reflexivity.
Qed.

Lemma due_pending_permutation :
  forall ts l,
    Permutation (filter (due ts) l ++ filter (pending ts) l) l.
Proof.
  intros ts. induction l as [|x l IH]; cbn [filter].
  - constructor.
  - unfold pending at 1. destruct (due ts x); cbn [negb].
    + cbn [app]. constructor. exact IH.
    + apply Permutation_sym, Permutation_cons_app, Permutation_sym. exact IH.
Qed.

(** X6: over a whole run of the background thread, with a callback
    that returns, every reminder is either announced exactly once or
    still in the list at the end.  The list at the end holds the
    reminders that were due at none of the clock readings, in their
    order, and the announcements are those of the reminders fired at
    each reading, reading after reading. *)
Theorem X6_run_fires_each_once :
  forall speak clock m,
    Reminders.running m = true ->
    (forall r, In r (Reminders.reminders m) ->
       speak (announcement r) = Return tt) ->
    exists m',
      Reminders.check_reminders speak clock m = Reminders.Done m' /\
      Reminders.reminders m'
      = filter (never_due clock) (Reminders.reminders m) /\
      Reminders.announced m'
      = (Reminders.announced m
         ++ map announcement (fired_in clock (Reminders.reminders m)))%list /\
      Permutation
        (fired_in clock (Reminders.reminders m) ++ Reminders.reminders m')
        (Reminders.reminders m).
Proof.
  intros speak clock. induction clock as [|now later IH]; intros m Hrun Hspeak.
  - exists m. cbn [Reminders.check_reminders fired_in map app].
    unfold never_due. cbn [forallb].
    rewrite filter_true, app_nil_r. repeat split. apply Permutation_refl.
  - cbn [Reminders.check_reminders]. rewrite Hrun.
    rewrite (poll_done speak now m) by (intros r Hr _; apply Hspeak; exact Hr).
    set (ts := Datetime.timestamp now).
    set (l := Reminders.reminders m).
    match goal with
    | |- context [Reminders.check_reminders speak later ?m1] =>
        destruct (IH m1) as (m' & Hrun' & Hl & Ha & Hp)
    end.
    + exact Hrun.
    + cbn [Reminders.reminders]. intros r Hr. apply Hspeak.
      apply filter_In in Hr. exact (proj1 Hr).
    + cbn [Reminders.reminders Reminders.announced] in Hl, Ha, Hp.
      exists m'. split; [exact Hrun'|]. split; [|split].
      * rewrite Hl, filter_filter. reflexivity.
      * rewrite Ha. cbn [fired_in]. fold ts. fold l.
        rewrite map_app, <- app_assoc. reflexivity.
      * cbn [fired_in]. fold ts. fold l. rewrite <- app_assoc.
        apply Permutation_trans
          with (filter (due ts) l ++ filter (pending ts) l)%list.
        -- apply Permutation_app_head. exact Hp.
        -- apply due_pending_permutation.
Qed.

Lemma X6_witness :
  exists m',
    Reminders.check_reminders Bot.voice_speak [monday_10am; monday_5pm]
      three_reminders = Reminders.Done m' /\
    Reminders.reminders m'
    = filter (never_due [monday_10am; monday_5pm])
             (Reminders.reminders three_reminders) /\
    Reminders.announced m'
    = (Reminders.announced three_reminders
       ++ map announcement
            (fired_in [monday_10am; monday_5pm]
                      (Reminders.reminders three_reminders)))%list /\
    Permutation
      (fired_in [monday_10am; monday_5pm] (Reminders.reminders three_reminders)
       ++ Reminders.reminders m')
      (Reminders.reminders three_reminders).
Proof.
  apply (X6_run_fires_each_once Bot.voice_speak [monday_10am; monday_5pm]
           three_reminders).
  - reflexivity.
  - intros r _. reflexivity.
Defined.

(** * Further properties of the command dispatch *)

Lemma fold_left_say :
  forall (line : Reminders.reminder -> string) rs m,
    fold_left (fun m' r => Bot.say (line r) m') rs m
    = Reminders.mkManager (Reminders.reminders m) (Reminders.running m)
        (Reminders.file m) (Reminders.announced m ++ map line rs).
Proof.
  intros line. induction rs as [|r rs IH]; intros m; cbn [fold_left map].
  - rewrite app_nil_r. destruct m; reflexivity.
  - rewrite IH. unfold Bot.say, Reminders.announce.
    cbn [Reminders.reminders Reminders.running Reminders.file
         Reminders.announced].
    rewrite <- app_assoc. reflexivity.
Qed.

(** X7: listing the reminders speaks the heading and then one line
    "task at time" per reminder, in the order of the list, or the one
    sentence that there are none; the list, the file and the scheduler
    flag are left as they are. *)
Theorem X7_list_reminders_speaks_all :
  forall m,
    Bot.handle_list_reminders m
    = Reminders.mkManager (Reminders.reminders m) (Reminders.running m)
        (Reminders.file m)
        (Reminders.announced m
         ++ match Reminders.reminders m with
            | [] => ["You don't have any reminders set."]
            | rs =>
                "Here are your reminders:"
                :: map (fun r => Reminders.task r ++ " at " ++ Reminders.time r) rs
            end).
Proof.
  intros m. unfold Bot.handle_list_reminders, Reminders.get_all_reminders.
  destruct (Reminders.reminders m) as [|r rs] eqn:E.
  - unfold Bot.say, Reminders.announce. rewrite E. reflexivity.
  - rewrite (fold_left_say
               (fun r => Reminders.task r ++ " at " ++ Reminders.time r)).
    unfold Bot.say, Reminders.announce.
    cbn [Reminders.reminders Reminders.running Reminders.file
         Reminders.announced].
    rewrite E, <- app_assoc. reflexivity.
Qed.

(** X8: [process_command] returns [False] in two cases only: a
    collaborator handler raised, and then the general error message is
    spoken, or the command holds none of the keywords "remind", "clean",
    "note", "pdf" and "help", and then the apology is spoken and nothing
    else happens. *)
Theorem X8_unhandled_commands :
  forall external now command m,
    fst (Bot.process_command external now command m) = false ->
    (exists h e m1,
       external h (PyStr.lower command) m = Reminders.Crashed e m1 /\
       snd (Bot.process_command external now command m)
       = Bot.say Bot.msg_error m1) \/
    (forallb (fun k => negb (PyStr.contains k (PyStr.lower command)))
             ["remind"; "clean"; "note"; "pdf"; "help"] = true /\
     snd (Bot.process_command external now command m)
     = Bot.say Bot.msg_unknown m).
Proof.
  intros external now command m. unfold Bot.process_command.
  set (c := PyStr.lower command).
  assert (Hh : forall h,
             fst (Bot.handled (external h c m)) = false ->
             exists h' e m1,
               external h' c m = Reminders.Crashed e m1 /\
               snd (Bot.handled (external h c m)) = Bot.say Bot.msg_error m1).
  { intros h H. destruct (external h c m) as [m1|e m1] eqn:E;
      cbn [Bot.handled fst snd] in *; [discriminate|].
    exists h, e, m1. split; [exact E|reflexivity]. }
  destruct (PyStr.contains "remind" c) eqn:Hremind; cbn [orb].
  { destruct (PyStr.contains "list" c); cbn [fst]; discriminate. }
  destruct (PyStr.contains "reminder" c) eqn:Hreminder.
  { destruct (PyStr.contains "list" c); cbn [fst]; discriminate. }
  destruct (PyStr.contains "clean" c) eqn:Hclean.
  { destruct (PyStr.contains "desktop" c); [intros H; left; exact (Hh _ H)|].
    destruct (PyStr.contains "downloads" c); [intros H; left; exact (Hh _ H)|].
    cbn [fst]. discriminate. }
  destruct (PyStr.contains "note" c) eqn:Hnote; cbn [orb].
  { destruct (PyStr.contains "create" c); [intros H; left; exact (Hh _ H)|].
    destruct (PyStr.contains "open" c); [intros H; left; exact (Hh _ H)|].
    destruct (PyStr.contains "search" c); [intros H; left; exact (Hh _ H)|].
    cbn [fst]. discriminate. }
  destruct (PyStr.contains "notes" c) eqn:Hnotes.
  { destruct (PyStr.contains "create" c); [intros H; left; exact (Hh _ H)|].
    destruct (PyStr.contains "open" c); [intros H; left; exact (Hh _ H)|].
    destruct (PyStr.contains "search" c); [intros H; left; exact (Hh _ H)|].
    cbn [fst]. discriminate. }
  destruct (PyStr.contains "pdf" c) eqn:Hpdf.
  { destruct (PyStr.contains "open" c); [intros H; left; exact (Hh _ H)|].
    cbn [fst]. discriminate. }
  destruct (PyStr.contains "help" c) eqn:Hhelp.
  { intros H; left; exact (Hh _ H). }
  intros _. right. cbn [forallb snd].
  rewrite Hremind, Hclean, Hnote, Hpdf, Hhelp. split; reflexivity.
Qed.

Lemma X8_witness :
  (exists h e m1,
     (fun (_ : Bot.handler) (_ : string) (m : Reminders.manager) =>
        Reminders.Done m) h (PyStr.lower "What is the weather") fresh
     = Reminders.Crashed e m1 /\
     snd (Bot.process_command (fun _ _ m => Reminders.Done m) monday_10am
            "What is the weather" fresh)
     = Bot.say Bot.msg_error m1) \/
  (forallb (fun k => negb (PyStr.contains k (PyStr.lower "What is the weather")))
           ["remind"; "clean"; "note"; "pdf"; "help"] = true /\
   snd (Bot.process_command (fun _ _ m => Reminders.Done m) monday_10am
          "What is the weather" fresh)
   = Bot.say Bot.msg_unknown fresh).
Proof.
  apply (X8_unhandled_commands (fun _ _ m => Reminders.Done m) monday_10am
           "What is the weather" fresh).
  reflexivity.
Defined.

(** X9: a command with "remind" in it is never passed to a collaborator
    handler, whatever else it says; and a "clean" command that names
    neither the desktop nor the downloads, a "note" command without
    "create", "open" or "search", and a "pdf" command without "open" are
    reported as handled although nothing is done and nothing is said. *)
Theorem X9_precedence_and_silent_commands :
  forall external now command m,
    (PyStr.contains "remind" (PyStr.lower command) = true ->
     forall external',
       Bot.process_command external now command m
       = Bot.process_command external' now command m) /\
    (PyStr.contains "remind" (PyStr.lower command) = false ->
     PyStr.contains "clean" (PyStr.lower command) = true ->
     PyStr.contains "desktop" (PyStr.lower command) = false ->
     PyStr.contains "downloads" (PyStr.lower command) = false ->
     Bot.process_command external now command m = (true, m)) /\
    (PyStr.contains "remind" (PyStr.lower command) = false ->
     PyStr.contains "clean" (PyStr.lower command) = false ->
     PyStr.contains "note" (PyStr.lower command) = true ->
     PyStr.contains "create" (PyStr.lower command) = false ->
     PyStr.contains "open" (PyStr.lower command) = false ->
     PyStr.contains "search" (PyStr.lower command) = false ->
     Bot.process_command external now command m = (true, m)) /\
    (PyStr.contains "remind" (PyStr.lower command) = false ->
     PyStr.contains "clean" (PyStr.lower command) = false ->
     PyStr.contains "note" (PyStr.lower command) = false ->
     PyStr.contains "pdf" (PyStr.lower command) = true ->
     PyStr.contains "open" (PyStr.lower command) = false ->
     Bot.process_command external now command m = (true, m)).
Proof.
  intros external now command m. unfold Bot.process_command.
  set (c := PyStr.lower command).
  assert (Hsub : forall k k' s,
            PyStr.contains k s = false ->
            (forall t, prefix k' t = true -> prefix k t = true) ->
            PyStr.contains k' s = false).
  { intros k k' s. induction s as [|a s IH]; intros Hk Hp.
    - cbn [PyStr.contains] in *. rewrite orb_false_r in *.
      destruct (prefix k' "") eqn:E; [|reflexivity].
      rewrite (Hp _ E) in Hk. discriminate.
    - cbn [PyStr.contains] in *. apply orb_false_iff in Hk.
      destruct Hk as [Hk1 Hk2]. rewrite (IH Hk2 Hp), orb_false_r.
      destruct (prefix k' (String a s)) eqn:E; [|reflexivity].
      rewrite (Hp _ E) in Hk1. discriminate. }
  assert (Hreminder : PyStr.contains "remind" c = false ->
                      PyStr.contains "reminder" c = false).
  { intros H. apply (Hsub "remind" "reminder" c H).
    intros t Ht.
    destruct t as [|a1 [|a2 [|a3 [|a4 [|a5 [|a6 t]]]]]];
      cbn [prefix] in *; try discriminate Ht;
      repeat match goal with
             | H : (if ?d then _ else false) = true |- _ =>
                 destruct d; try discriminate H
             end; subst;
      repeat (destruct (ascii_dec _ _); [|congruence]);
      try reflexivity; destruct t; reflexivity. }
  assert (Hnotes : PyStr.contains "note" c = false ->
                   PyStr.contains "notes" c = false).
  { intros H. apply (Hsub "note" "notes" c H).
    intros t Ht.
    destruct t as [|a1 [|a2 [|a3 [|a4 t]]]];
      cbn [prefix] in *; try discriminate Ht;
      repeat match goal with
             | H : (if ?d then _ else false) = true |- _ =>
                 destruct d; try discriminate H
             end; subst;
      repeat (destruct (ascii_dec _ _); [|congruence]);
      try reflexivity; destruct t; reflexivity. }
  split; [|split; [|split]].
  - intros H external'. rewrite H. reflexivity.
  - intros H1 H2 H3 H4.
    rewrite H1, (Hreminder H1), H2, H3, H4. reflexivity.
  - intros H1 H2 H3 H4 H5 H6.
    rewrite H1, (Hreminder H1), H2, H3, H4, H5, H6. reflexivity.
  - intros H1 H2 H3 H4 H5.
    rewrite H1, (Hreminder H1), H2, H3, (Hnotes H3), H4, H5. reflexivity.
Qed.

Lemma X9_witness :
  Bot.process_command (fun _ _ m => Reminders.Crashed ValueError m) monday_10am
    "Remind me at 4pm to clean the desktop" fresh
  = Bot.process_command (fun _ _ m => Reminders.Done m) monday_10am
      "Remind me at 4pm to clean the desktop" fresh /\
  Bot.process_command (fun _ _ m => Reminders.Crashed ValueError m) monday_10am
    "Clean my room" fresh = (true, fresh) /\
  Bot.process_command (fun _ _ m => Reminders.Crashed ValueError m) monday_10am
    "Take a note" fresh = (true, fresh) /\
  Bot.process_command (fun _ _ m => Reminders.Crashed ValueError m) monday_10am
    "Print the PDF" fresh = (true, fresh).
Proof.
  split; [|split; [|split]].
  - apply (proj1 (X9_precedence_and_silent_commands
                    (fun _ _ m => Reminders.Crashed ValueError m) monday_10am
                    "Remind me at 4pm to clean the desktop" fresh)).
    reflexivity.
  - apply (proj1 (proj2 (X9_precedence_and_silent_commands
                    (fun _ _ m => Reminders.Crashed ValueError m) monday_10am
                    "Clean my room" fresh))); reflexivity.
  - apply (proj1 (proj2 (proj2 (X9_precedence_and_silent_commands
                    (fun _ _ m => Reminders.Crashed ValueError m) monday_10am
                    "Take a note" fresh)))); reflexivity.
  - apply (proj2 (proj2 (proj2 (X9_precedence_and_silent_commands
                    (fun _ _ m => Reminders.Crashed ValueError m) monday_10am
                    "Print the PDF" fresh)))); reflexivity.
Defined.

(** * The advertised form of the reminder command *)

Lemma prefix_two_self :
  forall x y b,
    prefix (String x (String y EmptyString)) (String x (String y b)) = true.
Proof.
  intros x y b. cbn [prefix].
  destruct (ascii_dec x x); [|congruence].
  destruct (ascii_dec y y); [|congruence].
  destruct b; reflexivity.
Qed.

Lemma contains_two_app :
  forall x y a b,
    PyStr.contains (String x (String y EmptyString))
                   (a ++ String x (String y b)) = true.
Proof.
  intros x y. induction a as [|c a IH]; intros b; cbn [append PyStr.contains].
  - rewrite prefix_two_self. reflexivity.
  - rewrite IH. apply orb_true_r.
Qed.

(** A separator of two different characters splits a text at the
    place where it was put when it does not occur before. *)
Lemma partition_two :
  forall x y a b,
    x <> y ->
    PyStr.contains (String x (String y EmptyString)) a = false ->
    PyStr.partition (String x (String y EmptyString))
                    (a ++ String x (String y b))
    = Some (a, b).
Proof.
  intros x y a b Hxy. induction a as [|c a IH]; intros Ha.
  - cbn [append PyStr.partition]. rewrite prefix_two_self. reflexivity.
  - cbn [PyStr.contains] in Ha. apply orb_false_iff in Ha.
    destruct Ha as [Hp Ha].
    cbn [append PyStr.partition].
    assert (Hp' : prefix (String x (String y EmptyString))
                         (String c (a ++ String x (String y b))) = false).
    { cbn [prefix] in *. destruct (ascii_dec x c); [|reflexivity].
      destruct a as [|d a]; cbn [append prefix] in *.
      - destruct (ascii_dec y x); [congruence|reflexivity].
      - destruct (ascii_dec y d); [|reflexivity].
        destruct a; cbn [append]; discriminate Hp. }
    rewrite Hp', (IH Ha). reflexivity.
Qed.

Lemma contains_lstrip :
  forall k s,
    PyStr.contains k s = false -> PyStr.contains k (PyStr.lstrip s) = false.
Proof.
  intros k. induction s as [|c s IH]; intros H.
  - exact H.
  - cbn [PyStr.lstrip]. destruct (PyStr.isspace c); [|exact H].
    cbn [PyStr.contains] in H. apply orb_false_iff in H. apply IH, H.
Qed.

Lemma lstrip_app_nonblank :
  forall a c x,
    PyStr.isspace c = false ->
    PyStr.lstrip (a ++ String c x) = PyStr.lstrip a ++ String c x.
Proof.
  induction a as [|d a IH]; intros c x Hc; cbn [append PyStr.lstrip].
  - rewrite Hc. reflexivity.
  - destruct (PyStr.isspace d); [apply IH; exact Hc|reflexivity].
Qed.

Lemma rstrip_cons_nonblank :
  forall c s,
    PyStr.isspace c = false ->
    PyStr.rstrip (String c s) = String c (PyStr.rstrip s).
Proof.
  intros c s Hc. cbn [PyStr.rstrip].
  destruct (PyStr.rstrip s); [rewrite Hc|]; reflexivity.
Qed.

Lemma rstrip_app_kept :
  forall a s,
    PyStr.rstrip s <> EmptyString ->
    PyStr.rstrip (a ++ s) = a ++ PyStr.rstrip s.
Proof.
  induction a as [|d a IH]; intros s Hs; cbn [append].
  - reflexivity.
  - cbn [PyStr.rstrip]. rewrite (IH s Hs).
    destruct (a ++ PyStr.rstrip s) eqn:E; [|reflexivity].
    destruct a; cbn [append] in E; [contradiction|discriminate].
Qed.

Lemma lstrip_idem : forall s, PyStr.lstrip (PyStr.lstrip s) = PyStr.lstrip s.
Proof.
  induction s as [|c s IH]; [reflexivity|].
  cbn [PyStr.lstrip]. destruct (PyStr.isspace c) eqn:E; [exact IH|].
  cbn [PyStr.lstrip]. rewrite E. reflexivity.
Qed.

Lemma rstrip_idem : forall s, PyStr.rstrip (PyStr.rstrip s) = PyStr.rstrip s.
Proof.
  induction s as [|c s IH]; [reflexivity|].
  cbn [PyStr.rstrip]. destruct (PyStr.rstrip s) as [|d r] eqn:E.
  - destruct (PyStr.isspace c) eqn:Hc; [reflexivity|].
    cbn [PyStr.rstrip]. rewrite Hc. reflexivity.
  - cbn [PyStr.rstrip] in *.
    destruct (PyStr.rstrip r) eqn:Er.
    + destruct (PyStr.isspace d); [discriminate IH|].
      injection IH as <-. reflexivity.
    + rewrite IH. reflexivity.
Qed.

Lemma lstrip_rstrip :
  forall s, PyStr.lstrip (PyStr.rstrip s) = PyStr.rstrip (PyStr.lstrip s).
Proof.
  induction s as [|c s IH]; [reflexivity|].
  cbn [PyStr.lstrip]. destruct (PyStr.isspace c) eqn:Hc.
  - cbn [PyStr.rstrip]. destruct (PyStr.rstrip s) eqn:E.
    + rewrite Hc. rewrite <- IH. reflexivity.
    + cbn [PyStr.lstrip]. rewrite Hc. exact IH.
  - rewrite (rstrip_cons_nonblank c s Hc). cbn [PyStr.lstrip].
    rewrite Hc. reflexivity.
Qed.

Lemma strip_lstrip : forall s, PyStr.strip (PyStr.lstrip s) = PyStr.strip s.
Proof. intros s. unfold PyStr.strip. rewrite lstrip_idem. reflexivity. Qed.

Lemma strip_rstrip : forall s, PyStr.strip (PyStr.rstrip s) = PyStr.strip s.
Proof.
  intros s. unfold PyStr.strip. rewrite lstrip_rstrip, rstrip_idem.
  reflexivity.
Qed.

Lemma falsy_nonempty :
  forall s, s <> EmptyString -> Bot.falsy (Some s) = false.
Proof. intros [|c s] H; [contradiction|reflexivity]. Qed.

Lemma slots_of_advertised_form :
  forall before time_text task_text,
    PyStr.contains "at" before = false ->
    PyStr.contains "to" time_text = false ->
    Bot.time_first Bot.time_keywords
      (before ++ "at" ++ time_text ++ "to" ++ task_text)
    = Return (Some (PyStr.strip time_text), Some (PyStr.strip task_text)).
Proof.
  intros before time_text task_text Hat Hto.
  cbn [append]. unfold Bot.time_keywords. cbn [Bot.time_first].
  rewrite contains_two_app. unfold PyStr.split1.
  rewrite (partition_two "a" "t" before _ ltac:(discriminate) Hat).
  unfold PyStr.strip at 1.
  rewrite (lstrip_app_nonblank time_text "t" _ eq_refl).
  rewrite rstrip_app_kept.
  2:{ rewrite (rstrip_cons_nonblank "t" _ eq_refl). discriminate. }
  rewrite (rstrip_cons_nonblank "t" _ eq_refl).
  rewrite (rstrip_cons_nonblank "o" _ eq_refl).
  unfold Bot.task_keywords. cbn [Bot.split_task].
  rewrite contains_two_app. unfold PyStr.split1.
  rewrite (partition_two "t" "o" _ _ ltac:(discriminate)
             (contains_lstrip "to" time_text Hto)).
  rewrite strip_lstrip, strip_rstrip. reflexivity.
Qed.

(** X10: the advertised form of the command works whenever its parts
    stay clear of the keywords.  For a command made of a text without
    "at", then "at", a time text without "to", then "to" and a task
    text, with time and task not blank, the slots are the stripped time
    text and the stripped task text, and the handler hands exactly
    these to [add_reminder] and speaks the confirmation or the
    time-format message according to its result. *)
Theorem X10_advertised_form :
  forall now m before time_text task_text,
    PyStr.contains "at" before = false ->
    PyStr.contains "to" time_text = false ->
    PyStr.strip time_text <> EmptyString ->
    PyStr.strip task_text <> EmptyString ->
    Bot.extract_slots (before ++ "at" ++ time_text ++ "to" ++ task_text)
    = Return (Some (PyStr.strip time_text), Some (PyStr.strip task_text)) /\
    Bot.handle_set_reminder now
      (before ++ "at" ++ time_text ++ "to" ++ task_text) m
    = match Reminders.add_reminder now (PyStr.strip task_text)
              (PyStr.strip time_text) m with
      | (true, m') =>
          Bot.say (Bot.msg_confirm (PyStr.strip task_text)
                                   (PyStr.strip time_text)) m'
      | (false, m') => Bot.say Bot.msg_bad_time m'
      end.
Proof.
  intros now m before time_text task_text Hat Hto Htime Htask.
  assert (Hslots :
            Bot.extract_slots (before ++ "at" ++ time_text ++ "to" ++ task_text)
            = Return (Some (PyStr.strip time_text),
                      Some (PyStr.strip task_text))).
  { unfold Bot.extract_slots.
    rewrite (slots_of_advertised_form before time_text task_text Hat Hto).
    cbn [bind fst snd].
    rewrite (falsy_nonempty _ Htime), (falsy_nonempty _ Htask). reflexivity. }
  split; [exact Hslots|].
  unfold Bot.handle_set_reminder. rewrite Hslots.
  rewrite (falsy_nonempty _ Htime), (falsy_nonempty _ Htask). reflexivity.
Qed.

Lemma X10_witness :
  Bot.extract_slots ("remind me " ++ "at" ++ " 16:30 " ++ "to" ++ " go to the bank ")
  = Return (Some (PyStr.strip " 16:30 "), Some (PyStr.strip " go to the bank ")) /\
  Bot.handle_set_reminder monday_10am
    ("remind me " ++ "at" ++ " 16:30 " ++ "to" ++ " go to the bank ") fresh
  = match Reminders.add_reminder monday_10am (PyStr.strip " go to the bank ")
            (PyStr.strip " 16:30 ") fresh with
    | (true, m') =>
        Bot.say (Bot.msg_confirm (PyStr.strip " go to the bank ")
                                 (PyStr.strip " 16:30 ")) m'
    | (false, m') => Bot.say Bot.msg_bad_time m'
    end.
Proof.
  apply (X10_advertised_form monday_10am fresh "remind me " " 16:30 "
           " go to the bank ").
  - reflexivity.
  - reflexivity.
  - vm_compute. discriminate.
  - vm_compute. discriminate.
Defined.

(** * The reminders tab of the user interface *)





Lemma nth_error_other_task :
  forall task_name (l : list Reminders.reminder) idx r,
    forallb (other_task task_name) l = true ->
    nth_error l idx = Some r ->
    same_task task_name r = false.
Proof.
  intros task_name l idx r Hl Hr.
  apply nth_error_In in Hr.
  rewrite forallb_forall in Hl. specialize (Hl r Hr).
  unfold other_task in Hl. apply negb_true_iff in Hl. exact Hl.
Qed.

(** X12: the "Delete" button removes by task, not by position.  On an
    entry of the list it always removes exactly one reminder, the first
    one whose task is the entry's up to case, which stands at or before
    the entry; it is the entry itself when no reminder before it has
    the same task up to case. *)
Theorem X12_delete_button :
  forall idx m r,
    nth_error (Reminders.reminders m) idx = Some r ->
    (exists before x after,
       Reminders.reminders m = (before ++ x :: after)%list /\
       (List.length before <= idx)%nat /\
       forallb (other_task (Reminders.task r)) before = true /\
       same_task (Reminders.task r) x = true /\
       Reminders.reminders (Ui.delete_clicked idx m) = (before ++ after)%list) /\
    (forallb (other_task (Reminders.task r))
             (firstn idx (Reminders.reminders m)) = true ->
     Reminders.reminders (Ui.delete_clicked idx m)
     = (firstn idx (Reminders.reminders m)
        ++ skipn (S idx) (Reminders.reminders m))%list).
Proof.
  intros idx m r Hr.
  assert (Hself : same_task (Reminders.task r) r = true)
    by (unfold same_task; apply String.eqb_refl).
  unfold Ui.delete_clicked, Reminders.get_all_reminders. rewrite Hr.
  unfold Reminders.remove_reminder.
  pose proof (find_task_split (Reminders.task r) (Reminders.reminders m) 0) as H.
  destruct (Reminders.find_task (Reminders.task r) (Reminders.reminders m) 0)
    as [j|].
  - destruct H as (before & x & after & Hl & -> & Hb & Hx).
    cbn [snd Reminders.save_reminders Reminders.set_reminders
         Reminders.reminders Nat.add].
    assert (Hle : (List.length before <= idx)%nat).
    { destruct (Nat.le_gt_cases (List.length before) idx) as [|Hlt]; [assumption|].
      rewrite Hl, nth_error_app1 in Hr by exact Hlt.
      rewrite (nth_error_other_task _ _ _ _ Hb Hr) in Hself. discriminate. }
    split.
    + exists before, x, after. repeat split; try assumption.
      rewrite Hl. apply del_middle.
    + intros Hfirst.
      assert (Hidx : idx = List.length before).
      { destruct (Nat.eq_dec idx (List.length before)) as [|Hne]; [assumption|].
        assert (Hlt : (List.length before < idx)%nat) by lia.
        assert (Hx' : nth_error (firstn idx (Reminders.reminders m))
                                (List.length before) = Some x).
        { rewrite nth_error_firstn, Hl.
          destruct (Nat.ltb_spec (List.length before) idx); [|lia].
          rewrite nth_error_app2, Nat.sub_diag by lia. reflexivity. }
        rewrite (nth_error_other_task _ _ _ _ Hfirst Hx') in Hx.
        discriminate. }
      subst idx. reflexivity.
  - rewrite (nth_error_other_task _ _ _ _ H Hr) in Hself. discriminate.
Qed.

Lemma X12_witness :
  (exists before x after,
     Reminders.reminders three_reminders = (before ++ x :: after)%list /\
     (List.length before <= 2)%nat /\
     forallb (other_task (Reminders.task laundry)) before = true /\
     same_task (Reminders.task laundry) x = true /\
     Reminders.reminders (Ui.delete_clicked 2 three_reminders)
     = (before ++ after)%list) /\
  (forallb (other_task (Reminders.task laundry))
           (firstn 2 (Reminders.reminders three_reminders)) = true ->
   Reminders.reminders (Ui.delete_clicked 2 three_reminders)
   = (firstn 2 (Reminders.reminders three_reminders)
      ++ skipn 3 (Reminders.reminders three_reminders))%list).
Proof.
  apply (X12_delete_button 2 three_reminders laundry). reflexivity.
Defined.

(** * The voice session *)

Section VoiceSession.

Variable external : Bot.handler -> string -> Reminders.manager -> Reminders.outcome.

Lemma voice_loop_app :
  forall heard1 heard2 m,
    Session.voice_loop external (heard1 ++ heard2) m
    = match Session.voice_loop external heard1 m with
      | Session.Listening m1 => Session.voice_loop external heard2 m1
      | Session.Ended m1 => Session.Ended m1
      end.
Proof.
  induction heard1 as [|[command now] heard1 IH]; intros heard2 m.
  - reflexivity.
  - cbn [app Session.voice_loop].
    destruct command as [[|c s]|]; try apply IH.
    destruct (Session.is_stop (String c s)); [reflexivity|apply IH].
Qed.

Lemma voice_loop_no_stop :
  forall heard m,
    no_stop heard = true ->
    exists m1, Session.voice_loop external heard m = Session.Listening m1.
Proof.
  induction heard as [|[command now] heard IH]; intros m H.
  - exists m. reflexivity.
  - cbn [no_stop forallb fst] in H. apply andb_true_iff in H.
    destruct H as [Hc Hrest]. cbn [Session.voice_loop].
    destruct command as [[|c s]|]; try (apply IH; exact Hrest).
    apply negb_true_iff in Hc. rewrite Hc. apply IH. exact Hrest.
Qed.

End VoiceSession.

(** X13: the voice session goes on as long as no stop word is heard
    and ends at the first utterance that is, up to case, exactly
    "stop", "exit", "quit" or "goodbye".  The farewell is then the last
    thing spoken, the scheduler flag is cleared, the reminders are
    those held before the stop word, and nothing heard afterwards is
    processed. *)
Theorem X13_session_ends_at_stop_word :
  forall external before word now after m,
    no_stop before = true ->
    Session.is_stop word = true ->
    exists m1,
      Session.run_voice_mode external before m = Session.Listening m1 /\
      Session.run_voice_mode external (before ++ (Some word, now) :: after) m
      = Session.Ended
          (Reminders.mkManager (Reminders.reminders m1) false
             (Reminders.file m1)
             (Reminders.announced m1
              ++ [Session.msg_listening; Session.msg_goodbye])).
Proof.
  intros external before word now after m Hbefore Hword.
  unfold Session.run_voice_mode.
  destruct (voice_loop_no_stop external before
              (Bot.say Session.msg_hello m) Hbefore) as [m1 Hm1].
  exists m1. split; [exact Hm1|].
  rewrite voice_loop_app, Hm1. cbn [Session.voice_loop].
  destruct word as [|c s]; [discriminate Hword|].
  rewrite Hword. unfold Reminders.stop, Reminders.set_running, Bot.say,
    Reminders.announce.
  cbn [Reminders.reminders Reminders.running Reminders.file
       Reminders.announced].
  rewrite <- app_assoc. reflexivity.
Qed.

Lemma X13_witness :
  exists m1,
    Session.run_voice_mode (fun _ _ m => Reminders.Done m)
      [(Some "remind me at 4pm to please stop", monday_10am); (None, monday_10am)]
      fresh
    = Session.Listening m1 /\
    Session.run_voice_mode (fun _ _ m => Reminders.Done m)
      ([(Some "remind me at 4pm to please stop", monday_10am); (None, monday_10am)]
       ++ (Some "Goodbye", monday_5pm)
          :: [(Some "remind me at 5pm to call home", monday_5pm)])
      fresh
    = Session.Ended
        (Reminders.mkManager (Reminders.reminders m1) false
           (Reminders.file m1)
           (Reminders.announced m1
            ++ [Session.msg_listening; Session.msg_goodbye])).
Proof.
  apply (X13_session_ends_at_stop_word (fun _ _ m => Reminders.Done m)
           [(Some "remind me at 4pm to please stop", monday_10am);
            (None, monday_10am)]
           "Goodbye" monday_5pm
           [(Some "remind me at 5pm to call home", monday_5pm)] fresh);
    reflexivity.
Defined.

(** * The configuration file *)

Lemma dumps_default_config :
  forall notes backup,
    Json.dumps 0 (Config.default_config notes backup)
    = config_text notes backup.
Proof.
  intros notes backup.
  unfold Config.default_config, config_text, member_text, string_text.
  cbn [Json.dumps Nat.add]. unfold Json.encode_string, Json.str1.
  repeat (rewrite !append_assoc; cbn [append]).
  reflexivity.
Qed.

Lemma scan_true :
  forall f rest,
    Json.scan (S f) ("true" ++ rest) = Some (Json.JBool true, rest).
Proof. intros f rest. destruct rest; reflexivity. Qed.

Lemma loads_config_text :
  forall notes backup,
    Json.loads (config_text notes backup)
    = Return (Config.default_config notes backup).
Proof.
  intros notes backup. unfold Json.loads.
  assert (Hfuel : exists n,
            (2 * String.length (config_text notes backup))%nat = (4 + n)%nat).
  { exists (2 * String.length (config_text notes backup) - 4)%nat.
    unfold config_text. cbn [append String.length].
    rewrite length_append. unfold Json.newline. cbn [String.length]. lia. }
  destruct Hfuel as [n Hn]. rewrite Hn. clear Hn.
  unfold config_text. cbn [append Nat.add].
  rewrite (skip_ws_nonblank "{"%char) by reflexivity.
  rewrite scan_brace_member, scan_pairs_member.
  rewrite (skip_ws_nonblank "t"%char) by reflexivity.
  rewrite (scan_true _ _ : Json.scan _ (String "t" (String "r" (String "u"
             (String "e" _)))) = _).
  rewrite (skip_ws_nonblank ","%char) by reflexivity.
  cbv iota. rewrite skip_ws_newline, skip_ws_member_text.
  rewrite scan_pairs_member, skip_ws_string_text, scan_string_text.
  cbn [append]. rewrite (skip_ws_nonblank ","%char) by reflexivity.
  cbv iota. rewrite skip_ws_newline, skip_ws_member_text.
  rewrite scan_pairs_member, skip_ws_string_text, scan_string_text.
  rewrite skip_ws_newline.
  cbn [append]. rewrite (skip_ws_nonblank "}"%char) by reflexivity.
  cbv iota. reflexivity.
Qed.

(** X14: the configuration file round-trips.  A first start without
    [config.json] returns the default configuration and writes a file
    from which the next start reads that same configuration back,
    leaving the file as it is. *)
Theorem X14_default_config_round_trip :
  forall notes backup,
    fst (Config.load_config notes backup None)
    = Config.default_config notes backup /\
    Config.load_config notes backup (snd (Config.load_config notes backup None))
    = (Config.default_config notes backup,
       snd (Config.load_config notes backup None)).
Proof.
  intros notes backup. split; [reflexivity|].
  cbn [Config.load_config snd].
  rewrite dumps_default_config, loads_config_text. reflexivity.
Qed.

(** * The file organizer *)

Lemma increment_keys :
  forall key d, map fst (Files.increment key d) = map fst d.
Proof.
  intros key. induction d as [|[k v] d IH]; cbn [Files.increment map fst].
  - reflexivity.
  - destruct (String.eqb k key); cbn [map fst]; [reflexivity|].
    rewrite IH. reflexivity.
Qed.

Lemma increment_total :
  forall key d,
    In key (map fst d) ->
    Files.total (Files.increment key d) = Files.total d + 1.
Proof.
  intros key. induction d as [|[k v] d IH]; cbn [map fst In]; intros H.
  - contradiction.
  - cbn [Files.increment]. destruct (String.eqb_spec k key) as [->|Hne].
    + unfold Files.total. cbn [fold_right snd]. lia.
    + destruct H as [H|H]; [contradiction|].
      unfold Files.total in *. cbn [fold_right snd]. rewrite (IH H). lia.
Qed.

Section OrganizeProofs.

Variable world : Type.
Variable error : Type.
Variable path_exists : string -> world -> bool.
Variable isfile : string -> world -> bool.
Variable makedirs : string -> world -> world * option error.
Variable listdir : string -> world -> Files.attempt error (list string).
Variable move : string -> string -> world -> world * option error.
Variable join : string -> string -> string.

Lemma tally_ok_moved :
  forall (p : Files.progress world) (w : world) file category,
    tally_ok p ->
    In category (Files.category_names ++ ["others"])%list ->
    move_allowed (file, category) ->
    tally_ok
      (Files.mkProgress
         (Files.increment category (Files.files_moved p)) w
         (Files.moves p ++ [(file, category)])%list).
Proof.
  intros p w file category (Hk & Ht & Hm) Hin Hok.
  unfold tally_ok. cbn [Files.files_moved Files.moves].
  split; [|split].
  - rewrite increment_keys. exact Hk.
  - rewrite increment_total by (rewrite Hk; exact Hin).
    rewrite length_app. cbn [List.length]. lia.
  - apply Forall_app. split; [exact Hm|]. constructor; [exact Hok|constructor].
Qed.

Lemma tally_ok_world :
  forall (p : Files.progress world) (w : world),
    tally_ok p ->
    tally_ok (Files.mkProgress (Files.files_moved p) w
                (Files.moves p)).
Proof. intros p w H. exact H. Qed.

Lemma try_categories_tally :
  forall directory file cats (p : Files.progress world),
    incl cats Files.file_categories ->
    tally_ok p ->
    tally_ok
      (snd (Files.try_categories move join directory file
              (PyStr.lower (Files.splitext_ext file)) cats p)).
Proof.
  intros directory file. induction cats as [|[category extensions] cats IH];
    intros p Hincl Hp; cbn [Files.try_categories].
  - exact Hp.
  - assert (Hcats : incl cats Files.file_categories)
      by (intros x Hx; apply Hincl; right; exact Hx).
    assert (Hin : In (category, extensions) Files.file_categories)
      by (apply Hincl; left; reflexivity).
    destruct (Files.mem _ extensions) eqn:Hmem; [|apply IH; assumption].
    destruct (move _ _ _) as [w [e|]].
    + apply IH; [exact Hcats|]. apply tally_ok_world. exact Hp.
    + cbn [snd]. apply tally_ok_moved; [exact Hp| |].
      * apply in_or_app. left. unfold Files.category_names.
        apply (in_map fst) in Hin. exact Hin.
      * left. exists extensions. split; [exact Hin|exact Hmem].
Qed.

Lemma organize_file_tally :
  forall directory file (p : Files.progress world),
    tally_ok p ->
    tally_ok (run_state (Files.organize_file path_exists isfile makedirs
                           move join directory file p)).
Proof.
  intros directory file p Hp. unfold Files.organize_file.
  destruct (isfile _ _); [|exact Hp].
  pose proof (try_categories_tally directory file Files.file_categories p
                (incl_refl _) Hp) as H1.
  destruct (Files.try_categories _ _ _ _ _ _ _) as [[|] p1]; cbn [snd] in H1.
  - exact H1.
  - unfold Files.move_to_others.
    destruct (if path_exists _ _ then _ else _) as [w1 [e|]].
    + exact H1.
    + destruct (move _ _ w1) as [w2 [e|]]; cbn [run_state].
      * exact H1.
      * apply tally_ok_moved; [exact H1| |right; reflexivity].
        apply in_or_app. right. left. reflexivity.
Qed.

Lemma organize_files_tally :
  forall directory files (p : Files.progress world),
    tally_ok p ->
    tally_ok (run_state (Files.organize_files path_exists isfile makedirs
                           move join directory files p)).
Proof.
  intros directory. induction files as [|file rest IH]; intros p Hp.
  - exact Hp.
  - cbn [Files.organize_files].
    pose proof (organize_file_tally directory file p Hp) as H1.
    destruct (Files.organize_file _ _ _ _ _ _ _ _) as [p1|e p1];
      cbn [run_state] in H1.
    + apply IH. exact H1.
    + exact H1.
Qed.

(** The dictionary and the moves of a call on a directory that
    exists, when the call returns. *)
Lemma organize_directory_run :
  forall directory w d w' log,
    path_exists directory w = true ->
    Files.organize_directory path_exists isfile makedirs listdir move
      join directory w = (Files.Returned d, w', log) ->
    tally_ok (Files.mkProgress d w' log).
Proof.
  intros directory w d w' log He H. unfold Files.organize_directory in H.
  rewrite He in H. cbn [negb] in H.
  destruct (Files.make_category_dirs _ _ _ _ _ _) as [w1 [e|]];
    [discriminate H|].
  destruct (listdir directory w1) as [files|e]; [|discriminate H].
  match type of H with
  | match Files.organize_files _ _ _ _ _ _ ?fs ?p0 with _ => _ end = _ =>
      pose proof (organize_files_tally directory fs p0) as Hinv
  end.
  destruct (Files.organize_files _ _ _ _ _ _ _ _) as [p|e p];
    [|discriminate H].
  injection H as <- <- <-. destruct p as [d w' log]. apply Hinv.
  split; [|split].
  - cbn [Files.files_moved]. rewrite map_app, map_map. cbn [map fst].
    rewrite map_id. reflexivity.
  - reflexivity.
  - constructor.
Qed.

Lemma organize_directory_missing :
  forall directory w,
    path_exists directory w = false ->
    Files.organize_directory path_exists isfile makedirs listdir move
      join directory w = (Files.Returned [], w, []).
Proof.
  intros directory w He. unfold Files.organize_directory. rewrite He.
  reflexivity.
Qed.

(** X15: [organize_directory] on a directory that does not exist
    returns the empty dictionary, touches nothing and moves nothing.
    On one that exists, whenever it returns: the dictionary has the
    eight categories and "others" as its keys, in that order; its
    values add up to the number of files that were moved, so a file
    whose move failed is not counted; and every file that was moved
    went into a category that lists its lower-cased extension, or into
    "others". *)
Theorem X15_organize_tally :
  forall directory w d w' log,
    Files.organize_directory path_exists isfile makedirs listdir move
      join directory w = (Files.Returned d, w', log) ->
    (path_exists directory w = false /\ d = [] /\ w' = w /\ log = []) \/
    (path_exists directory w = true /\
     map fst d = (Files.category_names ++ ["others"])%list /\
     Files.total d = Z.of_nat (List.length log) /\
     Forall move_allowed log).
Proof.
  intros directory w d w' log H.
  destruct (path_exists directory w) eqn:He.
  - right. split; [reflexivity|].
    exact (organize_directory_run directory w d w' log He H).
  - left. rewrite (organize_directory_missing directory w He) in H.
    injection H as <- <- <-. repeat split.
Qed.

(** X16: the clean handlers ask first.  Unless the answer holds "yes",
    in any letter case, nothing is moved, the file system is as it
    was, and only the question has been said.  After a "yes", when
    nothing is raised, the number that is said is the number of files
    that were moved.  The reminders are not touched in any case. *)
Theorem X16_clean_asks_first :
  forall place path response m w,
    let '(err, m', w', log) :=
      Files.handle_clean path_exists isfile makedirs listdir move join
        place path response m w in
    Reminders.reminders m' = Reminders.reminders m /\
    Reminders.announced m'
    = (Reminders.announced m ++ clean_speech place response err log)%list /\
    (confirmed response = false -> err = None /\ w' = w /\ log = []).
Proof.
  intros place path response m w.
  unfold Files.handle_clean, Files.confirm_command, clean_speech.
  assert (Hc : (match response with
                | Some r => (PyStr.contains "yes" (PyStr.lower r),
                             Bot.say ("Do you want me to "
                                      ++ ("clean your " ++ place)
                                      ++ "? Please say yes or no.") m)
                | None => (false,
                           Bot.say ("Do you want me to "
                                    ++ ("clean your " ++ place)
                                    ++ "? Please say yes or no.") m)
                end)
               = (confirmed response, Bot.say (msg_question place) m))
    by (destruct response; reflexivity).
  rewrite Hc. clear Hc.
  destruct (confirmed response).
  - destruct (Files.organize_directory _ _ _ _ _ _ _ _)
      as [[[d|e] w1] log] eqn:Ho.
    + split; [reflexivity|]. split; [|discriminate].
      assert (Ht : Files.total d = Z.of_nat (List.length log)).
      { destruct (path_exists path w) eqn:He.
        - apply (organize_directory_run path w d w1 log He Ho).
        - rewrite (organize_directory_missing path w He) in Ho.
          injection Ho as <- <- <-. reflexivity. }
      unfold Bot.say, Reminders.announce, msg_cleaned.
      cbn [Reminders.announced]. rewrite Ht, <- app_assoc. reflexivity.
    + split; [reflexivity|]. split; [reflexivity|discriminate].
  - split; [reflexivity|]. split; [reflexivity|]. intros _. repeat split.
Qed.

(** A file that no category lists goes through the loop unmoved. *)
Lemma try_categories_no_match :
  forall directory file ext cats (p : Files.progress world),
    filter (fun entry => Files.mem ext (snd entry)) cats = [] ->
    Files.try_categories move join directory file ext cats p
    = (false, p).
Proof.
  intros directory file ext. induction cats as [|[c exts] cats IH];
    intros p H; cbn [Files.try_categories].
  - reflexivity.
  - cbn [filter snd] in H. destruct (Files.mem ext exts); [discriminate H|].
    apply IH. exact H.
Qed.

(** The first category that lists the extension takes the file when
    the move succeeds. *)
Lemma try_categories_first :
  forall directory file ext c exts w cats (p : Files.progress world),
    find (fun entry => Files.mem ext (snd entry)) cats = Some (c, exts) ->
    move (join directory file) (join (join directory c) file)
      (Files.fs p) = (w, None) ->
    Files.try_categories move join directory file ext cats p
    = (true,
       Files.mkProgress
         (Files.increment c (Files.files_moved p)) w
         (Files.moves p ++ [(file, c)])%list).
Proof.
  intros directory file ext c exts w.
  induction cats as [|[c' exts'] cats IH]; intros p Hf Hm;
    cbn [Files.try_categories find snd] in *.
  - discriminate Hf.
  - destruct (Files.mem ext exts').
    + injection Hf as -> ->. rewrite Hm. reflexivity.
    + apply IH; assumption.
Qed.

(** When that move fails and no other category lists the extension,
    the loop ends without a move. *)
Lemma try_categories_failed :
  forall directory file ext c exts w e cats (p : Files.progress world),
    find (fun entry => Files.mem ext (snd entry)) cats = Some (c, exts) ->
    List.length (filter (fun entry => Files.mem ext (snd entry)) cats) = 1%nat ->
    move (join directory file) (join (join directory c) file)
      (Files.fs p) = (w, Some e) ->
    Files.try_categories move join directory file ext cats p
    = (false,
       Files.mkProgress (Files.files_moved p) w
         (Files.moves p)).
Proof.
  intros directory file ext c exts w e.
  induction cats as [|[c' exts'] cats IH]; intros p Hf Hl Hm;
    cbn [Files.try_categories find filter snd] in *.
  - discriminate Hf.
  - destruct (Files.mem ext exts').
    + injection Hf as -> ->. rewrite Hm.
      apply try_categories_no_match.
      cbn [List.length] in Hl.
      destruct (filter _ cats); [reflexivity|discriminate Hl].
    + apply IH; assumption.
Qed.

End OrganizeProofs.

(** ** Extensions *)

Lemma lower_char_dot :
  forall c, Ascii.eqb (PyStr.lower_char c) "."%char = Ascii.eqb c "."%char.
Proof.
  intros [[|] [|] [|] [|] [|] [|] [|] [|]]; reflexivity.
Qed.

Lemma last_dot_lower :
  forall s, Files.last_dot (PyStr.lower s) = None -> Files.last_dot s = None.
Proof.
  induction s as [|c s IH]; cbn [PyStr.lower Files.last_dot]; intros H.
  - reflexivity.
  - destruct (Files.last_dot (PyStr.lower s)) as [[b e]|]; [discriminate H|].
    rewrite (IH eq_refl). rewrite lower_char_dot in H.
    destruct (Ascii.eqb c "."%char); [discriminate H|reflexivity].
Qed.

Lemma last_dot_app :
  forall base r,
    Files.last_dot r = None ->
    Files.last_dot (base ++ String "."%char r)
    = Some (base, String "."%char r).
Proof.
  induction base as [|c base IH]; intros r H.
  - cbn [append Files.last_dot]. rewrite H. reflexivity.
  - cbn [append]. cbn [Files.last_dot]. rewrite (IH r H). reflexivity.
Qed.

(** Every listed extension is a dot followed by text without a dot,
    and belongs to one category only. *)
Lemma listed_extension :
  forall c exts ext,
    In (c, exts) Files.file_categories ->
    In ext exts ->
    (exists r, ext = String "."%char r /\ Files.last_dot r = None) /\
    find (fun entry => Files.mem ext (snd entry)) Files.file_categories
    = Some (c, exts) /\
    List.length
      (filter (fun entry => Files.mem ext (snd entry)) Files.file_categories)
    = 1%nat.
Proof.
  intros c exts ext Hc He.
  unfold Files.file_categories in Hc.
  destruct Hc as [Hc|[Hc|[Hc|[Hc|[Hc|[Hc|[Hc|[Hc|[]]]]]]]]];
    injection Hc as <- <-; cbn [In] in He;
    repeat (destruct He as [He|He];
            [subst ext; split; [eexists; split; reflexivity|];
             split; reflexivity|]);
    contradiction.
Qed.

(** The extension of a name that ends in a listed extension, in any
    letter case. *)
Lemma splitext_listed :
  forall c exts base e,
    In (c, exts) Files.file_categories ->
    In (PyStr.lower e) exts ->
    Files.all_dots base = false ->
    Files.splitext_ext (base ++ e) = e.
Proof.
  intros c exts base e Hc He Hb.
  destruct (listed_extension c exts _ Hc He) as ((r & Hr & Hd) & _).
  destruct e as [|c0 e']; [discriminate Hr|].
  cbn [PyStr.lower] in Hr. injection Hr as Hc0 Hr'.
  assert (c0 = "."%char) as ->.
  { apply Ascii.eqb_eq. rewrite <- lower_char_dot, Hc0. reflexivity. }
  subst r. apply last_dot_lower in Hd.
  unfold Files.splitext_ext. rewrite (last_dot_app base e' Hd), Hb.
  reflexivity.
Qed.

Section Classify.

Variable world : Type.
Variable error : Type.
Variable path_exists : string -> world -> bool.
Variable isfile : string -> world -> bool.
Variable makedirs : string -> world -> world * option error.
Variable move : string -> string -> world -> world * option error.
Variable join : string -> string -> string.

(** X17: a regular file whose name ends in an extension that a
    category lists, written in any letter case, after a base that is
    not made of dots only, is moved into the directory of that
    category and counted there, when the move succeeds. *)
Theorem X17_extension_decides_category :
  forall directory base e c exts (p : Files.progress world) w,
    In (c, exts) Files.file_categories ->
    In (PyStr.lower e) exts ->
    Files.all_dots base = false ->
    file_name (base ++ e) ->
    isfile (join directory (base ++ e)) (Files.fs p) = true ->
    move (join directory (base ++ e)) (join (join directory c) (base ++ e))
      (Files.fs p) = (w, None) ->
    Files.organize_file path_exists isfile makedirs move join
      directory (base ++ e) p
    = Files.Going
        (Files.mkProgress
           (Files.increment c (Files.files_moved p)) w
           (Files.moves p ++ [((base ++ e)%string, c)])%list).
Proof.
  intros directory base e c exts p w Hc He Hb _ Hf Hm.
  unfold Files.organize_file. rewrite Hf.
  rewrite (splitext_listed c exts base e Hc He Hb).
  destruct (listed_extension c exts _ Hc He) as (_ & Hfind & _).
  rewrite (try_categories_first world error move join directory (base ++ e)
             (PyStr.lower e) c exts w Files.file_categories p Hfind Hm).
  reflexivity.
Qed.

(** X18: when the move of such a file into its category fails, the
    file is treated as a file of no category: it is moved into
    "others" and counted under "others". *)
Theorem X18_failed_move_falls_back_to_others :
  forall directory base e c exts (p : Files.progress world) w1 err w2,
    In (c, exts) Files.file_categories ->
    In (PyStr.lower e) exts ->
    Files.all_dots base = false ->
    file_name (base ++ e) ->
    isfile (join directory (base ++ e)) (Files.fs p) = true ->
    move (join directory (base ++ e)) (join (join directory c) (base ++ e))
      (Files.fs p) = (w1, Some err) ->
    path_exists (join directory "others") w1 = true ->
    move (join directory (base ++ e))
      (join (join directory "others") (base ++ e)) w1 = (w2, None) ->
    Files.organize_file path_exists isfile makedirs move join
      directory (base ++ e) p
    = Files.Going
        (Files.mkProgress
           (Files.increment "others" (Files.files_moved p)) w2
           (Files.moves p ++ [((base ++ e)%string, "others")])%list).
Proof.
  intros directory base e c exts p w1 err w2 Hc He Hb _ Hf Hm1 Ho Hm2.
  unfold Files.organize_file. rewrite Hf.
  rewrite (splitext_listed c exts base e Hc He Hb).
  destruct (listed_extension c exts _ Hc He) as (_ & Hfind & Hone).
  rewrite (try_categories_failed world error move join directory (base ++ e)
             (PyStr.lower e) c exts w1 err Files.file_categories p
             Hfind Hone Hm1).
  unfold Files.move_to_others. cbn [Files.fs Files.files_moved Files.moves].
  rewrite Ho, Hm2. reflexivity.
Qed.

End Classify.

Lemma X15_witness :
  exists d w' log,
    Files.organize_directory toy_exists toy_isfile toy_makedirs toy_listdir
      toy_move toy_join "Desktop" toy_desktop_clash
    = (Files.Returned d, w', log) /\
    ((toy_exists "Desktop" toy_desktop_clash = false /\
      d = [] /\ w' = toy_desktop_clash /\ log = []) \/
     (toy_exists "Desktop" toy_desktop_clash = true /\
      map fst d = (Files.category_names ++ ["others"])%list /\
      Files.total d = Z.of_nat (List.length log) /\
      Forall move_allowed log)).
Proof.
  do 3 eexists. split.
  - vm_compute. reflexivity.
  - apply (X15_organize_tally toy_world toy_error toy_exists toy_isfile
             toy_makedirs toy_listdir toy_move toy_join
             "Desktop" toy_desktop_clash).
    vm_compute. reflexivity.
Defined.

Lemma X17_witness :
  Files.organize_file toy_exists toy_isfile toy_makedirs toy_move toy_join
    "Desktop" "Report.PDF" (toy_start toy_desktop)
  = Files.Going
      (Files.mkProgress
         (Files.increment "documents"
            (Files.files_moved (toy_start toy_desktop)))
         ["Desktop/documents/Report.PDF"; "Desktop/photo.jpeg";
          "Desktop/.profile"; "Desktop/data.tar.gz"]
         [("Report.PDF", "documents")]).
Proof.
  apply (X17_extension_decides_category toy_world toy_error toy_exists
           toy_isfile toy_makedirs toy_move toy_join
           "Desktop" "Report" ".PDF" "documents"
           [".pdf"; ".doc"; ".docx"; ".txt"; ".rtf"; ".odt"]
           (toy_start toy_desktop)).
  - vm_compute. left. reflexivity.
  - vm_compute. left. reflexivity.
  - reflexivity.
  - split; reflexivity.
  - reflexivity.
  - reflexivity.
Defined.

Lemma X18_witness :
  Files.organize_file toy_exists toy_isfile toy_makedirs toy_move toy_join
    "Desktop" "Report.PDF" (toy_start toy_desktop_clash)
  = Files.Going
      (Files.mkProgress
         (Files.increment "others"
            (Files.files_moved (toy_start toy_desktop_clash)))
         ["Desktop/others/Report.PDF"; "Desktop/documents/Report.PDF";
          "Desktop/photo.jpeg"; "Desktop/.profile"; "Desktop/data.tar.gz"]
         [("Report.PDF", "others")]).
Proof.
  apply (X18_failed_move_falls_back_to_others toy_world toy_error toy_exists
           toy_isfile toy_makedirs toy_move toy_join
           "Desktop" "Report" ".PDF" "documents"
           [".pdf"; ".doc"; ".docx"; ".txt"; ".rtf"; ".odt"]
           (toy_start toy_desktop_clash) toy_desktop_clash FileExists).
  - vm_compute. left. reflexivity.
  - vm_compute. left. reflexivity.
  - reflexivity.
  - split; reflexivity.
  - reflexivity.
  - reflexivity.
  - reflexivity.
  - reflexivity.
Defined.

Lemma X16_witness :
  let '(err, m', w', log) :=
    Files.handle_clean toy_exists toy_isfile toy_makedirs toy_listdir
      toy_move toy_join "desktop" "Desktop" (Some "Yes, please") fresh
      toy_desktop in
  Reminders.reminders m' = Reminders.reminders fresh /\
  Reminders.announced m'
  = (Reminders.announced fresh
     ++ clean_speech "desktop" (Some "Yes, please") err log)%list /\
  (confirmed (Some "Yes, please") = false ->
   err = None /\ w' = toy_desktop /\ log = []).
Proof.
  apply (X16_clean_asks_first toy_world toy_error toy_exists toy_isfile
           toy_makedirs toy_listdir toy_move toy_join
           "desktop" "Desktop" (Some "Yes, please") fresh toy_desktop).
Defined.
